(** * OCI carbon-emissions retrieval: a shallow embedding and its properties

    The development follows [reporting/oci_carbon_emissions.py]: the
    class [OCICarbonEmissionsRetriever], the helper
    [calculate_first_day_date_range] and the multi-query branch of [main].

    Conventions of the embedding.
    - A Python [str] is a [string]; a Python [int] is a [Z]; a Python [float]
      is a binary64 [float] (the kernel's primitive floats).
    - A call that may raise returns a [result]; the external collaborators
      (the usage API client, the file system) are an explicit state threaded
      through a small state-and-exception monad.
    - [print] calls are not modelled: the console is never read back. *)

From Stdlib Require Import ZArith List String Ascii Bool Lia.
From Stdlib Require Import Floats Permutation Sorted.
Import ListNotations.

Local Open Scope string_scope.
Local Open Scope list_scope.

(** ** Python values and exceptions *)

Module Py.

(** The exceptions that occur in the modelled code.  All of them derive
    from [Exception], so [except Exception] catches each one. *)
Inductive exn : Type :=
| ValueError (message : string)
| AttributeError (message : string)
| UnboundLocalError (name : string)
| ServiceError (message : string)
| OSError (message : string).

Inductive result (A : Type) : Type :=
| Return (value : A)
| Raise (e : exn).
Arguments Return {A} value.
Arguments Raise {A} e.

(** [x in l] for a list of strings. *)
Definition str_in (x : string) (l : list string) : bool :=
  existsb (String.eqb x) l.

(** Truth value of a list: [not l] is [is_empty l]. *)
Definition is_empty {A : Type} (l : list A) : bool :=
  match l with
  | [] => true
  | _ :: _ => false
  end.

(** The slice [l[:n]].  A negative bound counts from the end. *)
Definition slice_to {A : Type} (n : Z) (l : list A) : list A :=
  if (0 <=? n)%Z then firstn (Z.to_nat n) l
  else firstn (Z.to_nat (Z.of_nat (List.length l) + n)) l.

End Py.

Import Py.

(** ** GroupByValidator: [validate_group_by_fields] *)

Module GroupBy.

Definition power_based_supported : list string :=
  [ "service"; "compartmentName"; "compartmentId"; "region";
    "tenantId"; "tenantName"; "subscriptionId" ].

Definition spend_based_supported : list string :=
  [ "service"; "compartmentName"; "compartmentId"; "region";
    "tenantId"; "tenantName"; "subscriptionId"; "platform";
    "resourceId"; "resourceName"; "skuName"; "skuPartNumber" ].

(** [OCICarbonEmissionsRetriever.validate_group_by_fields]. *)
Definition validate_group_by_fields
    (group_by : list string) (calculation_method : string) : list string :=
  let valid_fields :=
    if String.eqb calculation_method "POWER_BASED" then
      let supported_fields := power_based_supported in
      filter (fun field => str_in field supported_fields) group_by
    else
      let supported_fields := spend_based_supported in
      filter (fun field => str_in field supported_fields) group_by in
  let valid_fields :=
    if is_empty valid_fields then [ "service" ] else valid_fields in
  let valid_fields :=
    if (4 <? List.length valid_fields)%nat then firstn 4 valid_fields
    else valid_fields in
  valid_fields.

(** The capability table of the specification: the set of grouping
    dimensions a calculation method permits. *)
Definition capability_set (calculation_method : string) : list string :=
  if String.eqb calculation_method "POWER_BASED"
  then power_based_supported else spend_based_supported.

(** The validator as the specification words it: drop what is outside the
    capability set, default to [service], keep the first four. *)
Definition validate_spec
    (requested : list string) (calculation_method : string) : list string :=
  let kept :=
    filter (fun f => str_in f (capability_set calculation_method)) requested in
  firstn 4 (match kept with [] => [ "service" ] | _ :: _ => kept end).

End GroupBy.

(** ** The [datetime] library, as far as the program uses it

    [datetime.strptime], [datetime.fromisoformat], [datetime.replace] and
    [datetime.strftime] belong to the Python standard library, not to the
    program.  They are modelled as CPython 3.11 has them on a GNU C
    library: [strptime] with the directives [%Y] (four digits), [%m] and
    [%d] (one or two digits); [fromisoformat] as its C implementation
    reads a text, with the calendar and ISO week dates, the basic and the
    extended forms and any separator before the time; [strftime] with
    [%m] and [%d] in two digits and [%Y] as the C library prints a year,
    without leading zeros.  A character is a code point below 256: digits
    other than [0]..[9] are outside the model. *)

Module DateTime.

Local Open Scope Z_scope.

Record datetime : Type := mk_datetime {
  year : Z;
  month : Z;
  day : Z;
  hour : Z;
  minute : Z;
  second : Z;
  microsecond : Z;
  (** [utcoffset] in microseconds; [None] for a naive datetime. *)
  tzinfo : option Z
}.

Definition is_leap (y : Z) : bool :=
  ((y mod 4 =? 0) && negb (y mod 100 =? 0)) || (y mod 400 =? 0).

Definition days_in_month (y m : Z) : Z :=
  if m =? 2 then (if is_leap y then 29 else 28)
  else if (m =? 4) || (m =? 6) || (m =? 9) || (m =? 11) then 30
  else 31.

Definition in_range (lo x hi : Z) : bool := (lo <=? x) && (x <=? hi).

(** The checks of the [datetime] and [timezone] constructors. *)
Definition valid_fields (dt : datetime) : bool :=
  in_range 1 (year dt) 9999 && in_range 1 (month dt) 12
  && in_range 1 (day dt) (days_in_month (year dt) (month dt))
  && in_range 0 (hour dt) 23 && in_range 0 (minute dt) 59
  && in_range 0 (second dt) 59 && in_range 0 (microsecond dt) 999999
  && match tzinfo dt with
     | None => true
     | Some off => (- 86400000000 <? off) && (off <? 86400000000)
     end.

(** [datetime(...)]: the record when its fields are in range, [ValueError]
    otherwise. *)
Definition datetime_new (dt : datetime) : result datetime :=
  if valid_fields dt then Return dt
  else Raise (ValueError "field out of range").

(** [dt.replace(day=1, hour=0, minute=0, second=0, microsecond=0)]. *)
Definition replace_first_midnight (dt : datetime) : result datetime :=
  datetime_new (mk_datetime (year dt) (month dt) 1 0 0 0 0 (tzinfo dt)).

(** [dt.replace(day=d)]. *)
Definition replace_day (dt : datetime) (d : Z) : result datetime :=
  datetime_new (mk_datetime (year dt) (month dt) d (hour dt) (minute dt)
                            (second dt) (microsecond dt) (tzinfo dt)).

(** [dt.replace(month=m)]. *)
Definition replace_month (dt : datetime) (m : Z) : result datetime :=
  datetime_new (mk_datetime (year dt) m (day dt) (hour dt) (minute dt)
                            (second dt) (microsecond dt) (tzinfo dt)).

(** [dt.replace(year=y, month=m)]. *)
Definition replace_year_month (dt : datetime) (y m : Z) : result datetime :=
  datetime_new (mk_datetime y m (day dt) (hour dt) (minute dt)
                            (second dt) (microsecond dt) (tzinfo dt)).

(** *** Reading digits *)

Definition digit (c : ascii) : option Z :=
  let n := Z.of_N (N_of_ascii c) in
  if in_range 48 n 57 then Some (n - 48) else None.

(** Exactly [n] decimal digits at the head of [s]: their value (on top of
    [acc]) and the rest. *)
Fixpoint take_digits (n : nat) (acc : Z) (s : string) : option (Z * string) :=
  match n with
  | O => Some (acc, s)
  | S n' =>
      match s with
      | String c rest =>
          match digit c with
          | Some d => take_digits n' (10 * acc + d) rest
          | None => None
          end
      | EmptyString => None
      end
  end.

Definition expect (c : ascii) (s : string) : option string :=
  match s with
  | String c' rest => if Ascii.eqb c c' then Some rest else None
  | EmptyString => None
  end.

(** *** Writing digits *)

Definition digit_char (d : Z) : ascii := ascii_of_N (Z.to_N (48 + d)).

Definition pad2 (n : Z) : string :=
  String (digit_char (n / 10 mod 10)) (String (digit_char (n mod 10)) "").

Definition pad4 (n : Z) : string :=
  String (digit_char (n / 1000 mod 10))
    (String (digit_char (n / 100 mod 10)) (pad2 n)).

(** [%Y] as the C library prints it here (glibc): the year in decimal
    without leading zeros, so three digits for the year 999. *)
Definition year_text (y : Z) : string :=
  if y <? 10 then String (digit_char y) ""
  else if y <? 100 then pad2 y
  else if y <? 1000 then String (digit_char (y / 100 mod 10)) (pad2 y)
  else pad4 y.

(** [dt.strftime("%Y-%m-%d")]. *)
Definition strftime_date (dt : datetime) : string :=
  (year_text (year dt) ++ "-" ++ pad2 (month dt) ++ "-" ++ pad2 (day dt))%string.

(** [dt.strftime("%Y-%m-%dT00:00:00Z")]: the time of day and the offset of
    [dt] are not printed, the text after [%d] is literal. *)
Definition strftime_api (dt : datetime) : string :=
  (strftime_date dt ++ "T00:00:00Z")%string.

(** *** [datetime.strptime(s, "%Y-%m-%d")] *)

(** [%m]: [1[0-2]|0[1-9]|[1-9]]. *)
Definition strptime_month (s : string) : option (Z * string) :=
  match s with
  | String c1 rest1 =>
      match digit c1, rest1 with
      | Some 1, String c2 rest2 =>
          match digit c2 with
          | Some d2 => if d2 <=? 2 then Some (10 + d2, rest2) else Some (1, rest1)
          | None => Some (1, rest1)
          end
      | Some 0, String c2 rest2 =>
          match digit c2 with
          | Some d2 => if 1 <=? d2 then Some (d2, rest2) else None
          | None => None
          end
      | Some d1, _ => if 1 <=? d1 then Some (d1, rest1) else None
      | None, _ => None
      end
  | EmptyString => None
  end.

(** [%d]: [3[01]|[12]\d|0[1-9]|[1-9]| [1-9]]. *)
Definition strptime_day (s : string) : option (Z * string) :=
  match s with
  | String c1 rest1 =>
      match digit c1, rest1 with
      | Some 3, String c2 rest2 =>
          match digit c2 with
          | Some d2 => if d2 <=? 1 then Some (30 + d2, rest2) else Some (3, rest1)
          | None => Some (3, rest1)
          end
      | Some 0, String c2 rest2 =>
          match digit c2 with
          | Some d2 => if 1 <=? d2 then Some (d2, rest2) else None
          | None => None
          end
      | Some d1, String c2 rest2 =>
          if 1 <=? d1 then
            match digit c2 with
            | Some d2 => if d1 <=? 2 then Some (10 * d1 + d2, rest2)
                         else Some (d1, rest1)
            | None => Some (d1, rest1)
            end
          else None
      | Some d1, EmptyString => if 1 <=? d1 then Some (d1, rest1) else None
      | None, String c2 rest2 =>
          if Ascii.eqb c1 " " then
            match digit c2 with
            | Some d2 => if 1 <=? d2 then Some (d2, rest2) else None
            | None => None
            end
          else None
      | None, EmptyString => None
      end
  | EmptyString => None
  end.

Definition strptime_ymd (s : string) : result datetime :=
  match take_digits 4 0 s with
  | Some (y, r0) =>
      match expect "-" r0 with
      | Some r1 =>
          match strptime_month r1 with
          | Some (m, r2) =>
              match expect "-" r2 with
              | Some r3 =>
                  match strptime_day r3 with
                  | Some (d, EmptyString) =>
                      datetime_new (mk_datetime y m d 0 0 0 0 None)
                  | Some (_, String _ _) =>
                      Raise (ValueError "unconverted data remains")
                  | None => Raise (ValueError "does not match format")
                  end
              | None => Raise (ValueError "does not match format")
              end
          | None => Raise (ValueError "does not match format")
          end
      | None => Raise (ValueError "does not match format")
      end
  | None => Raise (ValueError "does not match format")
  end.

(** *** [datetime.fromisoformat]

    The function of CPython 3.11 (the C implementation), which reads the
    UTF-8 bytes of the text; a character of the model is a code point
    below 256.  The buffer ends with a NUL byte, which the code reads as
    the end of the text. *)

(** The UTF-8 bytes of a text. *)
Fixpoint utf8 (s : string) : list Z :=
  match s with
  | EmptyString => []
  | String c rest =>
      let n := Z.of_N (N_of_ascii c) in
      if n <? 128 then n :: utf8 rest
      else Z.lor 192 (Z.shiftr n 6) :: Z.lor 128 (Z.land n 63) :: utf8 rest
  end.

(** [dtstr[i]], the NUL at and after the end. *)
Definition byte_at (b : list Z) (i : nat) : Z := nth i b 0.

Definition is_digit (c : Z) : bool := in_range 48 c 57.

(** [parse_digits]: exactly [n] digits from position [p]; their value on
    top of [acc] and the position after them. *)
Fixpoint parse_digits (b : list Z) (p : nat) (n : nat) (acc : Z)
  : option (Z * nat) :=
  match n with
  | O => Some (acc, p)
  | S n' =>
      let c := byte_at b p in
      if is_digit c then parse_digits b (S p) n' (10 * acc + (c - 48))
      else None
  end.

(** The position after the digits that start at [idx], [fuel] of them at
    most. *)
Fixpoint skip_digits (b : list Z) (idx : nat) (fuel : nat) : nat :=
  match fuel with
  | O => idx
  | S fuel' =>
      if is_digit (byte_at b idx) then skip_digits b (S idx) fuel' else idx
  end.

(** [_find_isoformat_datetime_separator]: where the date ends, for a text
    of [len] bytes (7 at least). *)
Definition find_isoformat_datetime_separator (b : list Z) (len : nat)
  : option nat :=
  if Nat.eqb len 7 then Some 7%nat
  else if byte_at b 4 =? 45 then
    if byte_at b 5 =? 87 then
      if Nat.ltb len 8 then None
      else if Nat.ltb 8 len && (byte_at b 8 =? 45) then
        if Nat.eqb len 9 then None
        else if Nat.ltb 10 len && is_digit (byte_at b 10) then Some 8%nat
        else Some 10%nat
      else Some 8%nat
    else Some 10%nat
  else if byte_at b 4 =? 87 then
    let idx := skip_digits b 7 (len - 7)%nat in
    if Nat.ltb idx 9 then Some idx
    else if Nat.even idx then Some 7%nat
    else Some 8%nat
  else Some 8%nat.

(** The calendar arithmetic of the module; every number is positive
    here. *)
Definition days_before_month_table : list Z :=
  [ 0; 0; 31; 59; 90; 120; 151; 181; 212; 243; 273; 304; 334 ].

Definition days_before_month (y m : Z) : Z :=
  nth (Z.to_nat m) days_before_month_table 0
  + (if (2 <? m) && is_leap y then 1 else 0).

Definition days_before_year (y : Z) : Z :=
  let y := y - 1 in
  y * 365 + y / 4 - y / 100 + y / 400.

Definition ymd_to_ord (y m d : Z) : Z :=
  days_before_year y + days_before_month y m + d.

(** Monday is 0. *)
Definition weekday (y m d : Z) : Z := (ymd_to_ord y m d + 6) mod 7.

Definition iso_week1_monday (y : Z) : Z :=
  let first_day := ymd_to_ord y 1 1 in
  let first_weekday := (first_day + 6) mod 7 in
  let week1_monday := first_day - first_weekday in
  if 3 <? first_weekday then week1_monday + 7 else week1_monday.

Definition ord_to_ymd (ordinal : Z) : Z * Z * Z :=
  let ordinal := ordinal - 1 in
  let n400 := ordinal / 146097 in
  let n := ordinal mod 146097 in
  let n100 := n / 36524 in
  let n := n mod 36524 in
  let n4 := n / 1461 in
  let n := n mod 1461 in
  let n1 := n / 365 in
  let n := n mod 365 in
  let y := n400 * 400 + 1 + n100 * 100 + n4 * 4 + n1 in
  if (n1 =? 4) || (n100 =? 4) then (y - 1, 12, 31)
  else
    let leapyear := (n1 =? 3) && (negb (n4 =? 24) || (n100 =? 3)) in
    let m := Z.shiftr (n + 50) 5 in
    let preceding :=
      nth (Z.to_nat m) days_before_month_table 0
      + (if (2 <? m) && leapyear then 1 else 0) in
    let '(m, preceding) :=
      if n <? preceding
      then (m - 1, preceding - days_in_month y (m - 1))
      else (m, preceding) in
    (y, m, n - preceding + 1).

(** [iso_to_ymd]: the date of a day of an ISO week. *)
Definition iso_to_ymd (iso_year iso_week iso_day : Z) : option (Z * Z * Z) :=
  if negb (in_range 1 iso_year 9999) then None
  else if
    ((iso_week <=? 0) || (53 <=? iso_week))
    && negb ((iso_week =? 53)
             && (let first_weekday := weekday iso_year 1 1 in
                 (first_weekday =? 3)
                 || ((first_weekday =? 2) && is_leap iso_year)))
  then None
  else if (iso_day <=? 0) || (8 <=? iso_day) then None
  else
    let day_1 := iso_week1_monday iso_year in
    let day_offset := (iso_week - 1) * 7 + iso_day - 1 in
    Some (ord_to_ymd (day_1 + day_offset)).

(** [parse_isoformat_date] on the first [len] bytes: [YYYY-MM-DD],
    [YYYYMMDD], [YYYY-Www[-D]] or [YYYYWww[D]]. *)
Definition parse_isoformat_date (b : list Z) (len : nat)
  : option (Z * Z * Z) :=
  match parse_digits b 0 4 0 with
  | None => None
  | Some (y, p) =>
      let uses_separator := byte_at b p =? 45 in
      let p := if uses_separator then S p else p in
      if byte_at b p =? 87 then
        match parse_digits b (S p) 2 0 with
        | None => None
        | Some (iso_week, p) =>
            if Nat.ltb p len then
              if uses_separator && negb (byte_at b p =? 45) then None
              else
                let p := if uses_separator then S p else p in
                match parse_digits b p 1 0 with
                | None => None
                | Some (iso_day, _) => iso_to_ymd y iso_week iso_day
                end
            else iso_to_ymd y iso_week 1
        end
      else
        match parse_digits b p 2 0 with
        | None => None
        | Some (m, p) =>
            if uses_separator && negb (byte_at b p =? 45) then None
            else
              let p := if uses_separator then S p else p in
              match parse_digits b p 2 0 with
              | None => None
              | Some (d, _) => Some (y, m, d)
              end
        end
  end.

(** How the loop over hour, minute and second of [parse_hh_mm_ss_ff]
    ends: with an error, with the end of the text ([text_left] when the byte
    read last was not the NUL), or before a fraction at [p]. *)
Inductive components : Type :=
| Malformed
| Ended (vals : list Z) (text_left : bool)
| Fraction (vals : list Z) (p : nat).

(** The loop [for (i = 0; i < 3; ++i)], [n] rounds of it left. *)
Fixpoint time_components (b : list Z) (p_end : nat) (n : nat) (first : bool)
    (has_separator : bool) (p : nat) (vals : list Z) : components :=
  match n with
  | O => Fraction vals p
  | S n' =>
      match parse_digits b p 2 0 with
      | None => Malformed
      | Some (v, p) =>
          let vals := vals ++ [ v ] in
          let c := byte_at b p in
          let p := S p in
          let has_separator := if first then c =? 58 else has_separator in
          if Nat.leb p_end p then Ended vals (negb (c =? 0))
          else if has_separator && (c =? 58)
          then time_components b p_end n' false has_separator p vals
          else if (c =? 46) || (c =? 44) then Fraction vals p
          else if negb has_separator
          then time_components b p_end n' false has_separator (Nat.pred p) vals
          else Malformed
      end
  end.

(** [parse_hh_mm_ss_ff] on the bytes from [p] to [p_end]: hour, minute,
    second, microsecond, and whether text is left (the value 1 of the C
    function). *)
Definition parse_hh_mm_ss_ff (b : list Z) (p p_end : nat)
  : option (Z * Z * Z * Z * bool) :=
  match time_components b p_end 3 true true p [] with
  | Malformed => None
  | Ended vals text_left =>
      Some (nth 0 vals 0, nth 1 vals 0, nth 2 vals 0, 0, text_left)
  | Fraction vals p =>
      let len_remains := (p_end - p)%nat in
      let to_parse := Nat.min 6 len_remains in
      match parse_digits b p to_parse 0 with
      | None => None
      | Some (us, p) =>
          let us :=
            us * nth (to_parse - 1)%nat [ 100000; 10000; 1000; 100; 10 ] 1 in
          let p := skip_digits b p (List.length b) in
          Some (nth 0 vals 0, nth 1 vals 0, nth 2 vals 0, us,
                negb (byte_at b p =? 0))
      end
  end.

(** The first of [Z], [+] and [-] from [p] on, looked for as the
    [do ... while (++tzinfo_pos < p_end)] of the C code does. *)
Fixpoint find_tzinfo (b : list Z) (p_end : nat) (fuel : nat) (p : nat) : nat :=
  let c := byte_at b p in
  if (c =? 90) || (c =? 43) || (c =? 45) then p
  else
    match fuel with
    | O => S p
    | S fuel' =>
        if Nat.ltb (S p) p_end then find_tzinfo b p_end fuel' (S p) else S p
    end.

(** [parse_isoformat_time] on the bytes from [p] to [p_end]: the time and
    the offset in seconds and microseconds, when there is one. *)
Definition parse_isoformat_time (b : list Z) (p p_end : nat)
  : option (Z * Z * Z * Z * option (Z * Z)) :=
  let tzinfo_pos := find_tzinfo b p_end (List.length b) p in
  match parse_hh_mm_ss_ff b p tzinfo_pos with
  | None => None
  | Some (h, mi, sec, us, text_left) =>
      if Nat.eqb tzinfo_pos p_end then
        if text_left then None else Some (h, mi, sec, us, None)
      else if byte_at b tzinfo_pos =? 90 then
        if byte_at b (S tzinfo_pos) =? 0 then Some (h, mi, sec, us, Some (0, 0))
        else None
      else
        let tzsign := if byte_at b tzinfo_pos =? 45 then -1 else 1 in
        match parse_hh_mm_ss_ff b (S tzinfo_pos) p_end with
        | Some (tzh, tzm, tzs, tzus, false) =>
            Some (h, mi, sec, us,
                  Some (tzsign * (tzh * 3600 + tzm * 60 + tzs), tzsign * tzus))
        | _ => None
        end
  end.

(** [tzinfo_from_isoformat_results]: an offset of zero seconds is UTC
    whatever its microseconds; the offset in microseconds otherwise. *)
Definition tzinfo_from_isoformat_results (tz : option (Z * Z)) : option Z :=
  match tz with
  | None => None
  | Some (tzoffset, tz_useconds) =>
      if tzoffset =? 0 then Some 0
      else Some (tzoffset * 1000000 + tz_useconds)
  end.

(** The number of bytes of the separator that starts with the byte [c]. *)
Definition separator_width (c : Z) : nat :=
  if Z.land c 128 =? 0 then 1%nat
  else if Z.land c 240 =? 224 then 3%nat
  else if Z.land c 240 =? 240 then 4%nat
  else 2%nat.

Definition fromisoformat (s : string) : result datetime :=
  let bad := Raise (ValueError "Invalid isoformat string") in
  let b := utf8 s in
  let len := List.length b in
  if Nat.ltb len 7 then bad
  else
    match find_isoformat_datetime_separator b len with
    | None => bad
    | Some separator_location =>
        match parse_isoformat_date b separator_location with
        | None => bad
        | Some (y, m, d) =>
            if Nat.ltb separator_location len then
              let p :=
                (separator_location
                 + separator_width (byte_at b separator_location))%nat in
              match parse_isoformat_time b p len with
              | None => bad
              | Some (h, mi, sec, us, tz) =>
                  datetime_new
                    (mk_datetime y m d h mi sec us
                       (tzinfo_from_isoformat_results tz))
              end
            else datetime_new (mk_datetime y m d 0 0 0 0 None)
        end
    end.

(** *** String helpers *)

(** [c in s] for a single character [c]. *)
Fixpoint str_contains (c : ascii) (s : string) : bool :=
  match s with
  | EmptyString => false
  | String c' rest => Ascii.eqb c c' || str_contains c rest
  end.

(** [s.replace(c, by)] for a single character [c]: every occurrence. *)
Fixpoint str_replace (c : ascii) (by_ : string) (s : string) : string :=
  match s with
  | EmptyString => EmptyString
  | String c' rest =>
      if Ascii.eqb c c' then (by_ ++ str_replace c by_ rest)%string
      else String c' (str_replace c by_ rest)
  end.

End DateTime.

Import DateTime.

(** ** DateNormalizer *)

(** [OCICarbonEmissionsRetriever._parse_and_validate_datetime].  The
    handler of [ValueError] prints and re-raises. *)
Definition _parse_and_validate_datetime (date_str : string) : result string :=
  let parsed :=
    if str_contains "T" date_str
    then fromisoformat (str_replace "Z" "+00:00" date_str)
    else strptime_ymd date_str in
  match parsed with
  | Return dt =>
      match replace_first_midnight dt with
      | Return dt => Return (strftime_api dt)
      | Raise e => Raise e
      end
  | Raise e => Raise e
  end.

(** [calculate_first_day_date_range], with the reading of the clock
    ([datetime.now()]) as the argument [today]. *)
Definition calculate_first_day_date_range
    (today : datetime) (period_type : string) : result (string * string) :=
  if String.eqb period_type "last_month" then
    match replace_day today 1 with
    | Return current_month_start =>
        let start :=
          if (month current_month_start =? 1)%Z
          then replace_year_month current_month_start
                 (year current_month_start - 1)%Z 12%Z
          else replace_month current_month_start
                 (month current_month_start - 1)%Z in
        match start with
        | Return start_date =>
            let end_date := current_month_start in
            Return (strftime_date start_date, strftime_date end_date)
        | Raise e => Raise e
        end
    | Raise e => Raise e
    end
  else if String.eqb period_type "last_3_months" then
    match replace_day today 1 with
    | Return current_month_start =>
        let year0 := year current_month_start in
        let month0 := (month current_month_start - 3)%Z in
        let '(month1, year1) :=
          if (month0 <=? 0)%Z then ((month0 + 12)%Z, (year0 - 1)%Z)
          else (month0, year0) in
        match datetime_new (mk_datetime year1 month1 1 0 0 0 0 None) with
        | Return start_date =>
            let end_date := current_month_start in
            Return (strftime_date start_date, strftime_date end_date)
        | Raise e => Raise e
        end
    | Raise e => Raise e
    end
  else
    (* neither branch binds [start_date] *)
    Raise (UnboundLocalError "start_date").

(** ** Data model of the usage API *)

Module Api.

(** A record of the response ([UsageCarbonEmissionSummary]); the fields
    the program reads by name.  An attribute that is absent or [None] is
    [None]. *)
Record EmissionRecord : Type := mk_record {
  service : option string;
  compartment_name : option string;
  compartment_id : option string;
  region : option string;
  resource_id : option string;
  computed_carbon_emission : option float
}.

(** The object a query yields: [data.items], with [None] read as the empty
    list (the program only tests its truth value before using it), and the
    continuation token [opc_next_page] as [getattr(data, 'opc_next_page',
    None)] reads it. *)
Record response : Type := mk_response {
  items : list EmissionRecord;
  opc_request_id : option string;
  opc_next_page : option string
}.

(** [RequestUsageCarbonEmissionsDetails] together with the [limit] keyword
    of the call. *)
Record request : Type := mk_request {
  tenant_id : string;
  time_usage_started : string;
  time_usage_ended : string;
  emission_type : string;
  emission_calculation_method : string;
  granularity : string;
  group_by : list string;
  filter : option (list (string * list string));
  compartment_depth : option Z;
  is_aggregate_by_time : bool;
  limit : option Z
}.

(** [d[k] = v] on a dictionary kept as an association list in insertion
    order. *)
Fixpoint dict_set {V : Type} (k : string) (v : V) (d : list (string * V))
  : list (string * V) :=
  match d with
  | [] => [ (k, v) ]
  | (k', v') :: rest =>
      if String.eqb k k' then (k', v) :: rest
      else (k', v') :: dict_set k v rest
  end.

(** Truth value of an optional token: [None] and the empty string are
    false. *)
Definition token_truthy (t : option string) : bool :=
  match t with
  | Some (String _ _) => true
  | _ => false
  end.

(** Truth value of an optional integer: [None] and [0] are false. *)
Definition int_truthy (n : option Z) : bool :=
  match n with
  | Some n => negb (n =? 0)%Z
  | None => false
  end.

(** [float(x or 0)]: [None] and both zeros give [0.0]. *)
Definition float_or_zero (x : option float) : float :=
  match x with
  | Some v => if PrimFloat.eqb v PrimFloat.zero then PrimFloat.zero else v
  | None => PrimFloat.zero
  end.

End Api.

Import Api.

(** ** The retriever against its collaborators

    [World] is the state of everything outside the program: the usage API
    behind [usage_client] and the file system.  A computation is a function
    from the state to a [result] and the next state.  The state also keeps
    [api_log], the requests sent so far with their outcomes, in order: a
    ghost field, written by [call_api] only and never read by the program. *)

Section Retriever.

Variable World : Type.

(** [self.usage_client.request_usage_carbon_emissions]: the response data or
    the exception, and the next state. *)
Variable request_usage_carbon_emissions :
  request -> World -> result response * World.

(** Writing one CSV file ([open], [csv.DictWriter], the rows). *)
Variable write_csv :
  string -> list EmissionRecord -> World -> result unit * World.

(** [self.tenant_id]. *)
Variable self_tenant_id : string.

Record state : Type := mk_state {
  world : World;
  api_log : list (request * result response)
}.

Definition M (A : Type) : Type := state -> result A * state.

Definition ret {A : Type} (a : A) : M A := fun s => (Return a, s).

Definition raise {A : Type} (e : exn) : M A := fun s => (Raise e, s).

Definition bind {A B : Type} (m : M A) (k : A -> M B) : M B :=
  fun s =>
    match m s with
    | (Return a, s') => k a s'
    | (Raise e, s') => (Raise e, s')
    end.

(** [try: m  except Exception as e: handler e]. *)
Definition try_except {A : Type} (m : M A) (handler : exn -> M A) : M A :=
  fun s =>
    match m s with
    | (Return a, s') => (Return a, s')
    | (Raise e, s') => handler e s'
    end.

(** The outcome of [m] as a value: never raises. *)
Definition attempt {A : Type} (m : M A) : M (result A) :=
  fun s => let '(r, s') := m s in (Return r, s').

Definition lift {A : Type} (r : result A) : M A := fun s => (r, s).

Notation "x <- m ;; k" := (bind m (fun x => k))
  (at level 61, m at next level, right associativity).

Definition call_api (rq : request) : M response :=
  fun s =>
    let '(r, w) := request_usage_carbon_emissions rq (world s) in
    (r, mk_state w (api_log s ++ [ (rq, r) ])).

Definition call_write_csv (filename : string) (rows : list EmissionRecord)
  : M unit :=
  fun s =>
    let '(r, w) := write_csv filename rows (world s) in
    (r, mk_state w (api_log s)).

(** [OCICarbonEmissionsRetriever.get_carbon_emissions].  The handler of its
    [try] prints and re-raises. *)
Definition get_carbon_emissions
    (start_date end_date : string)
    (emission_type calculation_method granularity : string)
    (group_by : option (list string))
    (filters : option (list (string * list string)))
    (compartment_depth : option Z)
    (is_aggregate_by_time : bool)
    (limit : option Z)
    (compartment_ids : option (list string)) : M response :=
  start_datetime <- lift (_parse_and_validate_datetime start_date) ;;
  end_datetime <- lift (_parse_and_validate_datetime end_date) ;;
  let group_by :=
    match group_by with
    | None => [ "service" ]
    | Some g => g
    end in
  let filters :=
    match compartment_ids with
    | Some (c :: cs) =>
        let filters := match filters with None => [] | Some f => f end in
        Some (dict_set "compartmentId" (c :: cs) filters)
    | _ => filters
    end in
  try_except
    (let request_details :=
       mk_request self_tenant_id start_datetime end_datetime emission_type
         calculation_method granularity group_by filters compartment_depth
         is_aggregate_by_time in
     let limit :=
       match limit with
       | Some l =>
           if (500 <? l)%Z then Some 500%Z
           else if (l <=? 0)%Z then None
           else Some l
       | None => None
       end in
     call_api (request_details limit))
    (fun e => raise e).

(** [OCICarbonEmissionsRetriever.save_to_csv]: nothing is written for an
    empty item list; the handler of its [try] prints and re-raises. *)
Definition save_to_csv (data : response) (filename : string) : M unit :=
  if is_empty (items data) then ret tt
  else try_except (call_write_csv filename (items data)) (fun e => raise e).

(** *** PaginationDriver: [get_full_dataset_paginated] *)

(** The local variables of [get_full_dataset_paginated].  [CombinedResult]
    is the local name bound by the [class] statement that follows the loop:
    [None] while that statement has not run. *)
Record locals : Type := mk_locals {
  all_items : list EmissionRecord;
  page_token : option string;
  page_count : Z;
  total_records : Z;
  CombinedResult : option (list EmissionRecord -> response)
}.

(** Why the loop was left: the three [break] statements. *)
Inductive stop_reason : Type :=
| RecordLimit
| NoMorePages
| PageLimit.

Inductive loop_outcome : Type :=
| Broke (why : stop_reason) (l : locals)
| Raised (e : exn) (l : locals)
| OutOfFuel (l : locals).

(** The [while True] loop, [fuel] iterations of it at most. *)
Fixpoint pagination_loop
    (fuel : nat)
    (start_date end_date emission_type calculation_method granularity : string)
    (group_by : list string) (compartment_depth : Z)
    (max_records : option Z) (l : locals) : M loop_outcome :=
  match fuel with
  | O => ret (OutOfFuel l)
  | S fuel' =>
      let l := mk_locals (all_items l) (page_token l) (page_count l + 1)
                 (total_records l) (CombinedResult l) in
      r <- attempt
             (get_carbon_emissions start_date end_date emission_type
                calculation_method granularity (Some group_by) None
                (Some compartment_depth) false (Some 500%Z) None) ;;
      match r with
      | Raise e => ret (Raised e l)
      | Return data =>
          let after_items :=
            if negb (is_empty (items data)) then
              let l := mk_locals (all_items l ++ items data) (page_token l)
                         (page_count l)
                         (total_records l + Z.of_nat (List.length (items data)))
                         (CombinedResult l) in
              if int_truthy max_records
                 && (match max_records with
                     | Some m => (m <=? total_records l)%Z
                     | None => false
                     end)
              then
                match max_records with
                | Some m =>
                    inl (mk_locals (slice_to m (all_items l)) (page_token l)
                           (page_count l) (total_records l) (CombinedResult l))
                | None => inr l
                end
              else inr l
            else inr l in
          match after_items with
          | inl l => ret (Broke RecordLimit l)
          | inr l =>
              let l := mk_locals (all_items l) (opc_next_page data)
                         (page_count l) (total_records l) (CombinedResult l) in
              if negb (token_truthy (page_token l)) then ret (Broke NoMorePages l)
              else if (1000 <=? page_count l)%Z then ret (Broke PageLimit l)
              else pagination_loop fuel' start_date end_date emission_type
                     calculation_method granularity group_by compartment_depth
                     max_records l
          end
      end
  end.

(** The combined result object of [get_full_dataset_paginated]. *)
Definition combined_result (its : list EmissionRecord) : response :=
  mk_response its None None.

Definition default_full_group_by : list string :=
  [ "service"; "compartmentName"; "compartmentId"; "region";
    "platform"; "tenantId"; "subscriptionId" ].

(** [OCICarbonEmissionsRetriever.get_full_dataset_paginated], its loop run
    with [fuel]: [None] when the fuel ran out before the loop was left. *)
Definition get_full_dataset_paginated
    (fuel : nat)
    (start_date end_date emission_type calculation_method granularity : string)
    (group_by : option (list string)) (compartment_depth : Z)
    (max_records : option Z) : M (option response) :=
  let l0 := mk_locals [] None 0 0 None in
  let group_by :=
    match group_by with
    | None => default_full_group_by
    | Some g => g
    end in
  outcome <- pagination_loop fuel start_date end_date emission_type
               calculation_method granularity group_by compartment_depth
               max_records l0 ;;
  match outcome with
  | OutOfFuel _ => ret None
  | Broke _ l =>
      (* class CombinedResult: ...  binds the local name *)
      let l := mk_locals (all_items l) (page_token l) (page_count l)
                 (total_records l) (Some combined_result) in
      match CombinedResult l with
      | Some cls => ret (Some (cls (all_items l)))
      | None => raise (UnboundLocalError "CombinedResult")
      end
  | Raised e l =>
      (* except Exception as e: *)
      if negb (is_empty (all_items l)) then
        match CombinedResult l with
        | Some cls => ret (Some (cls (all_items l)))
        | None => raise (UnboundLocalError "CombinedResult")
        end
      else raise e
  end.

(** *** FallbackStrategy and MultiQueryAggregator: the multi-query branch
    of [main] *)

(** The grouping combinations and the suffixes of their output files. *)
Definition query_combinations (full_dataset_spend_based : bool)
  : list (list string * string) :=
  if full_dataset_spend_based then
    [ ([ "service"; "compartmentName"; "resourceId"; "skuName" ],
       "spend_based_service_compartment_resource_sku");
      ([ "service"; "compartmentName"; "platform"; "region" ],
       "spend_based_service_compartment_platform_region");
      ([ "compartmentName"; "resourceId"; "skuName"; "region" ],
       "spend_based_compartment_resource_sku_region");
      ([ "service"; "skuName"; "platform" ],
       "spend_based_service_sku_platform") ]
  else
    [ ([ "service"; "compartmentName"; "region" ],
       "power_based_service_compartment_region");
      ([ "service"; "compartmentName"; "tenantId" ],
       "power_based_service_compartment_tenant");
      ([ "service"; "region"; "subscriptionId" ],
       "power_based_service_region_subscription");
      ([ "service"; "compartmentName" ],
       "power_based_service_compartment") ].

(** [any(float(item.computed_carbon_emission or 0) > 0 for item in its)]. *)
Definition any_positive (its : list EmissionRecord) : bool :=
  existsb
    (fun item =>
       PrimFloat.ltb PrimFloat.zero
         (float_or_zero (computed_carbon_emission item)))
    its.

(** The first inner [try]: the POWER_BASED query with LOCATION_BASED
    emissions.  The value is the variable [data] after it, [None] for
    Python's [None]. *)
Definition try_power_based
    (start_date_str end_date_str granularity : string)
    (group_by_fields : list string) : M (option response) :=
  try_except
    (data <- get_carbon_emissions start_date_str end_date_str
               "LOCATION_BASED" "POWER_BASED" granularity
               (Some group_by_fields) None (Some 7%Z) false None None ;;
     if negb (is_empty (items data)) && any_positive (items data)
     then ret (Some data)
     else ret None)
    (fun e => ret None).

(** [if not data or not data.items:] and the second inner [try]: the
    SPEND_BASED query with MARKET_BASED emissions.  Its handler only
    prints, so [data] keeps its value. *)
Definition try_spend_based
    (start_date_str end_date_str granularity : string)
    (group_by_fields : list string) (data : option response)
  : M (option response) :=
  let no_data :=
    match data with
    | None => true
    | Some d => is_empty (items d)
    end in
  if no_data then
    try_except
      (data <- get_carbon_emissions start_date_str end_date_str
                 "MARKET_BASED" "SPEND_BASED" granularity
                 (Some group_by_fields) None (Some 7%Z) false None None ;;
       ret (Some data))
      (fun e => ret data)
  else ret data.

(** [s.rsplit('.', 1)]: the text before the last dot and the text after
    it; no second part when [s] has no dot. *)
Fixpoint rsplit_dot (s : string) : string * option string :=
  match s with
  | EmptyString => (EmptyString, None)
  | String c rest =>
      let '(b, e) := rsplit_dot rest in
      match e with
      | Some e' => (String c b, Some e')
      | None =>
          if Ascii.eqb c "." then (EmptyString, Some rest)
          else (String c b, None)
      end
  end.

(** The name of a combination's own output file. *)
Definition query_filename (output suffix : string) : string :=
  let '(base_name, ext) := rsplit_dot output in
  let extension := match ext with Some e => e | None => "csv" end in
  (base_name ++ "_" ++ suffix ++ "." ++ extension)%string.

(** [if args.output: ... retriever.save_to_csv(data, query_filename)]: a
    combination's records go to a file of their own when an output name
    was given. *)
Definition save_query_result (output : option string) (suffix : string)
    (data : response) : M unit :=
  match output with
  | Some (String c rest) =>
      save_to_csv data (query_filename (String c rest) suffix)
  | _ => ret tt
  end.

(** The body of the outer [try] of one iteration: the new value of
    [all_data].  [data.items] on [None] raises [AttributeError]. *)
Definition combination_body
    (start_date_str end_date_str granularity : string)
    (output : option string)
    (group_by_fields : list string) (suffix : string)
    (all_data : list EmissionRecord) : M (list EmissionRecord) :=
  data <- try_power_based start_date_str end_date_str granularity
            group_by_fields ;;
  data <- try_spend_based start_date_str end_date_str granularity
            group_by_fields data ;;
  match data with
  | None =>
      raise (AttributeError "'NoneType' object has no attribute 'items'")
  | Some data =>
      if negb (is_empty (items data)) then
        _ <- save_query_result output suffix data ;;
        ret (all_data ++ items data)
      else ret all_data
  end.

(** One iteration of [for i, (group_by_fields, suffix) in ...]: the body
    under [except Exception as e: print(...); continue]. *)
Definition combination_step
    (start_date_str end_date_str granularity : string)
    (output : option string)
    (all_data : list EmissionRecord) (combination : list string * string)
  : M (list EmissionRecord) :=
  try_except
    (combination_body start_date_str end_date_str granularity output
       (fst combination) (snd combination) all_data)
    (fun e => ret all_data).

(** The loop over the combinations. *)
Fixpoint combinations_loop
    (start_date_str end_date_str granularity : string)
    (output : option string)
    (combinations : list (list string * string))
    (all_data : list EmissionRecord) : M (list EmissionRecord) :=
  match combinations with
  | [] => ret all_data
  | c :: rest =>
      all_data <- combination_step start_date_str end_date_str granularity
                    output all_data c ;;
      combinations_loop start_date_str end_date_str granularity output rest
        all_data
  end.

(** The multi-query branch of [main] up to the combined dataset: [None]
    when no query gave a record ([main] prints a notice and returns). *)
Definition multi_query_dataset
    (start_date_str end_date_str granularity : string)
    (output : option string) (full_dataset_spend_based : bool)
  : M (option response) :=
  all_data <- combinations_loop start_date_str end_date_str granularity
                output (query_combinations full_dataset_spend_based) [] ;;
  if negb (is_empty all_data)
  then ret (Some (mk_response all_data None None))
  else ret None.

(** *** Words for the combinations of the multi-query branch *)

(** The request of an attempt of the multi-query branch, the dates already
    normalised. *)
Definition query_request
    (emission_type calculation_method start_datetime end_datetime
     granularity : string) (group_by_fields : list string) : request :=
  mk_request self_tenant_id start_datetime end_datetime emission_type
    calculation_method granularity group_by_fields None (Some 7%Z) false None.

Definition power_request : string -> string -> string -> list string -> request :=
  query_request "LOCATION_BASED" "POWER_BASED".

Definition spend_request : string -> string -> string -> list string -> request :=
  query_request "MARKET_BASED" "SPEND_BASED".

(** The records a combination adds when it starts in state [s]: those of
    its body, none when the body raises. *)
Definition contribution
    (start_date_str end_date_str granularity : string)
    (output : option string) (combination : list string * string)
    (s : state) : list EmissionRecord :=
  match fst (combination_body start_date_str end_date_str granularity output
               (fst combination) (snd combination) [] s) with
  | Return d => d
  | Raise _ => []
  end.

(** The state a combination leaves. *)
Definition after_combination
    (start_date_str end_date_str granularity : string)
    (output : option string) (combination : list string * string)
    (s : state) : state :=
  snd (combination_body start_date_str end_date_str granularity output
         (fst combination) (snd combination) [] s).

(** The contributions of the combinations run one after the other. *)
Fixpoint contributions
    (start_date_str end_date_str granularity : string)
    (output : option string) (combinations : list (list string * string))
    (s : state) : list (list EmissionRecord) :=
  match combinations with
  | [] => []
  | c :: rest =>
      contribution start_date_str end_date_str granularity output c s
      :: contributions start_date_str end_date_str granularity output rest
           (after_combination start_date_str end_date_str granularity output
              c s)
  end.

(** The state after all of [combinations]. *)
Fixpoint after_combinations
    (start_date_str end_date_str granularity : string)
    (output : option string) (combinations : list (list string * string))
    (s : state) : state :=
  match combinations with
  | [] => s
  | c :: rest =>
      after_combinations start_date_str end_date_str granularity output rest
        (after_combination start_date_str end_date_str granularity output
           c s)
  end.

(** *** Words for the exchanges with the client *)

(** The request of every page of [get_full_dataset_paginated], the dates
    already normalised.  The continuation token is no part of it: the
    driver reads the token to decide whether to go on and sends the same
    request again. *)
Definition page_request
    (start_datetime end_datetime emission_type calculation_method
     granularity : string)
    (group_by : list string) (compartment_depth : Z) : request :=
  mk_request self_tenant_id start_datetime end_datetime emission_type
    calculation_method granularity group_by None (Some compartment_depth)
    false (Some 500%Z).

(** The first [n] exchanges of the client when it is sent [rq] again and
    again from the world [w], and the world after them. *)
Fixpoint interactions (rq : request) (n : nat) (w : World)
  : list (request * result response) * World :=
  match n with
  | O => ([], w)
  | S n' =>
      let '(r, w1) := request_usage_carbon_emissions rq w in
      let '(t, w2) := interactions rq n' w1 in
      ((rq, r) :: t, w2)
  end.

End Retriever.

(** ** ReportAggregator: [print_summary]

    The function prints; the model returns what it prints, before the
    formatting of the numbers: the total, the number of records and the
    lines of the two breakdowns, each a name, its emissions and its
    percentage, in the order printed. *)

Module Report.

(** A dictionary from names to emissions, in insertion order. *)
Definition totals : Type := list (string * float).

(** [if k in d: d[k] += v  else: d[k] = v]. *)
Fixpoint dict_add (k : string) (v : float) (d : totals) : totals :=
  match d with
  | [] => [ (k, v) ]
  | (k', v') :: rest =>
      if String.eqb k k' then (k', PrimFloat.add v' v) :: rest
      else (k', v') :: dict_add k v rest
  end.

Definition str_truthy (s : option string) : option string :=
  match s with
  | Some (String c rest) => Some (String c rest)
  | _ => None
  end.

(** The key of the service breakdown: [getattr(item, 'service',
    'Unknown')], with [None] replaced by ['Unknown']. *)
Definition service_key (item : EmissionRecord) : string :=
  match service item with
  | Some s => s
  | None => "Unknown"
  end.

(** [compartment_name or compartment_id or "Root/Tenancy"]. *)
Definition compartment_key (item : EmissionRecord) : string :=
  match str_truthy (compartment_name item) with
  | Some n => n
  | None =>
      match str_truthy (compartment_id item) with
      | Some i => i
      | None => "Root/Tenancy"
      end
  end.

Record accumulators : Type := mk_acc {
  total_emissions : float;
  service_emissions : totals;
  compartment_emissions : totals
}.

(** One iteration of [for item in data.items]. *)
Definition accumulate (group_by_compartments : bool)
    (acc : accumulators) (item : EmissionRecord) : accumulators :=
  let emissions := float_or_zero (computed_carbon_emission item) in
  mk_acc
    (PrimFloat.add (total_emissions acc) emissions)
    (dict_add (service_key item) emissions (service_emissions acc))
    (if group_by_compartments
     then dict_add (compartment_key item) emissions (compartment_emissions acc)
     else compartment_emissions acc).

(** [sorted(d.items(), key=lambda x: x[1], reverse=True)].  [sorted] is
    stable, also with [reverse=True], and compares keys with [<] only: each
    entry goes after the entries that are not smaller than it.  (The model
    and the library agree whenever [<] is a strict weak order on the keys,
    that is when no key is a NaN.) *)
Fixpoint insert_desc (x : string * float) (l : totals) : totals :=
  match l with
  | [] => [ x ]
  | y :: rest =>
      if PrimFloat.ltb (snd y) (snd x) then x :: y :: rest
      else y :: insert_desc x rest
  end.

Definition sorted_desc (d : totals) : totals :=
  fold_left (fun acc x => insert_desc x acc) d [].

(** [(emissions / total_emissions * 100) if total_emissions > 0 else 0]. *)
Definition percentage (total emissions : float) : float :=
  if PrimFloat.ltb PrimFloat.zero total
  then PrimFloat.mul (PrimFloat.div emissions total) 100%float
  else PrimFloat.zero.

Record line : Type := mk_line {
  line_name : string;
  line_emissions : float;
  line_percentage : float
}.

Definition breakdown (total : float) (d : totals) : list line :=
  map (fun kv => mk_line (fst kv) (snd kv) (percentage total (snd kv)))
      (sorted_desc d).

Record summary : Type := mk_summary {
  summary_total : float;
  summary_records : nat;
  summary_compartments : list line;
  summary_services : list line
}.

(** [OCICarbonEmissionsRetriever.print_summary]: [None] when there is no
    record (only the notice is printed). *)
Definition print_summary (data : response) (group_by_compartments : bool)
  : option summary :=
  if is_empty (items data) then None
  else
    let acc :=
      fold_left (accumulate group_by_compartments) (items data)
                (mk_acc PrimFloat.zero [] []) in
    Some (mk_summary
            (total_emissions acc)
            (List.length (items data))
            (if group_by_compartments
             then breakdown (total_emissions acc) (compartment_emissions acc)
             else [])
            (breakdown (total_emissions acc) (service_emissions acc))).

End Report.

(** ** A scripted client

    The stub of the tests: the world is the list of outcomes still to be
    served, each call serves the next one whatever the request, and an
    exhausted script fails.  Files are written without error. *)

Module Stub.

Definition world : Type := list (result response).

Definition serve (rq : request) (w : world) : result response * world :=
  match w with
  | [] => (Raise (ServiceError "script exhausted"), [])
  | r :: rest => (r, rest)
  end.

Definition write_ok (filename : string) (rows : list EmissionRecord)
    (w : world) : result unit * world :=
  (Return tt, w).

Definition start (script : world) : state world := mk_state world script [].

(** A record of service [svc] with emission [e]. *)
Definition rec (svc : string) (e : float) : EmissionRecord :=
  mk_record (Some svc) None None None None (Some e).

(** A page of [n] copies of a record, with a continuation token when
    [more]. *)
Definition page (n : nat) (svc : string) (more : bool) : response :=
  mk_response (repeat (rec svc 1%float) n) None
    (if more then Some "token" else None).

(** A client that keeps no state: its answer is decided by the request
    alone, as that of a service that is sent no continuation token. *)
Definition stateless (answer : request -> result response)
    (rq : request) (w : unit) : result response * unit :=
  (answer rq, w).

End Stub.

(** ** Vocabulary of the statements *)

(** The text of the first instant of month [m] of year [y], as the API
    wants it. *)
Definition month_start (y m : Z) : string :=
  (pad4 y ++ "-" ++ pad2 m ++ "-01T00:00:00Z")%string.


(** *** Order of binary64 values *)

(** A rank of the values other than NaN: the sign class, then exponent
    and mantissa, negated below zero. *)
Definition sf_rank (f : spec_float) : Z * Z * Z :=
  match f with
  | S754_nan => (0, 0, 0)%Z
  | S754_zero _ => (0, 0, 0)%Z
  | S754_infinity true => (-2, 0, 0)%Z
  | S754_infinity false => (2, 0, 0)%Z
  | S754_finite true m e => (-1, - e, - Z.pos m)%Z
  | S754_finite false m e => (1, e, Z.pos m)%Z
  end.

Definition rank_lt (a b : Z * Z * Z) : Prop :=
  let '(a1, a2, a3) := a in
  let '(b1, b2, b3) := b in
  (a1 < b1 \/ (a1 = b1 /\ (a2 < b2 \/ (a2 = b2 /\ a3 < b3))))%Z.

(** [x] is not a NaN: it equals itself. *)
Definition not_nan (x : float) : Prop := PrimFloat.eqb x x = true.

(** *** Words for the summary *)

(** The emission value the program reads off a record. *)
Definition emission_of (item : EmissionRecord) : float :=
  float_or_zero (computed_carbon_emission item).

(** [e1 + e2 + ... + en], added from the left. *)
Definition sum_from (es : list float) : float :=
  match es with
  | [] => PrimFloat.zero
  | e :: rest => fold_left PrimFloat.add rest e
  end.

(** The names of [l] in the order of their first occurrence. *)
Fixpoint first_occurrences (l : list string) : list string :=
  match l with
  | [] => []
  | k :: rest =>
      k :: List.filter (fun x => negb (String.eqb x k)) (first_occurrences rest)
  end.

(** The records filed under the name [s]. *)
Definition records_of (key : EmissionRecord -> string) (s : string)
    (its : list EmissionRecord) : list EmissionRecord :=
  List.filter (fun i => String.eqb (key i) s) its.

(** Each name with the sum of its records' emissions in encounter order,
    the names in the order of their first record. *)
Definition group_totals (key : EmissionRecord -> string)
    (its : list EmissionRecord) : Report.totals :=
  map (fun s => (s, sum_from (map emission_of (records_of key s its))))
      (first_occurrences (map key its)).

(** [a] and [v] are tied: neither is smaller. *)
Definition tied (v : float) (e : string * float) : bool :=
  negb (PrimFloat.ltb v (snd e)) && negb (PrimFloat.ltb (snd e) v).

(** Entry [a] may stand before entry [b] in descending order. *)
Definition not_below (a b : string * float) : Prop :=
  PrimFloat.ltb (snd a) (snd b) = false.

(** Name and emissions of the lines of a breakdown. *)
Definition entries (ls : list Report.line) : Report.totals :=
  map (fun l => (Report.line_name l, Report.line_emissions l)) ls.

(** *** Words for a run of the pagination driver *)

Definition exchange : Type := (request * result response)%type.

Definition page_items (r : result response) : list EmissionRecord :=
  match r with
  | Return d => items d
  | Raise _ => []
  end.

(** The records of the pages of [log], in page order. *)
Definition fetched (log : list exchange) : list EmissionRecord :=
  flat_map (fun e => page_items (snd e)) log.

Definition last_result (log : list exchange) : option (result response) :=
  match rev log with
  | [] => None
  | e :: _ => Some (snd e)
  end.

(** [n] records reach the limit [max_records]. *)
Definition limit_reached (max_records : option Z) (n : nat) : bool :=
  match max_records with
  | Some m => (m <=? Z.of_nat n)%Z
  | None => false
  end.

(** After the exchanges [log] the driver has to stop: the last call
    raised, or the records reach [max_records], or the last page has no
    continuation token, or 1000 pages were asked for. *)
Definition must_stop (max_records : option Z) (log : list exchange) : bool :=
  match last_result log with
  | None => false
  | Some (Raise _) => true
  | Some (Return d) =>
      limit_reached max_records (List.length (fetched log))
      || negb (token_truthy (opc_next_page d))
      || (1000 <=? List.length log)%nat
  end.

(** The records kept of [its]: cut at [max_records] once they reach it. *)
Definition kept (max_records : option Z) (its : list EmissionRecord)
  : list EmissionRecord :=
  match max_records with
  | Some m => if limit_reached max_records (List.length its)
              then slice_to m its else its
  | None => its
  end.

(** What [get_full_dataset_paginated] yields after the exchanges [log], the
    last of which made it stop. *)
Definition run_result (max_records : option Z) (log : list exchange)
  : result (option response) :=
  match last_result log with
  | None => Return None
  | Some (Raise e) =>
      if is_empty (fetched log) then Raise e
      else Raise (UnboundLocalError "CombinedResult")
  | Some (Return _) =>
      Return (Some (combined_result (kept max_records (fetched log))))
  end.

(** The final locals of the loop fit the exchanges [log]. *)
Definition outcome_ok (max_records : option Z) (log : list exchange)
    (o : loop_outcome) : Prop :=
  match o, last_result log with
  | Raised e l, Some (Raise e') =>
      e = e' /\ all_items l = fetched log /\ CombinedResult l = None
  | Broke _ l, Some (Return _) =>
      all_items l = kept max_records (fetched log) /\ CombinedResult l = None
  | _, _ => False
  end.

(** A limit that limits: absent, or positive. *)
Definition limit_ok (max_records : option Z) : Prop :=
  match max_records with
  | Some m => (0 < m)%Z
  | None => True
  end.

(** The page counter in the final locals. *)
Definition outcome_page_count (o : loop_outcome) : Z :=
  match o with
  | Broke _ l => page_count l
  | Raised _ l => page_count l
  | OutOfFuel l => page_count l
  end.

(** *** Words for the fallback *)

(** The primary attempt found data: records, one of them with a positive
    emission. *)
Definition primary_found (r : result response) : bool :=
  match r with
  | Return d => negb (is_empty (items d)) && any_positive (items d)
  | Raise _ => false
  end.

(** The requests of [log] whose calculation method is [m]. *)
Definition requests_by_method (m : string) (log : list exchange)
  : list request :=
  List.filter (fun rq => String.eqb (emission_calculation_method rq) m)
              (map fst log).

(** The specification's "no data": no item, or every record with an
    emission of exactly zero. *)
Definition no_data (its : list EmissionRecord) : Prop :=
  its = [] \/ Forall (fun r => emission_of r = PrimFloat.zero) its.

(** *** Words for the dates *)

(** The text [YYYY-MM-DD] of a date, the year in four digits. *)
Definition date_text (y m d : Z) : string :=
  (pad4 y ++ "-" ++ pad2 m ++ "-" ++ pad2 d)%string.

(** What [strftime("%Y-%m-%dT00:00:00Z")] prints for a day of month [m] of
    year [y] that was moved to the first: the year as [%Y] prints it. *)
Definition first_instant_text (y m : Z) : string :=
  (year_text y ++ "-" ++ pad2 m ++ "-01T00:00:00Z")%string.

(** The datetime the normaliser reads from its argument, before it moves
    it to the first of the month. *)
Definition parsed_datetime (date_str : string) : result datetime :=
  if str_contains "T" date_str
  then fromisoformat (str_replace "Z" "+00:00" date_str)
  else strptime_ymd date_str.

(** [f] holds of the [n] numbers from [lo] on. *)
Fixpoint all_from (f : Z -> bool) (lo : Z) (n : nat) : bool :=
  match n with
  | O => true
  | S n' => f lo && all_from f (lo + 1)%Z n'
  end.

(** The normaliser returns [month_start y m] as it is, for every month of
    the year [y]. *)
Definition months_read_back (y : Z) : bool :=
  all_from
    (fun m =>
       match _parse_and_validate_datetime (month_start y m) with
       | Return out => String.eqb out (month_start y m)
       | Raise _ => false
       end)
    1%Z 12.

(** The normaliser refuses, with a [ValueError], the text it printed for
    every month of the year [y]. *)
Definition months_refused (y : Z) : bool :=
  all_from
    (fun m =>
       match _parse_and_validate_datetime (first_instant_text y m) with
       | Raise (ValueError _) => true
       | _ => false
       end)
    1%Z 12.

(** *** Words for the answers of the client *)

(** The answer a combination of the multi-query branch ends with, in the
    words of the specification: the primary answer when it found data, the
    alternate answer otherwise; with it the exchanges made and the world
    after them.  [sd] and [ed] are the normalised dates. *)
Definition final_answer (World : Type)
    (api : request -> World -> result response * World)
    (tenant sd ed gran : string) (group_by_fields : list string) (w : World)
  : result response * list exchange * World :=
  let '(r1, w1) := api (power_request tenant sd ed gran group_by_fields) w in
  if primary_found r1
  then (r1, [ (power_request tenant sd ed gran group_by_fields, r1) ], w1)
  else
    let '(r2, w2) := api (spend_request tenant sd ed gran group_by_fields) w1 in
    (r2,
     [ (power_request tenant sd ed gran group_by_fields, r1);
       (spend_request tenant sd ed gran group_by_fields, r2) ],
     w2).

(** The records a combination appends and the state it leaves, from the
    answers of the client and of the file system alone: the records of the
    final answer, none when that answer is an error or has no record, and
    none when the file of the combination was asked for and could not be
    written. *)
Definition appended_records (World : Type)
    (api : request -> World -> result response * World)
    (fs : string -> list EmissionRecord -> World -> result unit * World)
    (tenant sd ed gran : string) (output : option string)
    (combination : list string * string) (s : state World)
  : list EmissionRecord * state World :=
  let '(r, exchanges, w) :=
    final_answer World api tenant sd ed gran (fst combination)
      (world World s) in
  let log := api_log World s ++ exchanges in
  match r with
  | Raise _ => ([], mk_state World w log)
  | Return d =>
      if is_empty (items d) then ([], mk_state World w log)
      else
        match output with
        | Some (String c rest) =>
            match fs (query_filename (String c rest) (snd combination))
                     (items d) w with
            | (Return _, w') => (items d, mk_state World w' log)
            | (Raise _, w') => ([], mk_state World w' log)
            end
        | _ => (items d, mk_state World w log)
        end
  end.

(** The same for a list of combinations run one after the other. *)
Fixpoint appended_by_all (World : Type)
    (api : request -> World -> result response * World)
    (fs : string -> list EmissionRecord -> World -> result unit * World)
    (tenant sd ed gran : string) (output : option string)
    (combinations : list (list string * string)) (s : state World)
  : list (list EmissionRecord) * state World :=
  match combinations with
  | [] => ([], s)
  | c :: rest =>
      let '(records, s1) :=
        appended_records World api fs tenant sd ed gran output c s in
      let '(more, s2) :=
        appended_by_all World api fs tenant sd ed gran output rest s1 in
      (records :: more, s2)
  end.

(** * Further parts of the program *)

(** [d.get(k)] on a dictionary kept as an association list. *)
Fixpoint dict_get {V : Type} (k : string) (d : list (string * V)) : option V :=
  match d with
  | [] => None
  | (k', v) :: rest => if String.eqb k k' then Some v else dict_get k rest
  end.

(** The limit the client receives. *)
Definition sent_limit_ok (rq : request) : Prop :=
  match limit rq with
  | None => True
  | Some l => (1 <= l <= 500)%Z
  end.

(** A file system on which every write fails. *)
Definition write_failing (filename : string) (rows : list EmissionRecord)
    (w : Stub.world) : result unit * Stub.world :=
  (Raise (OSError "disk full"), w).

(** The exchange returned a page with a continuation token. *)
Definition page_with_token (e : exchange) : bool :=
  match snd e with
  | Return d => token_truthy (opc_next_page d)
  | Raise _ => false
  end.

(** [strptime]'s [%d] reads the two digits of [d] back. *)
Definition day_reads_back (d : Z) : bool :=
  match strptime_day (pad2 d) with
  | Some (d', EmptyString) => (d' =? d)%Z
  | _ => false
  end.

(** ** [main]: the checks before the retrieval *)

Module Cli.

(** The fields only SPEND_BASED supports, as [main] lists them. *)
Definition spend_based_only_fields : list string :=
  [ "platform"; "resourceId"; "resourceName"; "skuName"; "skuPartNumber" ].

(** The values [--group-by] accepts. *)
Definition group_by_choices : list string :=
  [ "service"; "region"; "compartmentName"; "compartmentId";
    "tenantId"; "tenantName"; "subscriptionId"; "platform";
    "resourceId"; "resourceName"; "skuName"; "skuPartNumber" ].

(** [if args.calculation_method == 'POWER_BASED': ...]: the fields that
    need SPEND_BASED are taken out, [service] standing in when nothing is
    left. *)
Definition filter_group_by (calculation_method : string)
    (group_by : list string) : list string :=
  if String.eqb calculation_method "POWER_BASED" then
    let invalid_fields :=
      List.filter (fun field => str_in field spend_based_only_fields)
                  group_by in
    if negb (is_empty invalid_fields) then
      let group_by :=
        List.filter (fun field => negb (str_in field spend_based_only_fields))
                    group_by in
      if is_empty group_by then [ "service" ] else group_by
    else group_by
  else group_by.

(** [if args.by_compartments and not args.group_by: ... elif ...:
    args.group_by.insert(0, 'compartmentName')]. *)
Definition compartment_group_by (by_compartments : bool)
    (group_by : list string) : list string :=
  if by_compartments && is_empty group_by
  then [ "compartmentName"; "service" ]
  else if by_compartments && negb (str_in "compartmentName" group_by)
  then "compartmentName" :: group_by
  else group_by.

(** The default of the compartment depth (6 when a compartment field is
    grouped by) and its ceiling (7). *)
Definition resolve_compartment_depth (group_by : list string)
    (compartment_depth : option Z) : option Z :=
  let compartment_depth :=
    if (str_in "compartmentName" group_by || str_in "compartmentId" group_by)
       && match compartment_depth with None => true | Some _ => false end
    then Some 6%Z
    else compartment_depth in
  match compartment_depth with
  | Some d =>
      if int_truthy (Some d) && (7 <? d)%Z then Some 7%Z else Some d
  | None => None
  end.

(** Lines 823 to 853 of [main]: grouping fields and compartment depth
    after the checks. *)
Definition resolve_grouping (calculation_method : string)
    (by_compartments : bool) (group_by : list string)
    (compartment_depth : option Z) : list string * option Z :=
  let group_by := filter_group_by calculation_method group_by in
  let group_by := compartment_group_by by_compartments group_by in
  (group_by, resolve_compartment_depth group_by compartment_depth).

(** How the check of the dates ends: with the two dates, with
    [sys.exit(1)], or with the [TypeError] of [strptime(None, ...)] that no
    handler catches. *)
Inductive date_check : Type :=
| DatesChecked (start_date_str end_date_str : string)
| DatesExit
| DatesTypeError.

(** One date after the check: itself when it is a first of the month, the
    first of its month otherwise. *)
Definition first_of_month_text (date_str : string) (dt : datetime)
  : option string :=
  if negb (day dt =? 1)%Z then
    match replace_day dt 1 with
    | Return first => Some (strftime_date first)
    | Raise _ => None
    end
  else Some date_str.

(** The [try] that checks the two dates in [main]; [end_date_str] is
    [None] when [--end-date] was not given. *)
Definition check_dates (start_date_str : string)
    (end_date_str : option string) : date_check :=
  match strptime_ymd start_date_str with
  | Raise _ => DatesExit
  | Return start_dt =>
      match end_date_str with
      | None => DatesTypeError
      | Some end_str =>
          match strptime_ymd end_str with
          | Raise _ => DatesExit
          | Return end_dt =>
              match first_of_month_text start_date_str start_dt,
                    first_of_month_text end_str end_dt with
              | Some s, Some e => DatesChecked s e
              | _, _ => DatesExit
              end
          end
      end
  end.

End Cli.

(** A text without the letter T and the part of it that is left. *)
Definition reads_without_T (s r : string) : Prop :=
  exists p, s = (p ++ r)%string /\ str_contains "T" p = false.

(** ** [save_to_csv]: the header of the file *)

Module Csv.

(** [l.insert(i, x)] for an index that is not negative: [x] goes before
    the element at [i], or to the end when the list is shorter. *)
Definition list_insert {A : Type} (i : nat) (x : A) (l : list A) : list A :=
  firstn i l ++ x :: skipn i l.

(** The columns every file has. *)
Definition base_fieldnames : list string :=
  [ "compartment_name"; "service"; "resource_name"; "resource_id";
    "region"; "ad"; "sku_part_number"; "sku_name"; "platform";
    "time_usage_started"; "time_usage_ended"; "computed_carbon_emission";
    "emission_calculation_method"; "emission_type"; "subscription_id";
    "tags" ].

(** [fieldnames] as [save_to_csv] builds it from the first record; the
    arguments are what [getattr(sample_item, name, None)] gives for the
    four optional columns. *)
Definition fieldnames
    (tenant_id tenant_name compartment_id compartment_path : option string)
  : list string :=
  let fieldnames := base_fieldnames in
  let fieldnames :=
    if token_truthy tenant_id
    then list_insert 0 "tenant_id" fieldnames else fieldnames in
  let fieldnames :=
    if token_truthy tenant_name
    then list_insert 1 "tenant_name" fieldnames else fieldnames in
  let fieldnames :=
    if token_truthy compartment_id
    then list_insert 2 "compartment_id" fieldnames else fieldnames in
  let fieldnames :=
    if token_truthy compartment_path
    then list_insert 3 "compartment_path" fieldnames else fieldnames in
  fieldnames.

End Csv.

(** ** [main]: the modes that override the settings *)

Module Modes.

(** The attributes of [args] that lines 856 to 898 of [main] read or
    assign. *)
Record args : Type := mk_args {
  calculation_method : string;
  emission_type : string;
  granularity : string;
  group_by : list string;
  compartment_depth : option Z;
  output : option string;
  full_dataset : bool;
  full_dataset_spend_based : bool;
  no_grouping : bool
}.

(** [if not args.output: args.output = f"{prefix}{now}.csv"], [now] being
    the text of [datetime.now().strftime('%Y%m%d_%H%M%S')]. *)
Definition default_output (prefix now : string) (output : option string)
  : option string :=
  if negb (token_truthy output) then Some (prefix ++ now ++ ".csv")%string
  else output.

(** [if args.full_dataset: ...]. *)
Definition full_dataset_mode (now : string) (a : args) : args :=
  if full_dataset a then
    {| calculation_method := calculation_method a;
       emission_type := emission_type a;
       granularity := "MONTHLY";
       group_by := [ "service"; "compartmentName"; "region" ];
       compartment_depth := Some 7%Z;
       output := default_output "oci_full_carbon_emissions_" now (output a);
       full_dataset := full_dataset a;
       full_dataset_spend_based := full_dataset_spend_based a;
       no_grouping := no_grouping a |}
  else a.

(** [if args.full_dataset_spend_based: ...]. *)
Definition full_dataset_spend_based_mode (now : string) (a : args) : args :=
  if full_dataset_spend_based a then
    {| calculation_method := "SPEND_BASED";
       emission_type := "MARKET_BASED";
       granularity := "MONTHLY";
       group_by := [ "service"; "compartmentName"; "resourceId"; "skuName" ];
       compartment_depth := Some 7%Z;
       output :=
         default_output "oci_full_carbon_emissions_spend_based_" now (output a);
       full_dataset := full_dataset a;
       full_dataset_spend_based := full_dataset_spend_based a;
       no_grouping := no_grouping a |}
  else a.

(** [if args.no_grouping: ...]. *)
Definition no_grouping_mode (now : string) (a : args) : args :=
  if no_grouping a then
    {| calculation_method := calculation_method a;
       emission_type := emission_type a;
       granularity := "DAILY";
       group_by := [ "service"; "compartmentName"; "region" ];
       compartment_depth := Some 7%Z;
       output := default_output "oci_raw_carbon_emissions_" now (output a);
       full_dataset := full_dataset a;
       full_dataset_spend_based := full_dataset_spend_based a;
       no_grouping := no_grouping a |}
  else a.

(** Lines 856 to 898 of [main], in their order. *)
Definition resolve_modes (now : string) (a : args) : args :=
  no_grouping_mode now
    (full_dataset_spend_based_mode now (full_dataset_mode now a)).

(** One of the three modes is on. *)
Definition bulk_mode (a : args) : bool :=
  full_dataset a || full_dataset_spend_based a || no_grouping a.

End Modes.

(** ** The list of compartments *)

Module Identity.

(** What the program reads of the identity service's models. *)
Module Sdk.

Record Compartment : Type := mk_compartment {
  id : string;
  name : string;
  description : option string;
  lifecycle_state : string;
  time_created : option string
}.

Record Tenancy : Type := mk_tenancy {
  tenancy_id : string;
  tenancy_name : string;
  tenancy_description : option string
}.

End Sdk.

(** One dictionary of the list [get_compartment_list] returns, under its
    five keys. *)
Record entry : Type := mk_entry {
  id : string;
  name : string;
  description : option string;
  lifecycle_state : string;
  time_created : option string
}.

(** The dictionary made of a listed compartment. *)
Definition entry_of (compartment : Sdk.Compartment) : entry :=
  {| id := Sdk.id compartment;
     name := Sdk.name compartment;
     description := Sdk.description compartment;
     lifecycle_state := Sdk.lifecycle_state compartment;
     time_created := Sdk.time_created compartment |}.

(** The dictionary of the root compartment. *)
Definition root_entry (tenancy : Sdk.Tenancy) : entry :=
  {| id := Sdk.tenancy_id tenancy;
     name := ("Root (" ++ Sdk.tenancy_name tenancy ++ ")")%string;
     description := Sdk.tenancy_description tenancy;
     lifecycle_state := "ACTIVE";
     time_created := None |}.

Fixpoint spaces (n : nat) : string :=
  match n with
  | O => EmptyString
  | S k => String " " (spaces k)
  end.

(** The format [{s:<width}]: [s] with spaces after it up to [width]
    characters, [s] itself when it is longer. *)
Definition ljust (width : nat) (s : string) : string :=
  (s ++ spaces (width - String.length s))%string.

(** One line of the table:
    [f"{name:<30} {comp_id:<50} {state:<10}"] with [name] cut to its first
    29 characters. *)
Definition format_row (compartment : entry) : string :=
  let name := String.substring 0 29 (name compartment) in
  let comp_id := id compartment in
  let state := lifecycle_state compartment in
  (ljust 30 name ++ " " ++ ljust 50 comp_id ++ " " ++ ljust 10 state)%string.

(** What [print_compartment_list] prints below the head of the table: the
    lines of the compartments and the number after [Total compartments:]. *)
Record table : Type := mk_table {
  rows : list string;
  total : nat
}.

Section Client.

Variable World : Type.

(** [from oci.identity import IdentityClient] and
    [IdentityClient(self.config)]. *)
Variable IdentityClient : World -> result unit * World.

(** [identity_client.list_compartments(compartment_id=...,
    compartment_id_in_subtree=True, access_level="ANY").data]. *)
Variable list_compartments :
  string -> World -> result (list Sdk.Compartment) * World.

(** [identity_client.get_tenancy(tenancy_id=...).data]. *)
Variable get_tenancy : string -> World -> result Sdk.Tenancy * World.

(** [self.tenant_id]. *)
Variable self_tenant_id : string.

(** [OCICarbonEmissionsRetriever.get_compartment_list]: every exception
    ends in the handler, which returns the empty list. *)
Definition get_compartment_list (w : World) : list entry * World :=
  match IdentityClient w with
  | (Raise _, w) => ([], w)
  | (Return _, w) =>
      match list_compartments self_tenant_id w with
      | (Raise _, w) => ([], w)
      | (Return data, w) =>
          let compartments := map entry_of data in
          match get_tenancy self_tenant_id w with
          | (Raise _, w) => ([], w)
          | (Return tenancy, w) =>
              (Csv.list_insert 0 (root_entry tenancy) compartments, w)
          end
      end
  end.

(** [OCICarbonEmissionsRetriever.print_compartment_list]: [None] stands
    for the message that no compartment was found. *)
Definition print_compartment_list (w : World) : option table * World :=
  let '(compartments, w) := get_compartment_list w in
  if is_empty compartments then (None, w)
  else
    (Some (mk_table (map format_row compartments) (List.length compartments)),
     w).

End Client.

End Identity.
(** * Properties *)

(** ** GroupByValidator *)

Import GroupBy.

Lemma firstn_short {A : Type} (n : nat) (l : list A) :
  (List.length l <= n)%nat -> firstn n l = l.
Proof.
  revert n. induction l as [|x l IH]; intros [|n] H; simpl in *;
    try reflexivity; try lia.
  f_equal. apply IH. lia.
Qed.

Lemma validate_refines_spec (group_by : list string) (m : string) :
  validate_group_by_fields group_by m = validate_spec group_by m.
Proof.
  unfold validate_group_by_fields, validate_spec, capability_set.
  destruct (String.eqb m "POWER_BASED").
  - destruct (List.filter _ group_by) as [|x kept] eqn:E; [reflexivity|].
    cbv [is_empty].
    destruct (Nat.ltb_spec 4 (List.length (x :: kept))) as [Hlt|Hge];
      [reflexivity | symmetry; apply firstn_short; exact Hge].
  - destruct (List.filter _ group_by) as [|x kept] eqn:E; [reflexivity|].
    cbv [is_empty].
    destruct (Nat.ltb_spec 4 (List.length (x :: kept))) as [Hlt|Hge];
      [reflexivity | symmetry; apply firstn_short; exact Hge].
Qed.

Lemma Forall_firstn {A : Type} (P : A -> Prop) (n : nat) (l : list A) :
  Forall P l -> Forall P (firstn n l).
Proof.
  intros H. revert n. induction H; intros [|n]; simpl; constructor; auto.
Qed.

Lemma service_supported (m : string) : str_in "service" (capability_set m) = true.
Proof. unfold capability_set. destruct (String.eqb m "POWER_BASED"); reflexivity. Qed.

Lemma filter_all {A : Type} (f : A -> bool) (l : list A) :
  Forall (fun x => f x = true) l -> List.filter f l = l.
Proof.
  induction 1 as [|x l Hx _ IH]; simpl; [reflexivity|].
  rewrite Hx, IH. reflexivity.
Qed.

(** C8.  Whatever the requested fields and the calculation method,
    [validate_group_by_fields] drops the fields outside the method's
    capability set, puts [service] when nothing is left and keeps the first
    four in their original order; the result has one to four fields, all
    of them supported.  [platform, service, foo] under POWER_BASED gives
    [service], and five fields that SPEND_BASED supports give the first
    four of them. *)
Theorem validate_group_by_fields_correct :
  (forall group_by m,
      validate_group_by_fields group_by m
      = firstn 4
          (match List.filter (fun f => str_in f (capability_set m)) group_by with
           | [] => [ "service" ]
           | x :: kept => x :: kept
           end))
  /\ (forall group_by m,
         Forall (fun f => str_in f (capability_set m) = true)
                (validate_group_by_fields group_by m)
         /\ (1 <= List.length (validate_group_by_fields group_by m) <= 4)%nat)
  /\ validate_group_by_fields [ "platform"; "service"; "foo" ] "POWER_BASED"
     = [ "service" ]
  /\ (forall a b c d e,
         Forall (fun f => str_in f spend_based_supported = true)
                [ a; b; c; d; e ] ->
         validate_group_by_fields [ a; b; c; d; e ] "SPEND_BASED"
         = [ a; b; c; d ]).
Proof.
  split; [|split; [|split]].
  - intros group_by m. rewrite validate_refines_spec. unfold validate_spec.
    destruct (List.filter _ group_by); reflexivity.
  - intros group_by m. rewrite validate_refines_spec. unfold validate_spec.
    destruct (List.filter _ group_by) as [|x kept] eqn:E.
    + split; [|simpl; lia].
      repeat constructor. apply service_supported.
    + split.
      * apply Forall_firstn. rewrite <- E.
        apply Forall_forall. intros f Hf. apply filter_In in Hf. tauto.
      * rewrite List.length_firstn. cbn [List.length]. lia.
  - reflexivity.
  - intros a b c d e H. rewrite validate_refines_spec. unfold validate_spec.
    change (capability_set "SPEND_BASED") with spend_based_supported.
    rewrite (filter_all _ _ H). reflexivity.
Qed.

Lemma validate_group_by_fields_correct_witness :
  validate_group_by_fields
    [ "service"; "region"; "platform"; "skuName"; "resourceId" ] "SPEND_BASED"
  = [ "service"; "region"; "platform"; "skuName" ].
Proof.
  apply (proj2 (proj2 (proj2 validate_group_by_fields_correct))).
  repeat constructor.
Defined.

(** ** DateNormalizer *)

Lemma datetime_new_valid (dt : datetime) :
  valid_fields dt = true -> datetime_new dt = Return dt.
Proof. intros H. unfold datetime_new. rewrite H. reflexivity. Qed.

Lemma datetime_new_inv (dt dt' : datetime) :
  datetime_new dt = Return dt' -> dt' = dt /\ valid_fields dt = true.
Proof.
  unfold datetime_new. destruct (valid_fields dt); intros H;
    [injection H as <-; auto | discriminate].
Qed.

Lemma days_in_month_ge (y m : Z) : (28 <= days_in_month y m)%Z.
Proof.
  unfold days_in_month.
  destruct (m =? 2)%Z; [destruct (is_leap y); lia|].
  destruct ((m =? 4) || (m =? 6) || (m =? 9) || (m =? 11))%Z; lia.
Qed.

(** What the constructor checks, as arithmetic. *)
Lemma valid_fields_spec (dt : datetime) :
  valid_fields dt = true <->
  (1 <= year dt <= 9999 /\ 1 <= month dt <= 12
   /\ 1 <= day dt <= days_in_month (year dt) (month dt)
   /\ 0 <= hour dt <= 23 /\ 0 <= minute dt <= 59 /\ 0 <= second dt <= 59
   /\ 0 <= microsecond dt <= 999999
   /\ match tzinfo dt with
      | None => True
      | Some off => - 86400000000 < off < 86400000000
      end)%Z.
Proof.
  unfold valid_fields, in_range.
  repeat rewrite andb_true_iff. repeat rewrite Z.leb_le.
  destruct (tzinfo dt) as [off|].
  - rewrite andb_true_iff, !Z.ltb_lt. tauto.
  - intuition.
Qed.

Lemma first_of_month_valid (y m : Z) (tz : option Z) :
  (1 <= y <= 9999)%Z -> (1 <= m <= 12)%Z ->
  match tz with
  | None => True
  | Some off => (- 86400000000 < off < 86400000000)%Z
  end ->
  valid_fields (mk_datetime y m 1 0 0 0 0 tz) = true.
Proof.
  intros Hy Hm Htz. apply valid_fields_spec. simpl.
  pose proof (days_in_month_ge y m). repeat split; try lia. exact Htz.
Qed.

Lemma replace_day_first (today : datetime) :
  valid_fields today = true ->
  replace_day today 1
  = Return (mk_datetime (year today) (month today) 1 (hour today)
              (minute today) (second today) (microsecond today)
              (tzinfo today)).
Proof.
  intros H. unfold replace_day. apply datetime_new_valid.
  apply valid_fields_spec in H. apply valid_fields_spec. simpl.
  pose proof (days_in_month_ge (year today) (month today)).
  repeat split; try lia; tauto.
Qed.

(** C7.  With the clock reading [today] (a valid date of year 2 or later),
    [calculate_first_day_date_range] returns the first day of the month
    that lies 1 month ([last_month]) or 3 months ([last_3_months]) before
    the current one, and the first day of the current month, each as
    [strftime] prints it; months are counted across years
    ([12 * year + month]).  On 2024-02-15 the last
    three months are (2023-11-01, 2024-02-01), on 2024-01-10 they are
    (2023-10-01, 2024-01-01), at any time of the day. *)
Theorem calculate_first_day_date_range_correct :
  (forall today period k,
      valid_fields today = true -> (2 <= year today)%Z ->
      (period = "last_month" /\ k = 1%Z)
      \/ (period = "last_3_months" /\ k = 3%Z) ->
      exists ys ms,
        calculate_first_day_date_range today period
        = Return ((year_text ys ++ "-" ++ pad2 ms ++ "-01")%string,
                  (year_text (year today) ++ "-" ++ pad2 (month today)
                   ++ "-01")%string)
        /\ (1 <= ms <= 12)%Z
        /\ (12 * ys + ms = 12 * year today + month today - k)%Z)
  /\ (forall h mi s us,
         valid_fields (mk_datetime 2024 2 15 h mi s us None) = true ->
         calculate_first_day_date_range
           (mk_datetime 2024 2 15 h mi s us None) "last_3_months"
         = Return ("2023-11-01", "2024-02-01"))
  /\ (forall h mi s us,
         valid_fields (mk_datetime 2024 1 10 h mi s us None) = true ->
         calculate_first_day_date_range
           (mk_datetime 2024 1 10 h mi s us None) "last_3_months"
         = Return ("2023-10-01", "2024-01-01")).
Proof.
  assert (General : forall today period k,
      valid_fields today = true -> (2 <= year today)%Z ->
      (period = "last_month" /\ k = 1%Z)
      \/ (period = "last_3_months" /\ k = 3%Z) ->
      exists ys ms,
        calculate_first_day_date_range today period
        = Return ((year_text ys ++ "-" ++ pad2 ms ++ "-01")%string,
                  (year_text (year today) ++ "-" ++ pad2 (month today)
                   ++ "-01")%string)
        /\ (1 <= ms <= 12)%Z
        /\ (12 * ys + ms = 12 * year today + month today - k)%Z).
  { intros today period k Hv Hy Hp.
    pose proof (proj1 (valid_fields_spec today) Hv) as V.
    destruct V as (Vy & Vm & Vd & Vh & Vmi & Vs & Vus & Vtz).
    unfold calculate_first_day_date_range.
    rewrite (replace_day_first today Hv).
    destruct Hp as [[-> ->]|[-> ->]]; cbn [String.eqb Ascii.eqb Bool.eqb];
      cbn [year month day hour minute second microsecond tzinfo].
    - destruct (Z.eqb_spec (month today) 1) as [E|NE].
      + exists (year today - 1)%Z, 12%Z.
        unfold replace_year_month.
        rewrite datetime_new_valid.
        * split; [reflexivity | lia].
        * apply valid_fields_spec. simpl.
          pose proof (days_in_month_ge (year today - 1) 12).
          repeat split; try lia; exact Vtz.
      + exists (year today), (month today - 1)%Z.
        unfold replace_month.
        rewrite datetime_new_valid.
        * split; [reflexivity | lia].
        * apply valid_fields_spec. simpl.
          pose proof (days_in_month_ge (year today) (month today - 1)).
          repeat split; try lia; exact Vtz.
    - destruct (Z.leb_spec (month today - 3) 0) as [L|G].
      + exists (year today - 1)%Z, (month today - 3 + 12)%Z.
        rewrite datetime_new_valid.
        * split; [reflexivity | lia].
        * apply first_of_month_valid; [lia | lia | exact I].
      + exists (year today), (month today - 3)%Z.
        rewrite datetime_new_valid.
        * split; [reflexivity | lia].
        * apply first_of_month_valid; [lia | lia | exact I]. }
  split; [exact General|].
  split; intros h mi s us Hv.
  - destruct (General _ "last_3_months" 3%Z Hv) as (ys & ms & E & Hm & Hk);
      [cbn [year]; lia | right; auto |].
    cbn [year month] in Hk. assert (ys = 2023%Z) by lia. assert (ms = 11%Z) by lia.
    subst. exact E.
  - destruct (General _ "last_3_months" 3%Z Hv) as (ys & ms & E & Hm & Hk);
      [cbn [year]; lia | right; auto |].
    cbn [year month] in Hk. assert (ys = 2023%Z) by lia. assert (ms = 10%Z) by lia.
    subst. exact E.
Qed.

Lemma calculate_first_day_date_range_correct_witness :
  calculate_first_day_date_range
    (mk_datetime 2024 1 10 9 30 0 0 None) "last_3_months"
  = Return ("2023-10-01", "2024-01-01").
Proof.
  apply (proj2 (proj2 calculate_first_day_date_range_correct)).
  reflexivity.
Defined.

(** *** Digits written and read back *)

Lemma small_cases (d : Z) :
  (0 <= d <= 9)%Z ->
  d = 0%Z \/ d = 1%Z \/ d = 2%Z \/ d = 3%Z \/ d = 4%Z \/ d = 5%Z
  \/ d = 6%Z \/ d = 7%Z \/ d = 8%Z \/ d = 9%Z.
Proof. lia. Qed.

Ltac each_digit d H :=
  destruct (small_cases d H) as [->|[->|[->|[->|[->|[->|[->|[->|[->| ->]]]]]]]]].

Lemma digit_digit_char (d : Z) :
  (0 <= d <= 9)%Z -> digit (digit_char d) = Some d.
Proof. intros H. each_digit d H; reflexivity. Qed.

Lemma digit_char_not (c : ascii) (d : Z) :
  digit c = None -> (0 <= d <= 9)%Z -> Ascii.eqb c (digit_char d) = false.
Proof.
  intros Hc H. destruct (Ascii.eqb_spec c (digit_char d)) as [->|]; [|reflexivity].
  rewrite (digit_digit_char d H) in Hc. discriminate.
Qed.

Lemma take_digits_cons (n : nat) (acc d : Z) (s : string) :
  (0 <= d <= 9)%Z ->
  take_digits (S n) acc (String (digit_char d) s)
  = take_digits n (10 * acc + d) s.
Proof. intros H. simpl. rewrite (digit_digit_char d H). reflexivity. Qed.

Lemma mod10_digit (n : Z) : (0 <= n mod 10 <= 9)%Z.
Proof. pose proof (Z.mod_pos_bound n 10). lia. Qed.

Lemma take_digits_pad2 (n : Z) (r : string) :
  (0 <= n <= 99)%Z -> take_digits 2 0 (pad2 n ++ r) = Some (n, r).
Proof.
  intros H. unfold pad2. cbn [String.append].
  rewrite !take_digits_cons by apply mod10_digit.
  cbn [take_digits]. do 2 f_equal.
  Z.div_mod_to_equations. lia.
Qed.

Lemma take_digits_pad4 (n : Z) (r : string) :
  (0 <= n <= 9999)%Z -> take_digits 4 0 (pad4 n ++ r) = Some (n, r).
Proof.
  intros H. unfold pad4, pad2. cbn [String.append].
  rewrite !take_digits_cons by apply mod10_digit.
  cbn [take_digits]. do 2 f_equal.
  Z.div_mod_to_equations. lia.
Qed.

Lemma str_contains_app (c : ascii) (a b : string) :
  str_contains c (a ++ b) = str_contains c a || str_contains c b.
Proof.
  induction a as [|c' a IH]; simpl; [reflexivity|].
  rewrite IH. apply orb_assoc.
Qed.

Lemma str_append_assoc (a b c : string) :
  (a ++ (b ++ c) = (a ++ b) ++ c)%string.
Proof. induction a as [|x a IH]; simpl; [reflexivity | rewrite IH; reflexivity]. Qed.

Lemma str_replace_app (c : ascii) (by_ a b : string) :
  str_replace c by_ (a ++ b)
  = (str_replace c by_ a ++ str_replace c by_ b)%string.
Proof.
  induction a as [|c' a IH]; simpl; [reflexivity|].
  rewrite IH. destruct (Ascii.eqb c c'); simpl; [|reflexivity].
  apply str_append_assoc.
Qed.

Lemma str_contains_T_pad2 (n : Z) : str_contains "T" (pad2 n) = false.
Proof.
  unfold pad2. cbn [str_contains].
  rewrite !(digit_char_not "T") by (reflexivity || apply mod10_digit).
  reflexivity.
Qed.

Lemma str_contains_T_pad4 (n : Z) : str_contains "T" (pad4 n) = false.
Proof.
  unfold pad4. cbn [str_contains].
  rewrite !(digit_char_not "T") by (reflexivity || apply mod10_digit).
  apply str_contains_T_pad2.
Qed.

Lemma str_contains_T_date_text (y m d : Z) :
  str_contains "T" (date_text y m d) = false.
Proof.
  unfold date_text.
  rewrite !str_contains_app, str_contains_T_pad4, !str_contains_T_pad2.
  reflexivity.
Qed.

Lemma strptime_month_pad2 (m : Z) (r : string) :
  (1 <= m <= 12)%Z ->
  strptime_month (pad2 m ++ String "-" r) = Some (m, String "-" r).
Proof.
  intros H.
  assert (C : (m = 1 \/ m = 2 \/ m = 3 \/ m = 4 \/ m = 5 \/ m = 6 \/ m = 7
               \/ m = 8 \/ m = 9 \/ m = 10 \/ m = 11 \/ m = 12)%Z) by lia.
  repeat (destruct C as [->|C]; [reflexivity|]). subst m. reflexivity.
Qed.

Lemma days_read_back :
  forallb day_reads_back (map Z.of_nat (seq 1 31)) = true.
Proof. vm_compute. reflexivity. Qed.

Lemma strptime_day_pad2 (d : Z) :
  (1 <= d <= 31)%Z -> strptime_day (pad2 d) = Some (d, EmptyString).
Proof.
  intros H.
  assert (Hin : In d (map Z.of_nat (seq 1 31))).
  { apply in_map_iff. exists (Z.to_nat d). split; [lia|].
    apply in_seq. lia. }
  pose proof (proj1 (forallb_forall _ _) days_read_back d Hin) as R.
  unfold day_reads_back in R.
  destruct (strptime_day (pad2 d)) as [[d' [|c r]]|]; try discriminate.
  apply Z.eqb_eq in R. subst. reflexivity.
Qed.

Lemma strptime_ymd_date_text (y m d : Z) :
  (0 <= y <= 9999)%Z -> (1 <= m <= 12)%Z -> (1 <= d <= 31)%Z ->
  strptime_ymd (date_text y m d)
  = datetime_new (mk_datetime y m d 0 0 0 0 None).
Proof.
  intros Hy Hm Hd. unfold strptime_ymd, date_text.
  rewrite take_digits_pad4 by exact Hy.
  cbn [String.append expect Ascii.eqb Bool.eqb].
  change (String "-" (pad2 m ++ String "-" (pad2 d)))
    with (String "-" (pad2 m ++ String "-" (pad2 d))).
  rewrite (strptime_month_pad2 m (pad2 d) Hm).
  cbn [expect Ascii.eqb Bool.eqb].
  rewrite (strptime_day_pad2 d Hd). reflexivity.
Qed.

Lemma strftime_api_first (y m : Z) (tz : option Z) :
  strftime_api (mk_datetime y m 1 0 0 0 0 tz) = first_instant_text y m.
Proof.
  unfold strftime_api, strftime_date, first_instant_text.
  cbn [year month day]. rewrite <- str_append_assoc. reflexivity.
Qed.

Lemma normalize_date_text (y m d : Z) :
  (1 <= y <= 9999)%Z -> (1 <= m <= 12)%Z ->
  (1 <= d <= days_in_month y m)%Z ->
  _parse_and_validate_datetime (date_text y m d)
  = Return (first_instant_text y m).
Proof.
  intros Hy Hm Hd.
  assert (Hd31 : (1 <= d <= 31)%Z).
  { unfold days_in_month in Hd.
    destruct (m =? 2)%Z; [destruct (is_leap y); lia|].
    destruct ((m =? 4) || (m =? 6) || (m =? 9) || (m =? 11))%Z; lia. }
  unfold _parse_and_validate_datetime.
  rewrite str_contains_T_date_text, strptime_ymd_date_text by lia.
  rewrite datetime_new_valid.
  - unfold replace_first_midnight.
    cbn [year month day hour minute second microsecond tzinfo].
    rewrite datetime_new_valid by (apply first_of_month_valid; [lia | lia | exact I]).
    rewrite strftime_api_first. reflexivity.
  - apply valid_fields_spec. cbn. repeat split; try lia.
Qed.


(** From the year 1000 on [%Y] prints four digits. *)
Lemma year_text_pad4 (y : Z) : (1000 <= y)%Z -> year_text y = pad4 y.
Proof.
  intros H. unfold year_text.
  destruct (Z.ltb_spec y 10); [lia|].
  destruct (Z.ltb_spec y 100); [lia|].
  destruct (Z.ltb_spec y 1000); [lia|]. reflexivity.
Qed.

Lemma first_instant_text_month_start (y m : Z) :
  (1000 <= y)%Z -> first_instant_text y m = month_start y m.
Proof.
  intros H. unfold first_instant_text, month_start.
  rewrite (year_text_pad4 y H). reflexivity.
Qed.

Lemma all_from_spec (f : Z -> bool) (n : nat) :
  forall lo, all_from f lo n = true ->
  forall z, (lo <= z < lo + Z.of_nat n)%Z -> f z = true.
Proof.
  induction n as [|n IH]; intros lo H z Hz; [lia|].
  cbn [all_from] in H. apply andb_true_iff in H. destruct H as [H0 H].
  destruct (Z.eq_dec z lo) as [->|NE]; [exact H0|].
  apply (IH (lo + 1)%Z H). lia.
Qed.

(** Every text [YYYY-MM-01T00:00:00Z] of the years 1000 to 9999 is read
    and returned as it is: checked for each of them. *)
Lemma years_read_back : all_from months_read_back 1000 (Z.to_nat 9000) = true.
Proof. vm_compute. reflexivity. Qed.

Lemma normalize_month_start (y m : Z) :
  (1000 <= y <= 9999)%Z -> (1 <= m <= 12)%Z ->
  _parse_and_validate_datetime (month_start y m) = Return (month_start y m).
Proof.
  intros Hy Hm.
  pose proof (all_from_spec _ _ _ years_read_back y ltac:(lia)) as Y.
  unfold months_read_back in Y.
  pose proof (all_from_spec _ _ _ Y m ltac:(lia)) as M. cbv beta in M.
  destruct (_parse_and_validate_datetime (month_start y m)) as [out|e];
    [|discriminate].
  apply String.eqb_eq in M. subst. reflexivity.
Qed.

(** The texts printed for the years 1 to 999 are all refused: checked for
    each of them. *)
Lemma short_years_refused : all_from months_refused 1 (Z.to_nat 999) = true.
Proof. vm_compute. reflexivity. Qed.

Lemma normalize_short_year_refused (y m : Z) :
  (1 <= y <= 999)%Z -> (1 <= m <= 12)%Z ->
  exists msg,
    _parse_and_validate_datetime (first_instant_text y m)
    = Raise (ValueError msg).
Proof.
  intros Hy Hm.
  pose proof (all_from_spec _ _ _ short_years_refused y ltac:(lia)) as Y.
  unfold months_refused in Y.
  pose proof (all_from_spec _ _ _ Y m ltac:(lia)) as M. cbv beta in M.
  destruct (_parse_and_validate_datetime (first_instant_text y m))
    as [out|[msg|msg|msg|msg|msg]]; try discriminate.
  exists msg. reflexivity.
Qed.

Lemma str_length_app (a b : string) :
  String.length (a ++ b) = (String.length a + String.length b)%nat.
Proof. induction a as [|c a IH]; cbn; [reflexivity | rewrite IH; reflexivity]. Qed.

Lemma year_text_short (y : Z) :
  (1 <= y <= 999)%Z -> (String.length (year_text y) <= 3)%nat.
Proof.
  intros H. unfold year_text.
  destruct (Z.ltb_spec y 10); [cbn; lia|].
  destruct (Z.ltb_spec y 100); [cbn; lia|].
  destruct (Z.ltb_spec y 1000); [cbn; lia | lia].
Qed.

(** What the normaliser returns: the first instant of the month of the
    datetime it read, as [strftime] prints it. *)
Lemma normalize_result (d out : string) :
  _parse_and_validate_datetime d = Return out ->
  exists dt,
    parsed_datetime d = Return dt
    /\ (1 <= year dt <= 9999)%Z /\ (1 <= month dt <= 12)%Z
    /\ out = first_instant_text (year dt) (month dt).
Proof.
  unfold _parse_and_validate_datetime. fold (parsed_datetime d). intros H.
  destruct (parsed_datetime d) as [dt|e]; [|discriminate].
  destruct (replace_first_midnight dt) as [dt'|e] eqn:R; [|discriminate].
  injection H as <-.
  apply datetime_new_inv in R. destruct R as [-> V].
  apply valid_fields_spec in V. cbn in V. destruct V as (Vy & Vm & _).
  exists dt. rewrite strftime_api_first. repeat split; try lia.
Qed.

(** C6 fails on the code.  A date of a year before 1000 is accepted, and
    what is returned for it has the year as [%Y] prints it, in fewer than
    four digits: the text is shorter than [YYYY-MM-01T00:00:00Z] and the
    normaliser refuses it when it is given it again, so that neither the
    promised form nor idempotence holds there. *)
Theorem normalize_short_year_not_idempotent (y m d : Z) :
  (1 <= y <= 999)%Z -> (1 <= m <= 12)%Z -> (1 <= d <= days_in_month y m)%Z ->
  exists out msg,
    _parse_and_validate_datetime (date_text y m d) = Return out
    /\ out = (year_text y ++ "-" ++ pad2 m ++ "-01T00:00:00Z")%string
    /\ (String.length out < String.length "YYYY-MM-01T00:00:00Z")%nat
    /\ _parse_and_validate_datetime out = Raise (ValueError msg).
Proof.
  intros Hy Hm Hd.
  destruct (normalize_short_year_refused y m Hy Hm) as (msg & R).
  exists (first_instant_text y m), msg.
  split; [apply normalize_date_text; lia|].
  split; [reflexivity|].
  split; [|exact R].
  unfold first_instant_text. rewrite str_length_app.
  pose proof (year_text_short y Hy). cbn. lia.
Qed.

Lemma normalize_short_year_not_idempotent_witness :
  exists msg,
    _parse_and_validate_datetime "0999-05-01" = Return "999-05-01T00:00:00Z"
    /\ _parse_and_validate_datetime "999-05-01T00:00:00Z"
       = Raise (ValueError msg).
Proof.
  destruct (normalize_short_year_not_idempotent 999 5 1
              ltac:(lia) ltac:(lia) ltac:(cbn; lia))
    as (out & msg & E & -> & _ & R).
  exists msg. split; [exact E | exact R].
Defined.

(** ** Order of binary64 values *)

Lemma SFltb_rank (f1 f2 : spec_float) :
  f1 <> S754_nan -> f2 <> S754_nan ->
  (SFltb f1 f2 = true <-> rank_lt (sf_rank f1) (sf_rank f2)).
Proof.
  intros N1 N2. unfold SFltb, SFcompare.
  destruct f1 as [s1|s1| |s1 m1 e1]; destruct f2 as [s2|s2| |s2 m2 e2];
    try congruence;
    try destruct s1; try destruct s2; cbn [sf_rank rank_lt];
    try (split; [discriminate | lia]);
    try (split; [lia | reflexivity]);
    try (split; [reflexivity | lia]).
  - change (Pos.compare_cont Eq m1 m2) with (Pos.compare m1 m2).
    destruct (Z.compare_spec e1 e2); destruct (Pos.compare_spec m1 m2);
      cbn [CompOpp]; split; intros; try discriminate; try reflexivity; lia.
  - change (Pos.compare_cont Eq m1 m2) with (Pos.compare m1 m2).
    destruct (Z.compare_spec e1 e2); destruct (Pos.compare_spec m1 m2);
      split; intros; try discriminate; try reflexivity; lia.
Qed.

Lemma not_nan_spec (x : float) : not_nan x -> Prim2SF x <> S754_nan.
Proof.
  unfold not_nan. rewrite eqb_spec. intros H E. rewrite E in H. discriminate.
Qed.

Lemma ltb_rank (x y : float) :
  not_nan x -> not_nan y ->
  (PrimFloat.ltb x y = true
   <-> rank_lt (sf_rank (Prim2SF x)) (sf_rank (Prim2SF y))).
Proof.
  intros Hx Hy. rewrite ltb_spec.
  apply SFltb_rank; apply not_nan_spec; assumption.
Qed.

Lemma ltb_asym (x y : float) :
  not_nan x -> not_nan y ->
  PrimFloat.ltb x y = true -> PrimFloat.ltb y x = false.
Proof.
  intros Hx Hy H. apply (ltb_rank x y Hx Hy) in H.
  destruct (PrimFloat.ltb y x) eqn:E; [|reflexivity].
  apply (ltb_rank y x Hy Hx) in E.
  destruct (sf_rank (Prim2SF x)) as [[a1 a2] a3].
  destruct (sf_rank (Prim2SF y)) as [[b1 b2] b3].
  cbn [rank_lt] in *. lia.
Qed.

Lemma ltb_trans (x y z : float) :
  not_nan x -> not_nan y -> not_nan z ->
  PrimFloat.ltb x y = true -> PrimFloat.ltb y z = true ->
  PrimFloat.ltb x z = true.
Proof.
  intros Hx Hy Hz H1 H2.
  apply (ltb_rank x y Hx Hy) in H1. apply (ltb_rank y z Hy Hz) in H2.
  apply (ltb_rank x z Hx Hz).
  destruct (sf_rank (Prim2SF x)) as [[a1 a2] a3].
  destruct (sf_rank (Prim2SF y)) as [[b1 b2] b3].
  destruct (sf_rank (Prim2SF z)) as [[c1 c2] c3].
  cbn [rank_lt] in *. lia.
Qed.

(** Not smaller is transitive too: the values other than NaN are weakly
    ordered. *)
Lemma ltb_false_trans (x y z : float) :
  not_nan x -> not_nan y -> not_nan z ->
  PrimFloat.ltb x y = false -> PrimFloat.ltb y z = false ->
  PrimFloat.ltb x z = false.
Proof.
  intros Hx Hy Hz H1 H2.
  destruct (PrimFloat.ltb x z) eqn:E; [|reflexivity].
  apply (ltb_rank x z Hx Hz) in E.
  assert (N1 : ~ rank_lt (sf_rank (Prim2SF x)) (sf_rank (Prim2SF y))).
  { intros C. apply (ltb_rank x y Hx Hy) in C. congruence. }
  assert (N2 : ~ rank_lt (sf_rank (Prim2SF y)) (sf_rank (Prim2SF z))).
  { intros C. apply (ltb_rank y z Hy Hz) in C. congruence. }
  destruct (sf_rank (Prim2SF x)) as [[a1 a2] a3].
  destruct (sf_rank (Prim2SF y)) as [[b1 b2] b3].
  destruct (sf_rank (Prim2SF z)) as [[c1 c2] c3].
  cbn [rank_lt] in *. lia.
Qed.

(** ** ReportAggregator *)

Import Report.

Lemma accumulate_total (g : bool) (its : list EmissionRecord) (acc : accumulators) :
  total_emissions (fold_left (accumulate g) its acc)
  = fold_left (fun t i => PrimFloat.add t (emission_of i)) its
              (total_emissions acc).
Proof.
  revert acc. induction its as [|i its IH]; intros acc; simpl;
    [reflexivity | rewrite IH; reflexivity].
Qed.

Lemma accumulate_services (g : bool) (its : list EmissionRecord) (acc : accumulators) :
  service_emissions (fold_left (accumulate g) its acc)
  = fold_left (fun d i => dict_add (service_key i) (emission_of i) d) its
              (service_emissions acc).
Proof.
  revert acc. induction its as [|i its IH]; intros acc; simpl;
    [reflexivity | rewrite IH; reflexivity].
Qed.

(** *** Names in the order of their first record *)

Lemma str_in_In (x : string) (l : list string) : str_in x l = true <-> In x l.
Proof.
  unfold str_in. rewrite existsb_exists. split.
  - intros (y & Hy & E). apply String.eqb_eq in E. subst. exact Hy.
  - intros H. exists x. split; [exact H | apply String.eqb_refl].
Qed.

Lemma first_occurrences_In (x : string) (l : list string) :
  In x (first_occurrences l) <-> In x l.
Proof.
  induction l as [|k l IH]; simpl; [tauto|].
  rewrite filter_In, IH. destruct (String.eqb_spec x k) as [->|NE]; simpl.
  - tauto.
  - split; [tauto|]. intros [E|H]; [congruence | auto].
Qed.

Lemma NoDup_filter {A : Type} (f : A -> bool) (l : list A) :
  NoDup l -> NoDup (List.filter f l).
Proof.
  induction 1 as [|x l Hx _ IH]; simpl; [constructor|].
  destruct (f x); [|exact IH].
  constructor; [|exact IH]. rewrite filter_In. tauto.
Qed.

Lemma first_occurrences_NoDup (l : list string) : NoDup (first_occurrences l).
Proof.
  induction l as [|k l IH]; simpl; constructor.
  - rewrite filter_In. rewrite String.eqb_refl. simpl. intros [_ H]. discriminate.
  - apply NoDup_filter, IH.
Qed.

Lemma first_occurrences_snoc (l : list string) (k : string) :
  first_occurrences (l ++ [ k ])
  = if str_in k l then first_occurrences l else first_occurrences l ++ [ k ].
Proof.
  induction l as [|a l IH]; [reflexivity|].
  cbn [app first_occurrences]. rewrite IH.
  unfold str_in. cbn [existsb]. fold (str_in k l).
  destruct (String.eqb_spec k a) as [->|NE]; cbn [orb].
  - destruct (str_in a l); [reflexivity|].
    rewrite filter_app. cbn [List.filter]. rewrite String.eqb_refl.
    cbn [negb]. rewrite app_nil_r. reflexivity.
  - destruct (str_in k l); [reflexivity|].
    rewrite filter_app. cbn [List.filter].
    destruct (String.eqb_spec k a); [contradiction|]. reflexivity.
Qed.

(** *** The dictionary against the totals by name *)

Lemma dict_add_map_notin (f : string -> float) (k : string) (e : float)
    (l : list string) :
  ~ In k l ->
  dict_add k e (map (fun s => (s, f s)) l)
  = map (fun s => (s, f s)) l ++ [ (k, e) ].
Proof.
  induction l as [|s l IH]; intros H; [reflexivity|].
  cbn [map dict_add app].
  destruct (String.eqb_spec k s) as [->|NE]; [elim H; left; reflexivity|].
  rewrite IH; [reflexivity|]. intros C. apply H. right. exact C.
Qed.

Lemma dict_add_map_in (f : string -> float) (k : string) (e : float)
    (l : list string) :
  NoDup l -> In k l ->
  dict_add k e (map (fun s => (s, f s)) l)
  = map (fun s => (s, if String.eqb s k then PrimFloat.add (f s) e else f s)) l.
Proof.
  induction 1 as [|s l Hs Hl IH]; intros Hin; [destruct Hin|].
  cbn [map dict_add].
  destruct (String.eqb_spec k s) as [->|NE].
  - rewrite String.eqb_refl. f_equal.
    apply map_ext_in. intros x Hx.
    destruct (String.eqb_spec x s) as [->|]; [contradiction | reflexivity].
  - destruct (String.eqb_spec s k) as [E|_]; [congruence|].
    f_equal. apply IH. destruct Hin as [E|H]; [congruence | exact H].
Qed.

Lemma sum_from_snoc (es : list float) (e : float) :
  sum_from (es ++ [ e ])
  = match es with
    | [] => e
    | _ :: _ => PrimFloat.add (sum_from es) e
    end.
Proof.
  destruct es as [|x es]; [reflexivity|].
  cbn [app sum_from]. rewrite fold_left_app. reflexivity.
Qed.

Lemma records_of_snoc (key : EmissionRecord -> string) (s : string)
    (its : list EmissionRecord) (i : EmissionRecord) :
  records_of key s (its ++ [ i ])
  = records_of key s its ++ (if String.eqb (key i) s then [ i ] else []).
Proof. unfold records_of. rewrite filter_app. reflexivity. Qed.

Lemma records_of_nil (key : EmissionRecord -> string) (s : string)
    (its : list EmissionRecord) :
  ~ In s (map key its) -> records_of key s its = [].
Proof.
  unfold records_of. induction its as [|i its IH]; intros H; [reflexivity|].
  cbn [List.filter]. destruct (String.eqb_spec (key i) s) as [E|NE].
  - elim H. left. exact E.
  - apply IH. intros C. apply H. right. exact C.
Qed.

Lemma records_of_cons (key : EmissionRecord -> string) (s : string)
    (its : list EmissionRecord) :
  In s (map key its) -> exists i rest, records_of key s its = i :: rest.
Proof.
  unfold records_of. induction its as [|i its IH]; intros H; [destruct H|].
  cbn [List.filter]. destruct (String.eqb_spec (key i) s) as [E|NE].
  - eauto.
  - apply IH. destruct H as [E|H]; [contradiction | exact H].
Qed.

Lemma group_totals_snoc (key : EmissionRecord -> string)
    (its : list EmissionRecord) (i : EmissionRecord) :
  group_totals key (its ++ [ i ])
  = dict_add (key i) (emission_of i) (group_totals key its).
Proof.
  unfold group_totals. rewrite map_app. cbn [map].
  rewrite first_occurrences_snoc.
  destruct (str_in (key i) (map key its)) eqn:Hin.
  - apply str_in_In in Hin.
    rewrite dict_add_map_in;
      [| apply first_occurrences_NoDup | apply first_occurrences_In, Hin].
    apply map_ext_in. intros s Hs. f_equal.
    rewrite records_of_snoc, map_app.
    destruct (String.eqb_spec s (key i)) as [->|NE].
    + rewrite String.eqb_refl. cbn [map]. rewrite sum_from_snoc.
      destruct (records_of_cons key (key i) its Hin) as (r & rest & ->).
      reflexivity.
    + destruct (String.eqb_spec (key i) s) as [E|_]; [congruence|].
      cbn [map]. rewrite app_nil_r. reflexivity.
  - assert (Hnot : ~ In (key i) (map key its)).
    { intros C. apply str_in_In in C. congruence. }
    rewrite dict_add_map_notin by (rewrite first_occurrences_In; exact Hnot).
    rewrite map_app. cbn [map]. f_equal.
    + apply map_ext_in. intros s Hs. f_equal.
      rewrite records_of_snoc, map_app.
      destruct (String.eqb_spec (key i) s) as [E|_].
      * subst s. elim Hnot. exact (proj1 (first_occurrences_In _ _) Hs).
      * cbn [map]. rewrite app_nil_r. reflexivity.
    + rewrite records_of_snoc, String.eqb_refl.
      rewrite (records_of_nil key (key i) its Hnot). reflexivity.
Qed.

Lemma dict_fold_group_totals (key : EmissionRecord -> string)
    (its : list EmissionRecord) :
  fold_left (fun d i => dict_add (key i) (emission_of i) d) its []
  = group_totals key its.
Proof.
  induction its as [|i its IH] using rev_ind; [reflexivity|].
  rewrite fold_left_app. cbn [fold_left]. rewrite IH.
  symmetry. apply group_totals_snoc.
Qed.

(** *** The stable descending sort *)

Lemma sorted_desc_snoc (d : totals) (x : string * float) :
  sorted_desc (d ++ [ x ]) = insert_desc x (sorted_desc d).
Proof. unfold sorted_desc. rewrite fold_left_app. reflexivity. Qed.

Lemma insert_desc_perm (x : string * float) (l : totals) :
  Permutation (insert_desc x l) (x :: l).
Proof.
  induction l as [|y l IH]; cbn [insert_desc]; [reflexivity|].
  destruct (PrimFloat.ltb (snd y) (snd x)); [reflexivity|].
  rewrite IH. apply perm_swap.
Qed.

Lemma sorted_desc_perm (d : totals) : Permutation (sorted_desc d) d.
Proof.
  induction d as [|x d IH] using rev_ind; [reflexivity|].
  rewrite sorted_desc_snoc, insert_desc_perm, IH.
  apply Permutation_cons_append.
Qed.

Lemma insert_desc_sorted (x : string * float) (l : totals) :
  not_nan (snd x) -> Forall (fun e => not_nan (snd e)) l ->
  StronglySorted not_below l -> StronglySorted not_below (insert_desc x l).
Proof.
  intros Hx Hl Hs. induction Hs as [|y l Hs IH Hy]; cbn [insert_desc].
  - repeat constructor.
  - inversion Hl as [|? ? Ny Nl]; subst.
    destruct (PrimFloat.ltb (snd y) (snd x)) eqn:E.
    + constructor; [constructor; assumption|].
      assert (Hxy : not_below x y) by (apply ltb_asym; assumption).
      constructor; [exact Hxy|].
      rewrite Forall_forall in *. intros z Hz.
      apply (ltb_false_trans (snd x) (snd y) (snd z)); auto.
      exact (Hy z Hz).
    + constructor; [apply IH; exact Nl|].
      rewrite (insert_desc_perm x l). constructor; [exact E | exact Hy].
Qed.

Lemma sorted_desc_sorted (d : totals) :
  Forall (fun e => not_nan (snd e)) d -> StronglySorted not_below (sorted_desc d).
Proof.
  induction d as [|x d IH] using rev_ind; intros H; [constructor|].
  rewrite sorted_desc_snoc. apply Forall_app in H. destruct H as [Hd Hx].
  inversion Hx; subst.
  apply insert_desc_sorted; [assumption | | apply IH; exact Hd].
  rewrite (sorted_desc_perm d). exact Hd.
Qed.

Lemma filter_none {A : Type} (f : A -> bool) (l : list A) :
  (forall z, In z l -> f z = false) -> List.filter f l = [].
Proof.
  induction l as [|x l IH]; intros H; [reflexivity|].
  cbn [List.filter]. rewrite (H x) by (left; reflexivity).
  apply IH. intros z Hz. apply H. right. exact Hz.
Qed.

Lemma tied_below (v : float) (x y : string * float) :
  not_nan v -> not_nan (snd x) -> not_nan (snd y) ->
  tied v x = true -> PrimFloat.ltb (snd y) (snd x) = true ->
  PrimFloat.ltb (snd y) v = true.
Proof.
  intros Hv Hx Hy Ht Hlt. unfold tied in Ht.
  apply andb_true_iff in Ht. destruct Ht as [T1 T2].
  apply negb_true_iff in T1.
  destruct (PrimFloat.ltb (snd y) v) eqn:E; [reflexivity|].
  rewrite (ltb_false_trans (snd y) v (snd x)) in Hlt; auto.
Qed.

Lemma insert_desc_stable (v : float) (x : string * float) (l : totals) :
  not_nan v -> not_nan (snd x) -> Forall (fun e => not_nan (snd e)) l ->
  StronglySorted not_below l ->
  List.filter (tied v) (insert_desc x l)
  = List.filter (tied v) l ++ (if tied v x then [ x ] else []).
Proof.
  intros Hv Hx Hl Hs. induction Hs as [|y l Hs IH Hy]; cbn [insert_desc].
  - cbn [List.filter]. destruct (tied v x); reflexivity.
  - inversion Hl as [|? ? Ny Nl]; subst.
    destruct (PrimFloat.ltb (snd y) (snd x)) eqn:E.
    + destruct (tied v x) eqn:T.
      * assert (Hyv : PrimFloat.ltb (snd y) v = true)
          by (apply (tied_below v x y); assumption).
        assert (Hnone : List.filter (tied v) (y :: l) = []).
        { apply filter_none.
          intros z Hz. unfold tied.
          apply andb_false_iff. right. apply negb_false_iff.
          destruct Hz as [<-|Hz]; [exact Hyv|].
          rewrite Forall_forall in Hy, Nl.
          destruct (PrimFloat.ltb (snd z) v) eqn:Ez; [reflexivity|].
          rewrite (ltb_false_trans (snd y) (snd z) v) in Hyv; auto.
          exact (Hy z Hz). }
        cbn [List.filter] in *. rewrite T, Hnone. reflexivity.
      * cbn [List.filter]. rewrite T, app_nil_r. reflexivity.
    + cbn [List.filter]. rewrite (IH Nl).
      destruct (tied v y); reflexivity.
Qed.

Lemma sorted_desc_stable (v : float) (d : totals) :
  not_nan v -> Forall (fun e => not_nan (snd e)) d ->
  List.filter (tied v) (sorted_desc d) = List.filter (tied v) d.
Proof.
  intros Hv. induction d as [|x d IH] using rev_ind; intros H; [reflexivity|].
  apply Forall_app in H. destruct H as [Hd Hx]. inversion Hx; subst.
  rewrite sorted_desc_snoc, insert_desc_stable; auto.
  - rewrite IH by exact Hd. rewrite filter_app. reflexivity.
  - rewrite (sorted_desc_perm d). exact Hd.
  - apply sorted_desc_sorted. exact Hd.
Qed.

Lemma entries_breakdown (total : float) (d : totals) :
  entries (breakdown total d) = sorted_desc d.
Proof.
  unfold entries, breakdown. rewrite map_map. cbn [line_name line_emissions].
  rewrite <- (map_id (sorted_desc d)) at 2.
  apply map_ext. intros [k v]. reflexivity.
Qed.

(** C9.  For a dataset with records, the summary's total is the sum of
    the records' emission values added one after the other in encounter
    order; the service lines are the services with their totals (each the
    sum of that service's records in encounter order, services taken in
    the order of their first record), every line's percentage is its
    emissions over the total times 100 (0 when the total is not
    positive); and, no total being a NaN, the lines are in descending
    order of emissions and lines with tied emissions keep the order of
    first encounter.  On [A: 3.0, B: 1.0] the total is 4.0 and the lines are
    A with 75.0 then B with 25.0. *)
Theorem print_summary_correct :
  (forall data g r,
      print_summary data g = Some r ->
      let total :=
        fold_left (fun t i => PrimFloat.add t (emission_of i)) (items data)
                  PrimFloat.zero in
      summary_total r = total
      /\ Permutation (entries (summary_services r))
                     (group_totals service_key (items data))
      /\ Forall (fun l =>
                   line_percentage l
                   = if PrimFloat.ltb PrimFloat.zero total
                     then PrimFloat.mul (PrimFloat.div (line_emissions l) total)
                                        100%float
                     else PrimFloat.zero)
                (summary_services r)
      /\ (Forall (fun e => not_nan (snd e)) (entries (summary_services r)) ->
          StronglySorted not_below (entries (summary_services r))
          /\ forall v, not_nan v ->
               List.filter (tied v) (entries (summary_services r))
               = List.filter (tied v) (group_totals service_key (items data))))
  /\ print_summary
       (mk_response [ Stub.rec "A" 3%float; Stub.rec "B" 1%float ] None None)
       false
     = Some (mk_summary 4%float 2 []
               [ mk_line "A" 3%float 75%float; mk_line "B" 1%float 25%float ]).
Proof.
  split; [|reflexivity].
  intros data g r H total. unfold print_summary in H.
  destruct (is_empty (items data)); [discriminate|].
  injection H as <-.
  cbn [summary_total summary_services].
  rewrite accumulate_total, accumulate_services.
  cbn [total_emissions service_emissions].
  rewrite dict_fold_group_totals, entries_breakdown.
  fold total.
  split; [reflexivity|].
  split; [apply sorted_desc_perm|].
  split.
  - unfold breakdown. apply Forall_forall. intros l Hl.
    apply in_map_iff in Hl. destruct Hl as (kv & <- & _). reflexivity.
  - intros Hn.
    assert (Hd : Forall (fun e => not_nan (snd e))
                        (group_totals service_key (items data))).
    { rewrite <- (sorted_desc_perm (group_totals service_key (items data))).
      exact Hn. }
    split; [apply sorted_desc_sorted; exact Hd|].
    intros v Hv. apply sorted_desc_stable; assumption.
Qed.

Lemma print_summary_correct_witness :
  StronglySorted not_below
    [ ("A", 3%float); ("B", 1%float); ("C", 1%float) ]
  /\ List.filter (tied 1%float)
       [ ("A", 3%float); ("B", 1%float); ("C", 1%float) ]
     = [ ("B", 1%float); ("C", 1%float) ].
Proof.
  destruct (proj1 print_summary_correct
              (mk_response
                 [ Stub.rec "B" 1%float; Stub.rec "A" 3%float;
                   Stub.rec "C" 1%float ]
                 None None)
              false
              (mk_summary 5%float 3 []
                 [ mk_line "A" 3%float 60%float; mk_line "B" 1%float 20%float;
                   mk_line "C" 1%float 20%float ])
              eq_refl) as (_ & _ & _ & Order).
  destruct (Order ltac:(repeat constructor)) as [Sorted Stable].
  split; [exact Sorted | exact (Stable 1%float eq_refl)].
Defined.

(** ** PaginationDriver *)

Lemma fetched_snoc (log : list exchange) (rq : request) (r : result response) :
  fetched (log ++ [ (rq, r) ]) = fetched log ++ page_items r.
Proof.
  unfold fetched. rewrite flat_map_app. cbn [flat_map snd].
  rewrite app_nil_r. reflexivity.
Qed.

Lemma last_result_snoc (log : list exchange) (e : exchange) :
  last_result (log ++ [ e ]) = Some (snd e).
Proof. unfold last_result. rewrite rev_unit. reflexivity. Qed.

Lemma firstn_app_exact {A : Type} (l1 l2 : list A) (n : nat) :
  firstn (List.length l1 + n) (l1 ++ l2) = l1 ++ firstn n l2.
Proof.
  induction l1 as [|x l1 IH]; [reflexivity|].
  cbn [List.length Nat.add app firstn]. rewrite IH. reflexivity.
Qed.

Section PaginationFacts.

Context {World : Type}.
Variable api : request -> World -> result response * World.
Variable fs : string -> list EmissionRecord -> World -> result unit * World.
Variable tenant : string.

Variables start_date end_date sd ed etype method gran : string.
Variable gb : list string.
Variable depth : Z.
Variable max_records : option Z.

Let rq : request := page_request tenant sd ed etype method gran gb depth.

Let loop (fuel : nat) : locals -> M World loop_outcome :=
  pagination_loop World api tenant fuel start_date end_date etype method gran
    gb depth max_records.

Lemma interactions_S (n : nat) (w : World) :
  interactions World api rq (S n) w
  = (let '(r, w1) := api rq w in
     let '(t, w2) := interactions World api rq n w1 in
     ((rq, r) :: t, w2)).
Proof. reflexivity. Qed.

(** Fewer exchanges are the first ones of more exchanges. *)
Lemma interactions_firstn (j k : nat) (w : World) :
  (j <= k)%nat ->
  fst (interactions World api rq j w)
  = firstn j (fst (interactions World api rq k w)).
Proof.
  revert k w. induction j as [|j IH]; intros k w H; [reflexivity|].
  destruct k as [|k]; [lia|].
  rewrite !interactions_S. destruct (api rq w) as [r w1].
  specialize (IH k w1 ltac:(lia)).
  destruct (interactions World api rq j w1) as [t1 w2].
  destruct (interactions World api rq k w1) as [t2 w3].
  cbn [fst firstn] in *. rewrite IH. reflexivity.
Qed.

Lemma interactions_length (k : nat) (w : World) :
  List.length (fst (interactions World api rq k w)) = k.
Proof.
  revert w. induction k as [|k IH]; intros w; [reflexivity|].
  rewrite interactions_S. destruct (api rq w) as [r w1].
  specialize (IH w1). destruct (interactions World api rq k w1) as [t w2].
  cbn [fst List.length] in *. rewrite IH. reflexivity.
Qed.

(** With dates that do not parse, no request is sent. *)
Lemma get_carbon_emissions_bad_dates
    (group_by : option (list string)) filters cd agg lim cids
    (s : state World) :
  (forall d, _parse_and_validate_datetime start_date <> Return d)
  \/ (forall d, _parse_and_validate_datetime end_date <> Return d) ->
  exists e,
    get_carbon_emissions World api tenant start_date end_date etype method
      gran group_by filters cd agg lim cids s = (Raise e, s).
Proof.
  intros H. unfold get_carbon_emissions, bind, lift.
  destruct (_parse_and_validate_datetime start_date) as [d1|e1].
  - destruct (_parse_and_validate_datetime end_date) as [d2|e2].
    + destruct H as [H|H]; [elim (H d1) | elim (H d2)]; reflexivity.
    + eauto.
  - eauto.
Qed.

Hypothesis start_ok : _parse_and_validate_datetime start_date = Return sd.
Hypothesis end_ok : _parse_and_validate_datetime end_date = Return ed.

(** One page: the request is [rq], the exchange is logged. *)
Lemma get_carbon_emissions_page (s : state World) :
  get_carbon_emissions World api tenant start_date end_date etype method gran
    (Some gb) None (Some depth) false (Some 500%Z) None s
  = (fst (api rq (world World s)),
     mk_state World (snd (api rq (world World s)))
       (api_log World s ++ [ (rq, fst (api rq (world World s))) ])).
Proof.
  unfold get_carbon_emissions, bind, lift. rewrite start_ok, end_ok.
  cbn [Z.ltb Z.leb Z.compare Pos.compare Pos.compare_cont].
  unfold try_except, call_api, raise, rq, page_request.
  destruct (api _ (world World s)) as [[d|e] w]; reflexivity.
Qed.

Hypothesis max_ok : limit_ok max_records.

Lemma int_truthy_max : int_truthy max_records = match max_records with Some _ => true | None => false end.
Proof.
  unfold limit_ok in max_ok. destruct max_records as [m|]; [|reflexivity].
  cbn [int_truthy]. destruct (Z.eqb_spec m 0); [lia | reflexivity].
Qed.

(** The loop, started after the exchanges [prefix] none of which made it
    stop, stops within the 1000th page. *)
Lemma pagination_loop_run (fuel : nat) :
  forall (prefix : list exchange) (l : locals) (s : state World),
    all_items l = fetched prefix ->
    page_count l = Z.of_nat (List.length prefix) ->
    total_records l = Z.of_nat (List.length (fetched prefix)) ->
    CombinedResult l = None ->
    limit_reached max_records (List.length (fetched prefix)) = false ->
    (List.length prefix < 1000)%nat ->
    (1000 <= List.length prefix + fuel)%nat ->
    exists k trace w o,
      (1 <= k)%nat /\ (List.length prefix + k <= 1000)%nat
      /\ interactions World api rq k (world World s) = (trace, w)
      /\ loop fuel l s = (Return o, mk_state World w (api_log World s ++ trace))
      /\ must_stop max_records (prefix ++ trace) = true
      /\ (forall j, (List.length prefix < j < List.length prefix + k)%nat ->
            must_stop max_records (firstn j (prefix ++ trace)) = false)
      /\ outcome_ok max_records (prefix ++ trace) o.
Proof.
  induction fuel as [|fuel IH]; intros prefix l s Hitems Hcount Htotal Hcls Hlim Hlen Hfuel;
    [lia|].
  unfold loop. cbn [pagination_loop]. unfold bind at 1, attempt.
  cbn [all_items page_token page_count total_records CombinedResult].
  rewrite get_carbon_emissions_page.
  destruct (api rq (world World s)) as [[data|e] w] eqn:Hapi; cbn [fst snd].
  2:{ (* the call raises *)
    exists 1%nat, [ (rq, Raise e) ], w, (Raised e (mk_locals (all_items l) (page_token l) (page_count l + 1) (total_records l) (CombinedResult l))).
    rewrite interactions_S, Hapi. cbn [interactions].
    split; [lia|]. split; [lia|]. split; [reflexivity|].
    split; [unfold ret; reflexivity|].
    split; [unfold must_stop; rewrite last_result_snoc; reflexivity|].
    split; [intros j Hj; lia|].
    unfold outcome_ok. rewrite last_result_snoc. cbn [snd all_items CombinedResult].
    rewrite fetched_snoc. cbn [page_items]. rewrite app_nil_r. auto. }
  (* the call returns a page *)
  set (full := prefix ++ [ (rq, Return data) ]).
  assert (Hfull : fetched full = fetched prefix ++ items data)
    by (unfold full; rewrite fetched_snoc; reflexivity).
  assert (Hfulllen : List.length full = S (List.length prefix))
    by (unfold full; rewrite length_app; cbn [List.length]; lia).
  assert (Hcheck :
    (if negb (is_empty (items data))
     then int_truthy max_records
          && match max_records with
             | Some m => (m <=? total_records l + Z.of_nat (List.length (items data)))%Z
             | None => false
             end
     else false)
    = limit_reached max_records (List.length (fetched full))).
  { rewrite Hfull, length_app, Htotal, int_truthy_max.
    destruct (items data) as [|i its] eqn:Hitemsdata; cbn [is_empty negb].
    - cbn [List.length]. rewrite Nat.add_0_r. symmetry. exact Hlim.
    - unfold limit_reached. destruct max_records as [m|]; [|reflexivity].
      cbn [andb]. f_equal. lia. }
  destruct (limit_reached max_records (List.length (fetched full))) eqn:Hreached.
  - (* the record limit is reached *)
    assert (Hne : is_empty (items data) = false).
    { destruct (is_empty (items data)); [discriminate | reflexivity]. }
    rewrite Hne in *. cbn [negb] in *.
    cbn [all_items page_token page_count total_records CombinedResult].
    rewrite Hcheck.
    destruct max_records as [m|] eqn:Hmax; [|discriminate].
    eexists 1%nat, [ (rq, Return data) ], w, _.
    rewrite interactions_S, Hapi. cbn [interactions].
    split; [lia|]. split; [lia|]. split; [reflexivity|].
    split; [unfold ret; reflexivity|].
    fold full.
    split.
    { unfold must_stop, full. rewrite last_result_snoc. cbn [snd].
      fold full. rewrite Hreached. reflexivity. }
    split; [intros j Hj; lia|].
    unfold outcome_ok, full. rewrite last_result_snoc. cbn [snd all_items CombinedResult].
    fold full. unfold kept. rewrite Hreached, Hfull, Hitems. auto.
  - (* the record limit is not reached *)
    assert (Hafter :
      (if negb (is_empty (items data))
       then
         if int_truthy max_records
            && match max_records with
               | Some m => (m <=? total_records l + Z.of_nat (List.length (items data)))%Z
               | None => false
               end
         then
           match max_records with
           | Some m =>
               inl (mk_locals (slice_to m (all_items l ++ items data)) (page_token l)
                      (page_count l + 1) (total_records l + Z.of_nat (List.length (items data)))
                      (CombinedResult l))
           | None =>
               inr (mk_locals (all_items l ++ items data) (page_token l)
                      (page_count l + 1) (total_records l + Z.of_nat (List.length (items data)))
                      (CombinedResult l))
           end
         else inr (mk_locals (all_items l ++ items data) (page_token l)
                      (page_count l + 1) (total_records l + Z.of_nat (List.length (items data)))
                      (CombinedResult l))
       else inr (mk_locals (all_items l) (page_token l) (page_count l + 1)
                   (total_records l) (CombinedResult l)))
      = inr (mk_locals (fetched full) (page_token l) (page_count l + 1)
               (Z.of_nat (List.length (fetched full))) None)).
    { rewrite Hfull, length_app, Hcls, Hitems, Htotal.
      destruct (items data) as [|i its] eqn:Hitemsdata; cbn [is_empty negb].
      - rewrite app_nil_r, Nat.add_0_r. reflexivity.
      - cbn [is_empty negb] in Hcheck. rewrite Htotal in Hcheck.
        rewrite Hcheck. f_equal. f_equal. lia. }
    cbn [all_items page_token page_count total_records CombinedResult].
    rewrite Hafter.
    cbn [all_items page_token page_count total_records CombinedResult].
    destruct (token_truthy (opc_next_page data)) eqn:Htok; cbn [negb].
    2:{ (* no continuation token *)
      eexists 1%nat, [ (rq, Return data) ], w, _.
      rewrite interactions_S, Hapi. cbn [interactions].
      split; [lia|]. split; [lia|]. split; [reflexivity|].
      split; [unfold ret; reflexivity|].
      fold full.
      split.
      { unfold must_stop, full. rewrite last_result_snoc. cbn [snd].
        rewrite Htok. cbn [negb]. rewrite orb_true_r. reflexivity. }
      split; [intros j Hj; lia|].
      unfold outcome_ok, full. rewrite last_result_snoc.
      cbn [snd all_items CombinedResult]. fold full.
      unfold kept. rewrite Hreached. destruct max_records; auto. }
    destruct (Z.leb_spec 1000 (page_count l + 1)) as [Hpages|Hpages].
    { (* the page limit *)
      eexists 1%nat, [ (rq, Return data) ], w, _.
      rewrite interactions_S, Hapi. cbn [interactions].
      split; [lia|]. split; [lia|]. split; [reflexivity|].
      split; [unfold ret; reflexivity|].
      fold full.
      split.
      { unfold must_stop, full. rewrite last_result_snoc. cbn [snd].
        fold full. rewrite Hfulllen.
        replace (1000 <=? S (List.length prefix))%nat with true
          by (symmetry; apply Nat.leb_le; lia).
        rewrite orb_true_r. reflexivity. }
      split; [intros j Hj; lia|].
      unfold outcome_ok, full. rewrite last_result_snoc.
      cbn [snd all_items CombinedResult]. fold full.
      unfold kept. rewrite Hreached. destruct max_records; auto. }
    (* the loop goes on *)
    set (l' := mk_locals (fetched full) (opc_next_page data) (page_count l + 1)
                 (Z.of_nat (List.length (fetched full))) None).
    set (s' := mk_state World w (api_log World s ++ [ (rq, Return data) ])).
    destruct (IH full l' s') as (k & trace & w' & o & Hk & Hbound & Hint & Hloop & Hstop & Hgo & Hout);
      try reflexivity.
    + unfold l'. cbn [page_count]. rewrite Hfulllen. lia.
    + exact Hreached.
    + lia.
    + lia.
    + exists (S k), ((rq, Return data) :: trace), w', o.
      split; [lia|]. split; [lia|].
      split.
      { rewrite interactions_S, Hapi. unfold s' in Hint. cbn [world] in Hint.
        rewrite Hint. reflexivity. }
      split.
      { fold (loop fuel). rewrite Hloop. unfold s'. cbn [world api_log].
        rewrite <- app_assoc. reflexivity. }
      replace (prefix ++ (rq, Return data) :: trace) with (full ++ trace)
        by (unfold full; rewrite <- app_assoc; reflexivity).
      split; [exact Hstop|].
      split; [|exact Hout].
      intros j Hj.
      destruct (Nat.eq_dec j (S (List.length prefix))) as [->|Hneq].
      * rewrite <- Hfulllen.
        replace (List.length full) with (List.length full + 0)%nat by lia.
        rewrite firstn_app_exact. cbn [firstn]. rewrite app_nil_r.
        unfold must_stop, full. rewrite last_result_snoc. cbn [snd].
        fold full. rewrite Hreached, Htok, Hfulllen. cbn [negb orb].
        apply Nat.leb_gt. lia.
      * apply Hgo. lia.
Qed.

(** A whole run: the exchanges are the first [k] of the client, [k] is the
    first number of pages after which the driver has to stop, and the
    result is read off those exchanges. *)
Lemma get_full_dataset_paginated_run (fuel : nat) (s : state World) :
  (1000 <= fuel)%nat ->
  exists k trace w,
    (1 <= k <= 1000)%nat
    /\ interactions World api rq k (world World s) = (trace, w)
    /\ must_stop max_records trace = true
    /\ (forall j, (j < k)%nat -> must_stop max_records (firstn j trace) = false)
    /\ get_full_dataset_paginated World api tenant fuel start_date end_date
         etype method gran (Some gb) depth max_records s
       = (run_result max_records trace,
          mk_state World w (api_log World s ++ trace)).
Proof.
  intros Hfuel.
  destruct (pagination_loop_run fuel [] (mk_locals [] None 0 0 None) s)
    as (k & trace & w & o & Hk & Hbound & Hint & Hloop & Hstop & Hgo & Hout);
    try reflexivity.
  - unfold limit_reached, limit_ok in *. destruct max_records as [m|]; [|reflexivity].
    cbn [fetched flat_map List.length]. apply Z.leb_gt. lia.
  - cbn [List.length]. lia.
  - cbn [List.length]. lia.
  - cbn [List.length app] in *.
    exists k, trace, w.
    split; [lia|]. split; [exact Hint|]. split; [exact Hstop|].
    split.
    { intros j Hj. destruct j as [|j]; [reflexivity|]. apply Hgo. lia. }
    unfold get_full_dataset_paginated, bind. unfold loop in Hloop.
    rewrite Hloop. unfold outcome_ok in Hout. unfold run_result.
    destruct o as [why l|e l|l]; destruct (last_result trace) as [[d|e']|];
      try contradiction.
    + destruct Hout as [Hitems Hcls].
      cbn [all_items CombinedResult]. unfold ret. rewrite Hitems. reflexivity.
    + destruct Hout as (-> & Hitems & Hcls).
      rewrite Hitems, Hcls. destruct (is_empty (fetched trace)); reflexivity.
Qed.

End PaginationFacts.

(** *** Termination, whatever the dates, the limit and the client *)

Section PaginationTermination.

Context {World : Type}.
Variable api : request -> World -> result response * World.
Variable tenant : string.

Lemma get_carbon_emissions_log
    (start_date end_date etype method gran : string)
    (group_by : option (list string)) filters cd agg lim cids
    (s : state World) :
  exists r s' t,
    get_carbon_emissions World api tenant start_date end_date etype method
      gran group_by filters cd agg lim cids s = (r, s')
    /\ api_log World s' = api_log World s ++ t
    /\ (List.length t <= 1)%nat.
Proof.
  unfold get_carbon_emissions, bind, lift.
  destruct (_parse_and_validate_datetime start_date) as [d1|e1].
  2:{ exists (Raise e1), s, []. rewrite app_nil_r. cbn. auto. }
  destruct (_parse_and_validate_datetime end_date) as [d2|e2].
  2:{ exists (Raise e2), s, []. rewrite app_nil_r. cbn. auto. }
  unfold try_except, call_api, raise.
  destruct (api _ (world World s)) as [[d|e] w] eqn:E.
  - eexists _, _, [ _ ]. split; [reflexivity|]. cbn. auto.
  - eexists _, _, [ _ ]. split; [reflexivity|]. cbn. auto.
Qed.

Lemma pagination_loop_terminates
    (start_date end_date etype method gran : string) (gb : list string)
    (depth : Z) (max_records : option Z) (fuel : nat) :
  forall (l : locals) (s : state World),
    (0 <= page_count l < 1000)%Z ->
    (1000 <= page_count l + Z.of_nat fuel)%Z ->
    exists o s' t,
      pagination_loop World api tenant fuel start_date end_date etype method
        gran gb depth max_records l s = (Return o, s')
      /\ (forall l', o <> OutOfFuel l')
      /\ api_log World s' = api_log World s ++ t
      /\ (Z.of_nat (List.length t) <= outcome_page_count o - page_count l)%Z
      /\ (outcome_page_count o <= Z.max 1000 (page_count l + 1))%Z.
Proof.
  induction fuel as [|fuel IH]; intros l s Hpos Hfuel.
  - exfalso. lia.
  - cbn [pagination_loop]. unfold bind at 1, attempt.
    destruct (get_carbon_emissions_log start_date end_date etype method gran
                (Some gb) None (Some depth) false (Some 500%Z) None s)
      as (r & s1 & t & Hg & Hlog & Hlen).
    rewrite Hg.
    cbn [all_items page_token page_count total_records CombinedResult].
    destruct r as [data|e].
    2:{ eexists _, s1, t. unfold ret. split; [reflexivity|].
        split; [discriminate|]. split; [exact Hlog|].
        cbn [outcome_page_count page_count]. lia. }
    match goal with
    | |- context [match ?x with inl _ => _ | inr _ => _ end] =>
        destruct x as [l1|l1] eqn:Hafter
    end.
    + assert (Hpc : page_count l1 = (page_count l + 1)%Z).
      { destruct (negb (is_empty (items data))); [|discriminate].
        destruct (int_truthy max_records && _); [|discriminate].
        destruct max_records; [|discriminate].
        injection Hafter as <-. reflexivity. }
      eexists _, s1, t. unfold ret. split; [reflexivity|].
      split; [discriminate|]. split; [exact Hlog|].
      cbn [outcome_page_count]. lia.
    + assert (Hpc : page_count l1 = (page_count l + 1)%Z).
      { destruct (negb (is_empty (items data))).
        - destruct (int_truthy max_records && _).
          + destruct max_records; [discriminate|].
            injection Hafter as <-. reflexivity.
          + injection Hafter as <-. reflexivity.
        - injection Hafter as <-. reflexivity. }
      cbn [all_items page_token page_count total_records CombinedResult].
      destruct (negb (token_truthy (opc_next_page data))).
      { eexists _, s1, t. unfold ret. split; [reflexivity|].
        split; [discriminate|]. split; [exact Hlog|].
        cbn [outcome_page_count page_count]. lia. }
      destruct (Z.leb_spec 1000 (page_count l1)) as [Hp|Hp].
      { eexists _, s1, t. unfold ret. split; [reflexivity|].
        split; [discriminate|]. split; [exact Hlog|].
        cbn [outcome_page_count page_count]. lia. }
      destruct (IH (mk_locals (all_items l1) (opc_next_page data)
                      (page_count l1) (total_records l1) (CombinedResult l1)) s1)
        as (o & s2 & t2 & Hloop & Hout & Hlog2 & Hcount & Hmaxp).
      * cbn [page_count]. lia.
      * cbn [page_count]. lia.
      * exists o, s2, (t ++ t2). split; [exact Hloop|].
        split; [exact Hout|].
        split; [rewrite Hlog2, Hlog, app_assoc; reflexivity|].
        cbn [page_count] in *. rewrite length_app. lia.
Qed.

Lemma get_full_dataset_paginated_terminates
    (start_date end_date etype method gran : string)
    (group_by : option (list string)) (depth : Z) (max_records : option Z)
    (fuel : nat) (s : state World) :
  (1000 <= fuel)%nat ->
  exists r s' t,
    get_full_dataset_paginated World api tenant fuel start_date end_date
      etype method gran group_by depth max_records s = (r, s')
    /\ r <> Return None
    /\ api_log World s' = api_log World s ++ t
    /\ (List.length t <= 1000)%nat.
Proof.
  intros Hfuel. unfold get_full_dataset_paginated, bind.
  destruct (pagination_loop_terminates start_date end_date etype method gran
              (match group_by with None => default_full_group_by | Some g => g end)
              depth max_records fuel (mk_locals [] None 0 0 None) s)
    as (o & s' & t & Hloop & Hout & Hlog & Hcount & Hmaxp);
    [cbn; lia | cbn [page_count]; lia |].
  rewrite Hloop. cbn [page_count] in *.
  assert (Hlen : (List.length t <= 1000)%nat) by lia.
  destruct o as [why l|e l|l].
  - eexists _, s', t. cbn [CombinedResult]. unfold ret.
    split; [reflexivity|]. split; [discriminate|]. auto.
  - destruct (negb (is_empty (all_items l))).
    + destruct (CombinedResult l).
      * eexists _, s', t. unfold ret. split; [reflexivity|].
        split; [discriminate|]. auto.
      * eexists _, s', t. unfold raise. split; [reflexivity|].
        split; [discriminate|]. auto.
    + eexists _, s', t. unfold raise. split; [reflexivity|].
      split; [discriminate|]. auto.
  - elim (Hout l). reflexivity.
Qed.

End PaginationTermination.

(** *** The claims on the pagination driver *)

Lemma last_result_inv (log : list exchange) (r : result response) :
  last_result log = Some r ->
  exists init rq, log = init ++ [ (rq, r) ].
Proof.
  unfold last_result. destruct (rev log) as [|[rq r'] t] eqn:E; [discriminate|].
  cbn [snd]. intros H. injection H as <-. exists (rev t), rq.
  rewrite <- (rev_involutive log), E. reflexivity.
Qed.

(** A call that raises after pages that let the driver go on comes before
    the record limit is reached. *)
Lemma raise_before_limit (max_records : option Z) (trace : list exchange)
    (e : exn) :
  limit_ok max_records ->
  (forall j, (j < List.length trace)%nat ->
     must_stop max_records (firstn j trace) = false) ->
  last_result trace = Some (Raise e) ->
  limit_reached max_records (List.length (fetched trace)) = false.
Proof.
  intros Hok Hgo Hlast.
  destruct (last_result_inv trace _ Hlast) as (init & rq & ->).
  rewrite fetched_snoc. cbn [page_items]. rewrite app_nil_r.
  specialize (Hgo (List.length init)).
  rewrite length_app in Hgo. cbn [List.length] in Hgo.
  specialize (Hgo ltac:(lia)).
  replace (List.length init) with (List.length init + 0)%nat in Hgo at 1 by lia.
  rewrite firstn_app_exact in Hgo. cbn [firstn] in Hgo. rewrite app_nil_r in Hgo.
  unfold must_stop in Hgo.
  destruct (last_result init) as [[d|e']|] eqn:E; try discriminate.
  - apply orb_false_iff in Hgo. destruct Hgo as [Hgo _].
    apply orb_false_iff in Hgo. tauto.
  - unfold last_result, exchange in E.
    destruct (rev init) eqn:R; [|discriminate E].
    apply (f_equal (@rev _)) in R. rewrite rev_involutive in R. subst init.
    unfold limit_reached, limit_ok in *. destruct max_records as [m|]; [|reflexivity].
    cbn. apply Z.leb_gt. lia.
Qed.

(** C5.  With 1000 iterations of fuel or more [get_full_dataset_paginated]
    always finishes, with a result or an exception, after at most 1000
    requests, whatever the client answers.  When the dates parse and the
    limit is absent or positive, the exchanges are the first [k] of the
    client with [1 <= k <= 1000], where [k] is the first number of pages
    after which the driver has to stop (the call raised, the records reach
    the limit, the page has no token, or it is the 1000th page); and when
    the records reach the limit [m] the dataset returned has exactly the
    first [m] records. *)
Theorem pagination_stops_within_1000_pages
    (World : Type) (api : request -> World -> result response * World)
    (tenant start_date end_date etype method gran : string)
    (group_by : option (list string)) (depth : Z) (max_records : option Z)
    (fuel : nat) (s : state World) :
  (1000 <= fuel)%nat ->
  (exists r s' t,
      get_full_dataset_paginated World api tenant fuel start_date end_date
        etype method gran group_by depth max_records s = (r, s')
      /\ r <> Return None
      /\ api_log World s' = api_log World s ++ t
      /\ (List.length t <= 1000)%nat)
  /\ (forall sd ed,
        _parse_and_validate_datetime start_date = Return sd ->
        _parse_and_validate_datetime end_date = Return ed ->
        limit_ok max_records ->
        exists k trace w,
          (1 <= k <= 1000)%nat
          /\ interactions World api
               (page_request tenant sd ed etype method gran
                  (match group_by with
                   | None => default_full_group_by
                   | Some g => g
                   end) depth)
               k (world World s) = (trace, w)
          /\ must_stop max_records trace = true
          /\ (forall j, (j < k)%nat ->
                must_stop max_records (firstn j trace) = false)
          /\ get_full_dataset_paginated World api tenant fuel start_date
               end_date etype method gran group_by depth max_records s
             = (run_result max_records trace,
                mk_state World w (api_log World s ++ trace))
          /\ (forall m,
                max_records = Some m ->
                limit_reached max_records (List.length (fetched trace)) = true ->
                run_result max_records trace
                = Return (Some (combined_result
                                  (firstn (Z.to_nat m) (fetched trace))))
                /\ List.length (firstn (Z.to_nat m) (fetched trace))
                   = Z.to_nat m)).
Proof.
  intros Hfuel. split.
  - apply get_full_dataset_paginated_terminates. exact Hfuel.
  - intros sd ed Hs He Hok.
    destruct (get_full_dataset_paginated_run api tenant start_date end_date
                sd ed etype method gran
                (match group_by with None => default_full_group_by | Some g => g end)
                depth max_records Hs He Hok fuel s Hfuel)
      as (k & trace & w & Hk & Hint & Hstop & Hgo & Hrun).
    exists k, trace, w.
    split; [exact Hk|]. split; [exact Hint|]. split; [exact Hstop|].
    split; [exact Hgo|].
    split; [destruct group_by; exact Hrun|].
    intros m -> Hreached.
    pose proof (interactions_length api tenant sd ed etype method gran
                  (match group_by with None => default_full_group_by | Some g => g end)
                  depth k (world World s)) as Hlen.
    rewrite Hint in Hlen. cbn [fst] in Hlen.
    unfold run_result.
    destruct (last_result trace) as [[d|e]|] eqn:Hlast.
    + unfold kept. rewrite Hreached. unfold slice_to.
      cbn [limit_reached limit_ok] in *.
      destruct (Z.leb_spec 0 m); [|lia].
      split; [reflexivity|].
      rewrite length_firstn. apply Z.leb_le in Hreached. lia.
    + rewrite (raise_before_limit (Some m) trace e Hok) in Hreached;
        [discriminate | rewrite <- Hlen in Hgo; exact Hgo | exact Hlast].
    + unfold must_stop in Hstop. rewrite Hlast in Hstop. discriminate.
Qed.

Lemma pagination_stops_within_1000_pages_witness :
  exists k trace w,
    (1 <= k <= 1000)%nat
    /\ interactions Stub.world Stub.serve
         (page_request "tenancy" "2024-01-01T00:00:00Z" "2024-02-01T00:00:00Z"
            "LOCATION_BASED" "POWER_BASED" "DAILY" default_full_group_by 7)
         k
         [ Return (Stub.page 2 "a" true); Return (Stub.page 2 "b" true);
           Return (Stub.page 1 "c" false) ]
       = (trace, w)
    /\ must_stop (Some 3%Z) trace = true.
Proof.
  destruct (proj2 (pagination_stops_within_1000_pages Stub.world Stub.serve
                     "tenancy" "2024-01-15" "2024-02-01" "LOCATION_BASED"
                     "POWER_BASED" "DAILY" None 7 (Some 3%Z) 1000
                     (Stub.start
                        [ Return (Stub.page 2 "a" true);
                          Return (Stub.page 2 "b" true);
                          Return (Stub.page 1 "c" false) ])
                     (le_n 1000))
              "2024-01-01T00:00:00Z" "2024-02-01T00:00:00Z"
              eq_refl eq_refl eq_refl)
    as (k & trace & w & Hk & Hint & Hstop & _).
  exists k, trace, w. auto.
Defined.

(** C1.  The client of this run serves two pages of 500 records, each with
    a continuation token, and raises on the third call: the driver does not
    return the 1000 records, it raises [UnboundLocalError], because the
    handler names the local class [CombinedResult] that only the statement
    after the loop binds.  When the first call raises, that error reaches
    the caller. *)
Theorem fetch_error_after_pages_raises_unbound_local :
  fst (get_full_dataset_paginated Stub.world Stub.serve "tenancy" 1000
         "2024-01-01" "2024-02-01" "LOCATION_BASED" "POWER_BASED" "DAILY"
         None 7 None
         (Stub.start
            [ Return (Stub.page 500 "a" true); Return (Stub.page 500 "b" true);
              Raise (ServiceError "boom") ]))
  = Raise (UnboundLocalError "CombinedResult")
  /\ fst (get_full_dataset_paginated Stub.world Stub.serve "tenancy" 1000
            "2024-01-01" "2024-02-01" "LOCATION_BASED" "POWER_BASED" "DAILY"
            None 7 None
            (Stub.start [ Raise (ServiceError "boom") ]))
     = Raise (ServiceError "boom").
Proof. split; vm_compute; reflexivity. Qed.

(** *** Pages served in sequence *)

Lemma fetched_returns (rq : request) (pages : list response) :
  fetched (map (fun p => (rq, Return p)) pages) = List.concat (map items pages).
Proof.
  induction pages as [|p pages IH]; [reflexivity|].
  cbn [map fetched flat_map List.concat snd page_items].
  fold (fetched (map (fun p => (rq, Return p)) pages)). rewrite IH. reflexivity.
Qed.

Lemma must_stop_returns_snoc (max_records : option Z) (rq : request)
    (ps : list response) (p : response) :
  must_stop max_records (map (fun p => (rq, Return p)) (ps ++ [ p ]))
  = limit_reached max_records
      (List.length (List.concat (map items (ps ++ [ p ]))))
    || negb (token_truthy (opc_next_page p))
    || (1000 <=? List.length (ps ++ [ p ]))%nat.
Proof.
  unfold must_stop. rewrite fetched_returns, length_map.
  rewrite map_app. cbn [map]. rewrite last_result_snoc. reflexivity.
Qed.

Lemma run_result_returns_snoc (max_records : option Z) (rq : request)
    (ps : list response) (p : response) :
  run_result max_records (map (fun p => (rq, Return p)) (ps ++ [ p ]))
  = Return (Some (combined_result
                    (kept max_records (List.concat (map items (ps ++ [ p ])))))).
Proof.
  unfold run_result. rewrite fetched_returns.
  rewrite map_app. cbn [map]. rewrite last_result_snoc. reflexivity.
Qed.

Lemma kept_firstn (max_records : option Z) (its : list EmissionRecord) :
  limit_ok max_records ->
  kept max_records its
  = match max_records with
    | Some m => firstn (Z.to_nat m) its
    | None => its
    end.
Proof.
  unfold kept, limit_ok, limit_reached, slice_to.
  destruct max_records as [m|]; [|reflexivity]. intros Hm.
  destruct (Z.leb_spec 0 m); [|lia].
  destruct (Z.leb_spec m (Z.of_nat (List.length its))); [reflexivity|].
  symmetry. apply firstn_short. lia.
Qed.

Lemma firstn_prefix_enough {A : Type} (n : nat) (l1 l2 : list A) :
  (n <= List.length l1)%nat -> firstn n (l1 ++ l2) = firstn n l1.
Proof.
  intros H. rewrite firstn_app.
  replace (n - List.length l1)%nat with 0%nat by lia.
  cbn [firstn]. apply app_nil_r.
Qed.

(** X23.  Let the client serve the pages [init ++ [final]] one after the
    other: every page of [init] carries a continuation token, and [final]
    carries none or is the 1000th page.  Then the dataset holds the records
    of the pages in page order, all of them without a limit and the first
    [m] of them with the limit [m].  For pages of 500, 500 and 200 records
    these are the 1200 records in order, and the first 1000 of them with a
    limit of 1000. *)
Theorem pagination_accumulates_pages_in_order :
  (forall (World : Type) (api : request -> World -> result response * World)
          (tenant start_date end_date sd ed etype method gran : string)
          (group_by : option (list string)) (depth : Z)
          (max_records : option Z) (fuel : nat) (s : state World)
          (init : list response) (final : response) (w' : World),
      _parse_and_validate_datetime start_date = Return sd ->
      _parse_and_validate_datetime end_date = Return ed ->
      limit_ok max_records ->
      (1000 <= fuel)%nat ->
      interactions World api
        (page_request tenant sd ed etype method gran
           (match group_by with
            | None => default_full_group_by
            | Some g => g
            end) depth)
        (List.length (init ++ [ final ])) (world World s)
      = (map (fun p =>
                (page_request tenant sd ed etype method gran
                   (match group_by with
                    | None => default_full_group_by
                    | Some g => g
                    end) depth,
                 Return p))
             (init ++ [ final ]), w') ->
      Forall (fun p => token_truthy (opc_next_page p) = true) init ->
      token_truthy (opc_next_page final) = false
      \/ List.length (init ++ [ final ]) = 1000%nat ->
      (List.length (init ++ [ final ]) <= 1000)%nat ->
      fst (get_full_dataset_paginated World api tenant fuel start_date
             end_date etype method gran group_by depth max_records s)
      = Return
          (Some
             (combined_result
                match max_records with
                | Some m =>
                    firstn (Z.to_nat m) (List.concat (map items (init ++ [ final ])))
                | None => List.concat (map items (init ++ [ final ]))
                end)))
  /\ (forall (p1 p2 p3 : list EmissionRecord) (t1 t2 : string),
         List.length p1 = 500%nat -> List.length p2 = 500%nat ->
         List.length p3 = 200%nat ->
         token_truthy (Some t1) = true -> token_truthy (Some t2) = true ->
         let run max_records :=
           fst (get_full_dataset_paginated Stub.world Stub.serve "tenancy"
                  1000 "2024-01-01" "2024-02-01" "LOCATION_BASED"
                  "POWER_BASED" "DAILY" None 7 max_records
                  (Stub.start
                     [ Return (mk_response p1 None (Some t1));
                       Return (mk_response p2 None (Some t2));
                       Return (mk_response p3 None None) ])) in
         run None = Return (Some (combined_result (p1 ++ p2 ++ p3)))
         /\ List.length (p1 ++ p2 ++ p3) = 1200%nat
         /\ run (Some 1000%Z)
            = Return (Some (combined_result (firstn 1000 (p1 ++ p2 ++ p3))))
         /\ List.length (firstn 1000 (p1 ++ p2 ++ p3)) = 1000%nat).
Proof.
  assert (General :
    forall (World : Type) (api : request -> World -> result response * World)
          (tenant start_date end_date sd ed etype method gran : string)
          (group_by : option (list string)) (depth : Z)
          (max_records : option Z) (fuel : nat) (s : state World)
          (init : list response) (final : response) (w' : World),
      _parse_and_validate_datetime start_date = Return sd ->
      _parse_and_validate_datetime end_date = Return ed ->
      limit_ok max_records ->
      (1000 <= fuel)%nat ->
      interactions World api
        (page_request tenant sd ed etype method gran
           (match group_by with
            | None => default_full_group_by
            | Some g => g
            end) depth)
        (List.length (init ++ [ final ])) (world World s)
      = (map (fun p =>
                (page_request tenant sd ed etype method gran
                   (match group_by with
                    | None => default_full_group_by
                    | Some g => g
                    end) depth,
                 Return p))
             (init ++ [ final ]), w') ->
      Forall (fun p => token_truthy (opc_next_page p) = true) init ->
      token_truthy (opc_next_page final) = false
      \/ List.length (init ++ [ final ]) = 1000%nat ->
      (List.length (init ++ [ final ]) <= 1000)%nat ->
      fst (get_full_dataset_paginated World api tenant fuel start_date
             end_date etype method gran group_by depth max_records s)
      = Return
          (Some
             (combined_result
                match max_records with
                | Some m =>
                    firstn (Z.to_nat m) (List.concat (map items (init ++ [ final ])))
                | None => List.concat (map items (init ++ [ final ]))
                end))).
  { intros World api tenant start_date end_date sd ed etype method gran
           group_by depth max_records fuel s init final w'
           Hs He Hok Hfuel Hserve Htokens Hfinal Hcount.
    set (gb := match group_by with None => default_full_group_by | Some g => g end) in *.
    set (rq := page_request tenant sd ed etype method gran gb depth) in *.
    set (pages := init ++ [ final ]) in *.
    destruct (get_full_dataset_paginated_run api tenant start_date end_date
                sd ed etype method gran gb depth max_records Hs He Hok fuel s
                Hfuel)
      as (k & trace & w & Hk & Hint & Hstop & Hgo & Hrun).
    fold rq in Hint.
    assert (Hsame : get_full_dataset_paginated World api tenant fuel start_date
             end_date etype method gran group_by depth max_records s
             = get_full_dataset_paginated World api tenant fuel start_date
             end_date etype method gran (Some gb) depth max_records s)
      by (unfold gb; destruct group_by; reflexivity).
    rewrite Hsame, Hrun. cbn [fst]. clear Hsame Hrun.
    assert (Hall : must_stop max_records (map (fun p => (rq, Return p)) pages) = true).
    { unfold pages. rewrite must_stop_returns_snoc.
      destruct Hfinal as [Hf|Hf].
      - rewrite Hf. cbn [negb]. rewrite orb_true_r. reflexivity.
      - fold pages. rewrite Hf. cbn. apply orb_true_r. }
    assert (Hpre : forall j, (j <= k)%nat -> (j <= List.length pages)%nat ->
              firstn j trace = map (fun p => (rq, Return p)) (firstn j pages)).
    { intros j Hjk Hjn.
      pose proof (interactions_firstn api tenant sd ed etype method gran gb depth
                    j k (world World s) Hjk) as E1.
      pose proof (interactions_firstn api tenant sd ed etype method gran gb depth
                    j (List.length pages) (world World s) Hjn) as E2.
      fold rq in E1, E2. rewrite Hint in E1. rewrite Hserve in E2.
      cbn [fst] in E1, E2. rewrite <- E1, E2. apply firstn_map. }
    assert (Htrace_len : List.length trace = k).
    { pose proof (interactions_length api tenant sd ed etype method gran gb depth
                    k (world World s)) as E.
      fold rq in E. rewrite Hint in E. exact E. }
    destruct (Nat.lt_ge_cases (List.length pages) k) as [Hlt|Hge].
    - (* the driver cannot go past the last page *)
      specialize (Hgo (List.length pages) Hlt).
      rewrite (Hpre (List.length pages)) in Hgo by lia.
      rewrite firstn_all in Hgo. congruence.
    - assert (Htr : trace = map (fun p => (rq, Return p)) (firstn k pages)).
      { rewrite <- (Hpre k) by lia. rewrite <- Htrace_len. symmetry. apply firstn_all. }
      destruct (Nat.eq_dec k (List.length pages)) as [Hkn|Hkn].
      + (* it stops at the last page *)
        rewrite Hkn, firstn_all in Htr. subst trace.
        unfold pages. rewrite run_result_returns_snoc, kept_firstn by exact Hok.
        reflexivity.
      + (* it stops before: the limit was reached *)
        assert (Hk_init : (k <= List.length init)%nat).
        { unfold pages in Hge, Hkn. rewrite length_app in Hge, Hkn.
          cbn [List.length] in Hge, Hkn. lia. }
        assert (Hfk : firstn k pages = firstn k init)
          by (unfold pages; apply firstn_prefix_enough; exact Hk_init).
        assert (Hne : firstn k init <> []).
        { intros C. apply (f_equal (@List.length _)) in C.
          rewrite length_firstn in C. cbn in C. lia. }
        destruct (exists_last Hne) as (ps & p & Hlast).
        assert (Hp : token_truthy (opc_next_page p) = true).
        { pose proof (Forall_firstn _ k init Htokens) as F.
          rewrite Hlast in F. apply Forall_app in F. destruct F as [_ F].
          inversion F; assumption. }
        assert (Hklen : List.length (ps ++ [ p ]) = k).
        { rewrite <- Hlast, length_firstn. lia. }
        rewrite Hfk, Hlast in Htr. subst trace.
        rewrite must_stop_returns_snoc, Hp, Hklen in Hstop. cbn [negb] in Hstop.
        rewrite orb_false_r in Hstop.
        assert (Hk1000 : (1000 <=? k)%nat = false).
        { apply Nat.leb_gt. unfold pages in Hcount. rewrite length_app in Hcount.
          cbn [List.length] in Hcount. lia. }
        rewrite Hk1000, orb_false_r in Hstop.
        rewrite run_result_returns_snoc, kept_firstn by exact Hok.
        unfold limit_reached in Hstop.
        destruct max_records as [m|]; [|discriminate].
        apply Z.leb_le in Hstop.
        do 3 f_equal.
        fold pages. rewrite <- (firstn_skipn k pages).
        rewrite Hfk, Hlast, (map_app items (ps ++ [ p ])), List.concat_app.
        symmetry. apply firstn_prefix_enough. lia. }
  split; [exact General|].
  intros p1 p2 p3 t1 t2 L1 L2 L3 T1 T2 run.
  assert (Hrun : forall max_records, limit_ok max_records ->
            run max_records
            = Return (Some (combined_result
                match max_records with
                | Some m => firstn (Z.to_nat m) (p1 ++ p2 ++ p3)
                | None => p1 ++ p2 ++ p3
                end))).
  { intros max_records Hok. unfold run.
    rewrite (General Stub.world Stub.serve "tenancy" "2024-01-01" "2024-02-01"
               "2024-01-01T00:00:00Z" "2024-02-01T00:00:00Z" "LOCATION_BASED"
               "POWER_BASED" "DAILY" None 7%Z max_records 1000%nat
               (Stub.start
                  [ Return (mk_response p1 None (Some t1));
                    Return (mk_response p2 None (Some t2));
                    Return (mk_response p3 None None) ])
               [ mk_response p1 None (Some t1); mk_response p2 None (Some t2) ]
               (mk_response p3 None None) []); try reflexivity.
    - cbn [app map List.concat items]. rewrite app_nil_r. reflexivity.
    - exact Hok.
    - repeat constructor; assumption.
    - left. reflexivity.
    - cbn. lia. }
  split; [apply (Hrun None); exact I|].
  split; [rewrite !length_app; lia|].
  split; [apply (Hrun (Some 1000%Z)); reflexivity|].
  rewrite length_firstn, !length_app. lia.
Qed.

Lemma pagination_accumulates_pages_in_order_witness :
  fst (get_full_dataset_paginated Stub.world Stub.serve "tenancy" 1000
         "2024-01-01" "2024-02-01" "LOCATION_BASED" "POWER_BASED" "DAILY"
         None 7 (Some 1000%Z)
         (Stub.start
            [ Return (Stub.page 500 "a" true); Return (Stub.page 500 "b" true);
              Return (Stub.page 200 "c" false) ]))
  = Return (Some (combined_result
      (firstn 1000
         (items (Stub.page 500 "a" true) ++ items (Stub.page 500 "b" true)
          ++ items (Stub.page 200 "c" false))))).
Proof.
  apply (proj2 pagination_accumulates_pages_in_order
           (items (Stub.page 500 "a" true)) (items (Stub.page 500 "b" true))
           (items (Stub.page 200 "c" false)) "token" "token");
    reflexivity.
Defined.

Lemma must_stop_page_with_token (log : list exchange) :
  log <> [] -> (List.length log < 1000)%nat ->
  forallb page_with_token log = true ->
  must_stop None log = false.
Proof.
  intros Hne Hlen Hall.
  destruct (exists_last Hne) as (init & [rq r] & ->).
  rewrite forallb_app in Hall. apply andb_true_iff in Hall.
  destruct Hall as [_ Hlast]. cbn [forallb] in Hlast.
  rewrite andb_true_r in Hlast. unfold page_with_token in Hlast.
  cbn [snd] in Hlast.
  unfold must_stop. rewrite last_result_snoc. cbn [snd limit_reached orb].
  destruct r as [d|e]; [|discriminate].
  rewrite Hlast. cbn [negb orb]. apply Nat.leb_gt. exact Hlen.
Qed.

Lemma forallb_firstn {A : Type} (f : A -> bool) (n : nat) (l : list A) :
  forallb f l = true -> forallb f (firstn n l) = true.
Proof.
  revert n. induction l as [|x l IH]; intros [|n] H; try reflexivity.
  cbn [forallb firstn] in *. apply andb_true_iff in H. destruct H as [Hx Hl].
  rewrite Hx, (IH n Hl). reflexivity.
Qed.

(** The run against a client whose first 1000 answers all carry a
    continuation token. *)
Lemma page_ceiling_run
    (World : Type) (api : request -> World -> result response * World)
    (tenant start_date end_date sd ed etype method gran : string)
    (group_by : option (list string)) (depth : Z) (fuel : nat)
    (s : state World) (trace : list exchange) (w : World) :
  _parse_and_validate_datetime start_date = Return sd ->
  _parse_and_validate_datetime end_date = Return ed ->
  (1000 <= fuel)%nat ->
  interactions World api
    (page_request tenant sd ed etype method gran
       (match group_by with
        | None => default_full_group_by
        | Some g => g
        end) depth)
    1000 (world World s) = (trace, w) ->
  forallb page_with_token trace = true ->
  List.length trace = 1000%nat
  /\ get_full_dataset_paginated World api tenant fuel start_date end_date
       etype method gran group_by depth None s
     = (Return (Some (combined_result (fetched trace))),
        mk_state World w (api_log World s ++ trace)).
Proof.
  intros Hs He Hfuel Hint Hall.
  set (gb := match group_by with None => default_full_group_by | Some g => g end) in *.
  assert (Hlen : List.length trace = 1000%nat).
  { pose proof (interactions_length api tenant sd ed etype method gran gb depth
                  1000 (world World s)) as E.
    rewrite Hint in E. exact E. }
  split; [exact Hlen|].
  destruct (get_full_dataset_paginated_run api tenant start_date end_date
              sd ed etype method gran gb depth None Hs He I fuel s Hfuel)
    as (k & tr & w' & Hk & Hintk & Hstop & Hgo & Hrun).
  assert (Hsame : get_full_dataset_paginated World api tenant fuel start_date
             end_date etype method gran group_by depth None s
           = get_full_dataset_paginated World api tenant fuel start_date
               end_date etype method gran (Some gb) depth None s)
    by (unfold gb; destruct group_by; reflexivity).
  rewrite Hsame, Hrun. clear Hsame Hrun.
  assert (Htr : tr = firstn k trace).
  { pose proof (interactions_firstn api tenant sd ed etype method gran gb depth
                  k 1000 (world World s) ltac:(lia)) as E.
    rewrite Hintk, Hint in E. exact E. }
  assert (Hk1000 : k = 1000%nat).
  { destruct (Nat.eq_dec k 1000) as [E|NE]; [exact E|]. exfalso.
    assert (Hlenk : List.length tr = k).
    { rewrite Htr, length_firstn. lia. }
    rewrite must_stop_page_with_token in Hstop; [discriminate| | |].
    - intros C. rewrite C in Hlenk. cbn in Hlenk. lia.
    - unfold exchange in *. lia.
    - rewrite Htr. apply forallb_firstn. exact Hall. }
  subst k. rewrite Hint in Hintk. injection Hintk as <- <-.
  f_equal. unfold run_result, kept.
  destruct (last_result trace) as [[d|e]|] eqn:Hlast.
  - reflexivity.
  - exfalso. destruct (last_result_inv trace _ Hlast) as (init & rq & E).
    rewrite E, forallb_app in Hall. apply andb_true_iff in Hall.
    destruct Hall as [_ Hall]. discriminate Hall.
  - unfold must_stop in Hstop. rewrite Hlast in Hstop. discriminate.
Qed.

(** A client that answers the request in the same way every time. *)
Lemma interactions_same_answer
    (World : Type) (api : request -> World -> result response * World)
    (rq : request) (page : response) :
  (forall w, api rq w = (Return page, w)) ->
  forall n w,
    interactions World api rq n w = (repeat (rq, Return page) n, w).
Proof.
  intros H n. induction n as [|n IH]; intros w; [reflexivity|].
  cbn [interactions repeat]. rewrite H, IH. reflexivity.
Qed.

Lemma fetched_repeat (rq : request) (page : response) (n : nat) :
  fetched (repeat (rq, Return page) n) = List.concat (repeat (items page) n).
Proof.
  induction n as [|n IH]; [reflexivity|].
  cbn [repeat List.concat]. rewrite <- IH. reflexivity.
Qed.

Lemma page_with_token_repeat (rq : request) (page : response) (n : nat) :
  token_truthy (opc_next_page page) = true ->
  forallb page_with_token (repeat (rq, Return page) n) = true.
Proof.
  intros H. induction n as [|n IH]; [reflexivity|].
  cbn [repeat forallb]. rewrite IH. unfold page_with_token. cbn [snd].
  rewrite H. reflexivity.
Qed.

(** C2 fails on the code.  The driver reads the continuation token of a
    page only to decide whether to go on: the request of every page is the
    same [page_request], which has no place for a token.  So a client that
    answers by the request it receives, with a first page that announces a
    next one, is asked the same question 1000 times: the run ends at the
    page ceiling and the dataset is 1000 copies of the first page, not the
    pages that follow it. *)
Theorem continuation_token_is_not_followed
    (World : Type) (api : request -> World -> result response * World)
    (tenant start_date end_date sd ed etype method gran : string)
    (group_by : option (list string)) (depth : Z) (fuel : nat)
    (s : state World) (page : response) :
  _parse_and_validate_datetime start_date = Return sd ->
  _parse_and_validate_datetime end_date = Return ed ->
  (1000 <= fuel)%nat ->
  (forall w,
      api (page_request tenant sd ed etype method gran
             (match group_by with
              | None => default_full_group_by
              | Some g => g
              end) depth) w
      = (Return page, w)) ->
  token_truthy (opc_next_page page) = true ->
  get_full_dataset_paginated World api tenant fuel start_date end_date etype
    method gran group_by depth None s
  = (Return (Some (combined_result (List.concat (repeat (items page) 1000)))),
     mk_state World (world World s)
       (api_log World s
        ++ repeat
             (page_request tenant sd ed etype method gran
                (match group_by with
                 | None => default_full_group_by
                 | Some g => g
                 end) depth,
              Return page)
             1000)).
Proof.
  intros Hs He Hfuel Hsame Htoken.
  set (rq := page_request tenant sd ed etype method gran
               (match group_by with
                | None => default_full_group_by
                | Some g => g
                end) depth) in *.
  pose proof (interactions_same_answer World api rq page Hsame 1000
                (world World s)) as Hint.
  destruct (page_ceiling_run World api tenant start_date end_date sd ed etype
              method gran group_by depth fuel s _ _ Hs He Hfuel Hint
              (page_with_token_repeat rq page 1000 Htoken)) as [_ Hrun].
  rewrite Hrun, fetched_repeat. reflexivity.
Qed.

Lemma continuation_token_is_not_followed_witness :
  get_full_dataset_paginated unit
    (Stub.stateless (fun _ => Return (Stub.page 500 "compute" true)))
    "tenancy" 1000 "2024-01-01" "2024-02-01" "LOCATION_BASED" "POWER_BASED"
    "DAILY" None 7 None (mk_state unit tt [])
  = (Return
       (Some
          (combined_result
             (List.concat
                (repeat (items (Stub.page 500 "compute" true)) 1000)))),
     mk_state unit tt
       (repeat
          (page_request "tenancy" "2024-01-01T00:00:00Z"
             "2024-02-01T00:00:00Z" "LOCATION_BASED" "POWER_BASED" "DAILY"
             default_full_group_by 7,
           Return (Stub.page 500 "compute" true))
          1000)).
Proof.
  apply (continuation_token_is_not_followed unit
           (Stub.stateless (fun _ => Return (Stub.page 500 "compute" true)))
           "tenancy" "2024-01-01" "2024-02-01" "2024-01-01T00:00:00Z"
           "2024-02-01T00:00:00Z" "LOCATION_BASED" "POWER_BASED" "DAILY"
           None 7 1000 (mk_state unit tt [])
           (Stub.page 500 "compute" true));
    first [reflexivity | lia | intros []; reflexivity].
Defined.

(** ** FallbackStrategy and MultiQueryAggregator *)

(** Writing a file sends no request. *)
Lemma save_query_result_log {World : Type}
    (fs : string -> list EmissionRecord -> World -> result unit * World)
    (output : option string) (suffix : string) (d : response)
    (s : state World) :
  api_log World (snd (save_query_result World fs output suffix d s))
  = api_log World s.
Proof.
  unfold save_query_result. destruct output as [[|c rest]|]; try reflexivity.
  unfold save_to_csv. destruct (is_empty (items d)); [reflexivity|].
  unfold try_except, call_write_csv, raise.
  destruct (fs _ (items d) (world World s)) as [[u|e] w]; reflexivity.
Qed.

Section MultiQueryFacts.

Context {World : Type}.
Variable api : request -> World -> result response * World.
Variable fs : string -> list EmissionRecord -> World -> result unit * World.
Variable tenant : string.
Variables start_date end_date gran : string.
Variable output : option string.

Let body := combination_body World api fs tenant start_date end_date gran output.
Let step := combination_step World api fs tenant start_date end_date gran output.
Let loop := combinations_loop World api fs tenant start_date end_date gran output.
Let given := contribution World api fs tenant start_date end_date gran output.
Let after := after_combination World api fs tenant start_date end_date gran output.

(** The records already collected do not steer a combination: they are
    only extended. *)
Lemma combination_body_all_data (gb : list string) (suffix : string)
    (all_data : list EmissionRecord) (s : state World) :
  body gb suffix all_data s
  = match body gb suffix [] s with
    | (Return d, s') => (Return (all_data ++ d), s')
    | (Raise e, s') => (Raise e, s')
    end.
Proof.
  unfold body, combination_body, bind.
  destruct (try_power_based World api tenant start_date end_date gran gb s)
    as [[data|e] s1]; [|reflexivity].
  destruct (try_spend_based World api tenant start_date end_date gran gb data s1)
    as [[data'|e] s2]; [|reflexivity].
  destruct data' as [d|]; [|reflexivity].
  destruct (negb (is_empty (items d))).
  - destruct (save_query_result World fs output suffix d s2) as [[u|e] s3];
      reflexivity.
  - unfold ret. rewrite app_nil_r. reflexivity.
Qed.

(** One iteration never raises: it appends the combination's records,
    which are none when its body raised. *)
Lemma combination_step_spec (all_data : list EmissionRecord)
    (c : list string * string) (s : state World) :
  step all_data c s = (Return (all_data ++ given c s), after c s).
Proof.
  unfold step, combination_step, try_except.
  fold body. rewrite combination_body_all_data.
  unfold given, contribution, after, after_combination. fold body.
  destruct (body (fst c) (snd c) [] s) as [[d|e] s']; cbn [fst snd];
    [reflexivity|].
  unfold ret. rewrite app_nil_r. reflexivity.
Qed.

Lemma combinations_loop_spec (combos : list (list string * string)) :
  forall (all_data : list EmissionRecord) (s : state World),
    loop combos all_data s
    = (Return (all_data
               ++ List.concat
                    (contributions World api fs tenant start_date end_date
                       gran output combos s)),
       after_combinations World api fs tenant start_date end_date gran output
         combos s).
Proof.
  induction combos as [|c combos IH]; intros all_data s.
  - cbn. unfold ret. rewrite app_nil_r. reflexivity.
  - unfold loop. cbn [combinations_loop]. unfold bind. fold step.
    rewrite combination_step_spec. fold loop. rewrite IH.
    cbn [contributions after_combinations List.concat].
    fold given after. rewrite app_assoc. reflexivity.
Qed.

Lemma contributions_app (before rest : list (list string * string))
    (s : state World) :
  contributions World api fs tenant start_date end_date gran output
    (before ++ rest) s
  = contributions World api fs tenant start_date end_date gran output before s
    ++ contributions World api fs tenant start_date end_date gran output rest
         (after_combinations World api fs tenant start_date end_date gran
            output before s).
Proof.
  revert s. induction before as [|c before IH]; intros s; [reflexivity|].
  cbn [app contributions after_combinations]. rewrite IH. reflexivity.
Qed.

Lemma after_combinations_app (before rest : list (list string * string))
    (s : state World) :
  after_combinations World api fs tenant start_date end_date gran output
    (before ++ rest) s
  = after_combinations World api fs tenant start_date end_date gran output rest
      (after_combinations World api fs tenant start_date end_date gran
         output before s).
Proof.
  revert s. induction before as [|c before IH]; intros s; [reflexivity|].
  cbn [app after_combinations]. rewrite IH. reflexivity.
Qed.

(** *** With dates that parse *)

Variables sd ed : string.
Hypothesis start_ok : _parse_and_validate_datetime start_date = Return sd.
Hypothesis end_ok : _parse_and_validate_datetime end_date = Return ed.

Let power := power_request tenant sd ed gran.
Let spend := spend_request tenant sd ed gran.

Lemma get_carbon_emissions_query (etype method : string) (gb : list string)
    (s : state World) :
  get_carbon_emissions World api tenant start_date end_date etype method gran
    (Some gb) None (Some 7%Z) false None None s
  = (fst (api (query_request tenant etype method sd ed gran gb) (world World s)),
     mk_state World
       (snd (api (query_request tenant etype method sd ed gran gb) (world World s)))
       (api_log World s
        ++ [ (query_request tenant etype method sd ed gran gb,
              fst (api (query_request tenant etype method sd ed gran gb)
                     (world World s))) ])).
Proof.
  unfold get_carbon_emissions, bind, lift. rewrite start_ok, end_ok.
  unfold try_except, call_api, raise, query_request.
  destruct (api _ (world World s)) as [[d|e] w]; reflexivity.
Qed.

Lemma try_power_based_spec (gb : list string) (s : state World)
    (r1 : result response) (w1 : World) :
  api (power gb) (world World s) = (r1, w1) ->
  try_power_based World api tenant start_date end_date gran gb s
  = (Return (match r1 with
             | Return d => if primary_found r1 then Some d else None
             | Raise _ => None
             end),
     mk_state World w1 (api_log World s ++ [ (power gb, r1) ])).
Proof.
  intros H. unfold try_power_based, try_except, bind.
  rewrite get_carbon_emissions_query.
  fold (power_request tenant sd ed gran gb). fold power. rewrite H.
  cbn [fst snd]. destruct r1 as [d|e]; [|reflexivity].
  cbn [primary_found].
  destruct (negb (is_empty (items d)) && any_positive (items d)); reflexivity.
Qed.

Lemma try_spend_based_none (gb : list string) (s : state World)
    (r2 : result response) (w2 : World) :
  api (spend gb) (world World s) = (r2, w2) ->
  try_spend_based World api tenant start_date end_date gran gb None s
  = (Return (match r2 with
             | Return d => Some d
             | Raise _ => None
             end),
     mk_state World w2 (api_log World s ++ [ (spend gb, r2) ])).
Proof.
  intros H. unfold try_spend_based, try_except, bind.
  rewrite get_carbon_emissions_query.
  fold (spend_request tenant sd ed gran gb). fold spend. rewrite H.
  cbn [fst snd]. destruct r2 as [d|e]; reflexivity.
Qed.

(** The primary attempt found data: no second request. *)
Lemma combination_body_primary (gb : list string) (suffix : string)
    (all_data : list EmissionRecord) (s : state World)
    (d1 : response) (w1 : World) :
  api (power gb) (world World s) = (Return d1, w1) ->
  primary_found (Return d1) = true ->
  body gb suffix all_data s
  = bind World (save_query_result World fs output suffix d1)
         (fun _ => ret World (all_data ++ items d1))
         (mk_state World w1 (api_log World s ++ [ (power gb, Return d1) ])).
Proof.
  intros H Hfound. unfold body, combination_body.
  unfold bind at 1. rewrite (try_power_based_spec gb s _ _ H), Hfound.
  unfold bind at 1. unfold try_spend_based.
  cbn [primary_found] in Hfound. apply andb_true_iff in Hfound.
  destruct Hfound as [Hne _].
  destruct (is_empty (items d1)) eqn:E; [discriminate|].
  unfold ret at 1. cbn beta iota. rewrite E. reflexivity.
Qed.

(** The primary attempt found nothing or raised: the alternate request is
    sent, once. *)
Lemma combination_body_fallback (gb : list string) (suffix : string)
    (all_data : list EmissionRecord) (s : state World)
    (r1 r2 : result response) (w1 w2 : World) :
  api (power gb) (world World s) = (r1, w1) ->
  primary_found r1 = false ->
  api (spend gb) w1 = (r2, w2) ->
  body gb suffix all_data s
  = match r2 with
    | Raise _ =>
        raise World (AttributeError "'NoneType' object has no attribute 'items'")
    | Return d2 =>
        if is_empty (items d2) then ret World all_data
        else bind World (save_query_result World fs output suffix d2)
                  (fun _ => ret World (all_data ++ items d2))
    end
      (mk_state World w2
         (api_log World s ++ [ (power gb, r1); (spend gb, r2) ])).
Proof.
  intros H1 Hnot H2. unfold body, combination_body.
  unfold bind at 1. rewrite (try_power_based_spec gb s _ _ H1), Hnot.
  replace (match r1 with Return _ => None | Raise _ => None end)
    with (@None response) by (destruct r1; reflexivity).
  unfold bind at 1.
  rewrite (try_spend_based_none gb _ r2 w2) by exact H2.
  cbn [api_log]. rewrite <- app_assoc. cbn [app].
  destruct r2 as [d2|e2]; [|reflexivity].
  destruct (is_empty (items d2)); reflexivity.
Qed.

(** Writing the file of a combination that has records. *)
Lemma save_query_result_records (suffix : string) (d : response)
    (s : state World) :
  items d <> [] ->
  save_query_result World fs output suffix d s
  = match output with
    | Some (String c rest) =>
        (fst (fs (query_filename (String c rest) suffix) (items d)
                (world World s)),
         mk_state World
           (snd (fs (query_filename (String c rest) suffix) (items d)
                   (world World s)))
           (api_log World s))
    | _ => (Return tt, s)
    end.
Proof.
  intros Hne. unfold save_query_result.
  destruct output as [[|c rest]|]; try reflexivity.
  unfold save_to_csv. destruct (items d) as [|i its] eqn:E; [congruence|].
  cbn [is_empty]. unfold try_except, call_write_csv, raise.
  destruct (fs _ (i :: its) (world World s)) as [[u|e] w]; reflexivity.
Qed.

(** What a combination appends and the state it leaves are decided by the
    answers of the client and of the file system, as [appended_records]
    reads them. *)
Lemma contribution_appended (c : list string * string) (s : state World) :
  (given c s, after c s)
  = appended_records World api fs tenant sd ed gran output c s.
Proof.
  unfold given, contribution, after, after_combination. fold body.
  unfold appended_records, final_answer. fold power spend.
  destruct (api (power (fst c)) (world World s)) as [r1 w1] eqn:H1.
  destruct (primary_found r1) eqn:Hfound.
  - destruct r1 as [d1|e1]; [|discriminate].
    rewrite (combination_body_primary _ _ _ _ _ _ H1 Hfound).
    cbn [primary_found] in Hfound. apply andb_true_iff in Hfound.
    destruct Hfound as [Hne _].
    destruct (items d1) as [|i its] eqn:E; [discriminate|].
    cbn [is_empty]. unfold bind.
    rewrite save_query_result_records by (rewrite E; discriminate).
    rewrite E. cbn [world api_log].
    destruct output as [[|ch rest]|]; try reflexivity.
    destruct (fs _ (i :: its) w1) as [[u|e] w']; reflexivity.
  - destruct (api (spend (fst c)) w1) as [r2 w2] eqn:H2.
    rewrite (combination_body_fallback _ _ _ _ _ _ _ _ H1 Hfound H2).
    destruct r2 as [d2|e2]; [|reflexivity].
    destruct (items d2) as [|i its] eqn:E; [reflexivity|].
    cbn [is_empty]. unfold bind.
    rewrite save_query_result_records by (rewrite E; discriminate).
    rewrite E. cbn [world api_log].
    destruct output as [[|ch rest]|]; try reflexivity.
    destruct (fs _ (i :: its) w2) as [[u|e] w']; reflexivity.
Qed.

Lemma combinations_loop_appended (combos : list (list string * string)) :
  forall (all_data : list EmissionRecord) (s : state World),
    loop combos all_data s
    = (Return (all_data
               ++ List.concat
                    (fst (appended_by_all World api fs tenant sd ed gran
                            output combos s))),
       snd (appended_by_all World api fs tenant sd ed gran output combos s)).
Proof.
  induction combos as [|c combos IH]; intros all_data s.
  - cbn. unfold ret. rewrite app_nil_r. reflexivity.
  - unfold loop. cbn [combinations_loop appended_by_all]. unfold bind.
    fold step. rewrite combination_step_spec. fold loop. rewrite IH.
    pose proof (contribution_appended c s) as E.
    destruct (appended_records World api fs tenant sd ed gran output c s)
      as [records s1].
    injection E as -> ->.
    destruct (appended_by_all World api fs tenant sd ed gran output combos s1)
      as [more s2].
    cbn [fst snd List.concat]. rewrite app_assoc. reflexivity.
Qed.

(** Every combination sends its POWER_BASED request, and only one. *)
Lemma after_combination_log (c : list string * string) (s : state World) :
  exists t,
    api_log World (after c s) = api_log World s ++ t
    /\ requests_by_method "POWER_BASED" t = [ power (fst c) ].
Proof.
  unfold after, after_combination. fold body.
  destruct (api (power (fst c)) (world World s)) as [r1 w1] eqn:H1.
  destruct (primary_found r1) eqn:Hfound.
  - destruct r1 as [d1|e1]; [|discriminate].
    rewrite (combination_body_primary _ _ _ _ _ _ H1 Hfound).
    exists [ (power (fst c), Return d1) ]. split; [|reflexivity].
    unfold bind.
    pose proof (save_query_result_log fs output (snd c) d1
                  (mk_state World w1 (api_log World s ++ [ (power (fst c), Return d1) ]))) as L.
    destruct (save_query_result World fs output (snd c) d1 _) as [[u|e] s3];
      exact L.
  - destruct (api (spend (fst c)) w1) as [r2 w2] eqn:H2.
    rewrite (combination_body_fallback _ _ _ _ _ _ _ _ H1 Hfound H2).
    exists [ (power (fst c), r1); (spend (fst c), r2) ]. split; [|reflexivity].
    destruct r2 as [d2|e2]; [|reflexivity].
    destruct (is_empty (items d2)); [reflexivity|].
    unfold bind.
    pose proof (save_query_result_log fs output (snd c) d2
                  (mk_state World w2
                     (api_log World s ++ [ (power (fst c), r1); (spend (fst c), Return d2) ]))) as L.
    destruct (save_query_result World fs output (snd c) d2 _) as [[u|e] s3];
      exact L.
Qed.

Lemma requests_by_method_app (m : string) (t1 t2 : list exchange) :
  requests_by_method m (t1 ++ t2)
  = requests_by_method m t1 ++ requests_by_method m t2.
Proof. unfold requests_by_method. rewrite map_app, filter_app. reflexivity. Qed.

Lemma after_combinations_log (combos : list (list string * string)) :
  forall s : state World,
  exists t,
    api_log World
      (after_combinations World api fs tenant start_date end_date gran output
         combos s)
    = api_log World s ++ t
    /\ requests_by_method "POWER_BASED" t = map (fun c => power (fst c)) combos.
Proof.
  induction combos as [|c combos IH]; intros s.
  - exists []. cbn. rewrite app_nil_r. auto.
  - cbn [after_combinations]. fold after.
    destruct (after_combination_log c s) as (t1 & L1 & R1).
    destruct (IH (after c s)) as (t2 & L2 & R2).
    exists (t1 ++ t2). split.
    + rewrite L2, L1, app_assoc. reflexivity.
    + rewrite requests_by_method_app, R1, R2. reflexivity.
Qed.

End MultiQueryFacts.

(** *** The claims on the fallback and on the combinations *)

Lemma no_data_not_found (d : response) :
  no_data (items d) -> primary_found (Return d) = false.
Proof.
  unfold no_data, primary_found. intros [H|H].
  - rewrite H. reflexivity.
  - apply andb_false_iff. right. unfold any_positive.
    induction H as [|r its Hr _ IH]; [reflexivity|].
    cbn [existsb]. fold (emission_of r). rewrite Hr, IH. reflexivity.
Qed.

Lemma concat_nil_Forall {A : Type} (ls : list (list A)) :
  List.concat ls = [] <-> Forall (fun l => l = []) ls.
Proof.
  induction ls as [|l ls IH]; cbn [List.concat].
  - split; [constructor | reflexivity].
  - split.
    + intros H. apply app_eq_nil in H. destruct H as [-> H].
      constructor; [reflexivity | apply IH; exact H].
    + intros H. inversion H; subst. cbn [app]. apply IH. assumption.
Qed.

(** C3, as the code has it.  When the primary request raises, the
    alternate MARKET_BASED/SPEND_BASED request is still sent, once, right
    after it; and when that one raises too, no error reaches the loop: the
    iteration ends normally and leaves the collected records as they
    were. *)
Theorem fallback_after_primary_error
    (World : Type) (api : request -> World -> result response * World)
    (fs : string -> list EmissionRecord -> World -> result unit * World)
    (tenant start_date end_date gran sd ed : string) (output : option string)
    (gb : list string) (suffix : string) (all_data : list EmissionRecord)
    (s : state World) (e1 : exn) (w1 : World) (r2 : result response)
    (w2 : World) :
  _parse_and_validate_datetime start_date = Return sd ->
  _parse_and_validate_datetime end_date = Return ed ->
  api (power_request tenant sd ed gran gb) (world World s) = (Raise e1, w1) ->
  api (spend_request tenant sd ed gran gb) w1 = (r2, w2) ->
  api_log World
    (snd (combination_step World api fs tenant start_date end_date gran
            output all_data (gb, suffix) s))
  = api_log World s
    ++ [ (power_request tenant sd ed gran gb, Raise e1);
         (spend_request tenant sd ed gran gb, r2) ]
  /\ (forall e2,
        r2 = Raise e2 ->
        combination_step World api fs tenant start_date end_date gran output
          all_data (gb, suffix) s
        = (Return all_data,
           mk_state World w2
             (api_log World s
              ++ [ (power_request tenant sd ed gran gb, Raise e1);
                   (spend_request tenant sd ed gran gb, Raise e2) ]))).
Proof.
  intros Hs He H1 H2.
  unfold combination_step, try_except. cbn [fst snd].
  rewrite (combination_body_fallback api fs tenant start_date end_date gran
             output sd ed Hs He gb suffix all_data s (Raise e1) r2 w1 w2 H1
             eq_refl H2).
  split.
  - destruct r2 as [d2|e2]; [|reflexivity].
    destruct (is_empty (items d2)); [reflexivity|].
    unfold bind.
    pose proof (save_query_result_log fs output suffix d2
                  (mk_state World w2
                     (api_log World s
                      ++ [ (power_request tenant sd ed gran gb, Raise e1);
                           (spend_request tenant sd ed gran gb, Return d2) ]))) as L.
    destruct (save_query_result World fs output suffix d2 _) as [[u|e] s3];
      exact L.
  - intros e2 ->. reflexivity.
Qed.

Lemma fallback_after_primary_error_witness :
  combination_step Stub.world Stub.serve Stub.write_ok "tenancy" "2024-01-01"
    "2024-02-01" "MONTHLY" None [] ([ "service" ], "by_service")
    (Stub.start [ Raise (ServiceError "first"); Raise (ServiceError "second") ])
  = (Return [],
     mk_state Stub.world []
       [ (power_request "tenancy" "2024-01-01T00:00:00Z" "2024-02-01T00:00:00Z"
            "MONTHLY" [ "service" ], Raise (ServiceError "first"));
         (spend_request "tenancy" "2024-01-01T00:00:00Z" "2024-02-01T00:00:00Z"
            "MONTHLY" [ "service" ], Raise (ServiceError "second")) ]).
Proof.
  apply (proj2 (fallback_after_primary_error Stub.world Stub.serve
                  Stub.write_ok "tenancy" "2024-01-01" "2024-02-01" "MONTHLY"
                  "2024-01-01T00:00:00Z" "2024-02-01T00:00:00Z" None
                  [ "service" ] "by_service" []
                  (Stub.start
                     [ Raise (ServiceError "first");
                       Raise (ServiceError "second") ])
                  (ServiceError "first") [ Raise (ServiceError "second") ]
                  (Raise (ServiceError "second")) []
                  eq_refl eq_refl eq_refl eq_refl)
           (ServiceError "second") eq_refl).
Defined.

(** C3 as stated fails: when both requests raise the iteration does not
    raise the primary's error, neither out of the whole iteration nor out
    of the body of its [try]. *)
Lemma both_attempts_raise_counterexample :
  ~ (forall e1 e2 : exn,
       fst (combination_step Stub.world Stub.serve Stub.write_ok "tenancy"
              "2024-01-01" "2024-02-01" "MONTHLY" None []
              ([ "service" ], "by_service")
              (Stub.start [ Raise e1; Raise e2 ]))
       = Raise e1)
  /\ ~ (forall e1 e2 : exn,
          fst (combination_body Stub.world Stub.serve Stub.write_ok "tenancy"
                 "2024-01-01" "2024-02-01" "MONTHLY" None [ "service" ]
                 "by_service" []
                 (Stub.start [ Raise e1; Raise e2 ]))
          = Raise e1).
Proof.
  split; intros H;
    specialize (H (ServiceError "first") (ServiceError "second"));
    vm_compute in H; discriminate H.
Qed.

(** C4, as the code has it.  When the primary request returns no item or
    only records with an emission of exactly zero, the alternate
    MARKET_BASED/SPEND_BASED request is sent, once, right after it.  When
    the alternate raises or returns no item, the iteration ends normally
    and adds no record; when it returns items they are all added, whatever
    their emissions, unless a file was asked for and the file of the
    combination cannot be written: then none is added, and the iteration
    still ends normally. *)
Theorem fallback_after_no_data
    (World : Type) (api : request -> World -> result response * World)
    (fs : string -> list EmissionRecord -> World -> result unit * World)
    (tenant start_date end_date gran sd ed : string) (output : option string)
    (gb : list string) (suffix : string) (all_data : list EmissionRecord)
    (s : state World) (d1 : response) (w1 : World) (r2 : result response)
    (w2 : World) :
  _parse_and_validate_datetime start_date = Return sd ->
  _parse_and_validate_datetime end_date = Return ed ->
  api (power_request tenant sd ed gran gb) (world World s) = (Return d1, w1) ->
  no_data (items d1) ->
  api (spend_request tenant sd ed gran gb) w1 = (r2, w2) ->
  api_log World
    (snd (combination_step World api fs tenant start_date end_date gran
            output all_data (gb, suffix) s))
  = api_log World s
    ++ [ (power_request tenant sd ed gran gb, Return d1);
         (spend_request tenant sd ed gran gb, r2) ]
  /\ match r2 with
     | Raise _ =>
         fst (combination_step World api fs tenant start_date end_date gran
                output all_data (gb, suffix) s)
         = Return all_data
     | Return d2 =>
         (items d2 = [] ->
          fst (combination_step World api fs tenant start_date end_date gran
                 output all_data (gb, suffix) s)
          = Return all_data)
         /\ (items d2 <> [] ->
             combination_step World api fs tenant start_date end_date gran
               output all_data (gb, suffix) s
             = match
                 save_query_result World fs output suffix d2
                   (mk_state World w2
                      (api_log World s
                       ++ [ (power_request tenant sd ed gran gb, Return d1);
                            (spend_request tenant sd ed gran gb, Return d2) ]))
               with
               | (Return _, s3) => (Return (all_data ++ items d2), s3)
               | (Raise _, s3) => (Return all_data, s3)
               end)
         /\ (items d2 <> [] -> output = None ->
             combination_step World api fs tenant start_date end_date gran
               output all_data (gb, suffix) s
             = (Return (all_data ++ items d2),
                mk_state World w2
                  (api_log World s
                   ++ [ (power_request tenant sd ed gran gb, Return d1);
                        (spend_request tenant sd ed gran gb, Return d2) ])))
     end.
Proof.
  intros Hs He H1 Hno H2.
  unfold combination_step, try_except. cbn [fst snd].
  rewrite (combination_body_fallback api fs tenant start_date end_date gran
             output sd ed Hs He gb suffix all_data s (Return d1) r2 w1 w2 H1
             (no_data_not_found d1 Hno) H2).
  split.
  - destruct r2 as [d2|e2]; [|reflexivity].
    destruct (is_empty (items d2)); [reflexivity|].
    unfold bind.
    pose proof (save_query_result_log fs output suffix d2
                  (mk_state World w2
                     (api_log World s
                      ++ [ (power_request tenant sd ed gran gb, Return d1);
                           (spend_request tenant sd ed gran gb, Return d2) ]))) as L.
    destruct (save_query_result World fs output suffix d2 _) as [[u|e] s3];
      exact L.
  - destruct r2 as [d2|e2]; [|reflexivity].
    split; [|split].
    + intros ->. reflexivity.
    + intros Hne.
      destruct (items d2) as [|i its] eqn:E; [congruence|].
      cbn [is_empty]. unfold bind. rewrite <- E.
      destruct (save_query_result World fs output suffix d2 _) as [[u|e] s3];
        reflexivity.
    + intros Hne ->.
      destruct (items d2) as [|i its] eqn:E; [congruence|].
      reflexivity.
Qed.

Lemma fallback_after_no_data_witness :
  combination_step Stub.world Stub.serve Stub.write_ok "tenancy" "2024-01-01"
    "2024-02-01" "MONTHLY" None [] ([ "service" ], "by_service")
    (Stub.start
       [ Return (mk_response [ Stub.rec "A" 0%float ] None None);
         Return (mk_response [ Stub.rec "B" 2%float ] None None) ])
  = (Return ([] ++ [ Stub.rec "B" 2%float ]),
     mk_state Stub.world []
       [ (power_request "tenancy" "2024-01-01T00:00:00Z" "2024-02-01T00:00:00Z"
            "MONTHLY" [ "service" ],
          Return (mk_response [ Stub.rec "A" 0%float ] None None));
         (spend_request "tenancy" "2024-01-01T00:00:00Z" "2024-02-01T00:00:00Z"
            "MONTHLY" [ "service" ],
          Return (mk_response [ Stub.rec "B" 2%float ] None None)) ]).
Proof.
  apply (proj2 (proj2 (proj2 (fallback_after_no_data Stub.world Stub.serve
                  Stub.write_ok "tenancy" "2024-01-01" "2024-02-01" "MONTHLY"
                  "2024-01-01T00:00:00Z" "2024-02-01T00:00:00Z" None
                  [ "service" ] "by_service" []
                  (Stub.start
                     [ Return (mk_response [ Stub.rec "A" 0%float ] None None);
                       Return (mk_response [ Stub.rec "B" 2%float ] None None) ])
                  (mk_response [ Stub.rec "A" 0%float ] None None)
                  [ Return (mk_response [ Stub.rec "B" 2%float ] None None) ]
                  (Return (mk_response [ Stub.rec "B" 2%float ] None None)) []
                  eq_refl eq_refl eq_refl
                  ltac:(right; repeat constructor)
                  eq_refl)))).
  - discriminate.
  - reflexivity.
Defined.

(** C4 as stated fails: both attempts yield "no data" in the
    specification's sense (here one record of emission zero each), and the
    alternate's record is kept: the dataset is not empty. *)
Lemma zero_alternate_kept_counterexample :
  ~ (forall d1 d2 : response,
       no_data (items d1) -> no_data (items d2) ->
       fst (combination_step Stub.world Stub.serve Stub.write_ok "tenancy"
              "2024-01-01" "2024-02-01" "MONTHLY" None []
              ([ "service" ], "by_service")
              (Stub.start [ Return d1; Return d2 ]))
       = Return []).
Proof.
  intros H.
  specialize (H (mk_response [ Stub.rec "A" 0%float ] None None)
                (mk_response [ Stub.rec "B" 0%float ] None None)
                ltac:(right; repeat constructor)
                ltac:(right; repeat constructor)).
  vm_compute in H. discriminate H.
Qed.

(** C10.  Whatever the client and the file system do, one iteration of the
    multi-query loop never raises: it appends the records of its
    combination, none when the body raised.  So a combination that fails
    does not stop the loop: the combinations after it run from the state it
    left and append their records, and the combined records are those of
    all combinations in order.  Every combination sends its POWER_BASED
    request, in the order of the list (the dates parsing).  The branch
    yields no dataset exactly when no combination gave a record, and the
    combined dataset otherwise.  The records of a combination are those of
    the answers of the client (the dates parsing): the records of the
    primary answer when it found data, else those of the alternate
    answer, none when that answer is an error or when the file asked for
    could not be written; so the combined dataset is made of what the
    client returned, combination after combination. *)
Theorem multi_query_isolates_failures
    (World : Type) (api : request -> World -> result response * World)
    (fs : string -> list EmissionRecord -> World -> result unit * World)
    (tenant start_date end_date gran : string) (output : option string) :
  (forall all_data c s,
      combination_step World api fs tenant start_date end_date gran output
        all_data c s
      = (Return (all_data
                 ++ contribution World api fs tenant start_date end_date gran
                      output c s),
         after_combination World api fs tenant start_date end_date gran
           output c s))
  /\ (forall gb suffix all_data s e s',
         combination_body World api fs tenant start_date end_date gran output
           gb suffix all_data s = (Raise e, s') ->
         combination_step World api fs tenant start_date end_date gran output
           all_data (gb, suffix) s = (Return all_data, s'))
  /\ (forall before c rest all_data s e s',
         combination_body World api fs tenant start_date end_date gran output
           (fst c) (snd c) []
           (after_combinations World api fs tenant start_date end_date gran
              output before s)
         = (Raise e, s') ->
         combinations_loop World api fs tenant start_date end_date gran output
           (before ++ c :: rest) all_data s
         = combinations_loop World api fs tenant start_date end_date gran
             output rest
             (all_data
              ++ List.concat
                   (contributions World api fs tenant start_date end_date
                      gran output before s))
             s')
  /\ (forall combos all_data s,
         combinations_loop World api fs tenant start_date end_date gran output
           combos all_data s
         = (Return (all_data
                    ++ List.concat
                         (contributions World api fs tenant start_date
                            end_date gran output combos s)),
            after_combinations World api fs tenant start_date end_date gran
              output combos s))
  /\ (forall sd ed combos s,
         _parse_and_validate_datetime start_date = Return sd ->
         _parse_and_validate_datetime end_date = Return ed ->
         exists t,
           api_log World
             (after_combinations World api fs tenant start_date end_date gran
                output combos s)
           = api_log World s ++ t
           /\ requests_by_method "POWER_BASED" t
              = map (fun c => power_request tenant sd ed gran (fst c)) combos)
  /\ (forall spend_based s,
         let all :=
           List.concat
             (contributions World api fs tenant start_date end_date gran
                output (query_combinations spend_based) s) in
         fst (multi_query_dataset World api fs tenant start_date end_date gran
                output spend_based s)
         = (if is_empty all then Return None
            else Return (Some (mk_response all None None)))
         /\ (fst (multi_query_dataset World api fs tenant start_date end_date
                    gran output spend_based s) = Return None
             <-> Forall (fun d => d = [])
                   (contributions World api fs tenant start_date end_date gran
                      output (query_combinations spend_based) s)))
  /\ (forall sd ed c s,
         _parse_and_validate_datetime start_date = Return sd ->
         _parse_and_validate_datetime end_date = Return ed ->
         (contribution World api fs tenant start_date end_date gran output c s,
          after_combination World api fs tenant start_date end_date gran
            output c s)
         = appended_records World api fs tenant sd ed gran output c s)
  /\ (forall sd ed combos all_data s,
         _parse_and_validate_datetime start_date = Return sd ->
         _parse_and_validate_datetime end_date = Return ed ->
         combinations_loop World api fs tenant start_date end_date gran output
           combos all_data s
         = (Return (all_data
                    ++ List.concat
                         (fst (appended_by_all World api fs tenant sd ed gran
                                 output combos s))),
            snd (appended_by_all World api fs tenant sd ed gran output
                   combos s))).
Proof.
  split; [|split; [|split; [|split; [|split; [|split; [|split]]]]]].
  - intros all_data c s. apply combination_step_spec.
  - intros gb suffix all_data s e s' H.
    unfold combination_step, try_except. cbn [fst snd]. rewrite H. reflexivity.
  - intros before c rest all_data s e s' H.
    rewrite !combinations_loop_spec.
    rewrite contributions_app, after_combinations_app.
    cbn [contributions after_combinations].
    assert (Hnone : contribution World api fs tenant start_date end_date gran
                      output c
                      (after_combinations World api fs tenant start_date
                         end_date gran output before s) = [])
      by (unfold contribution; rewrite H; reflexivity).
    assert (Hstate : after_combination World api fs tenant start_date end_date
                       gran output c
                       (after_combinations World api fs tenant start_date
                          end_date gran output before s) = s')
      by (unfold after_combination; rewrite H; reflexivity).
    rewrite Hnone, Hstate, List.concat_app. cbn [List.concat app].
    rewrite app_assoc. reflexivity.
  - intros combos all_data s. apply combinations_loop_spec.
  - intros sd ed combos s Hs He.
    apply (after_combinations_log api fs tenant start_date end_date gran
             output sd ed Hs He combos s).
  - intros spend_based s all.
    assert (E : fst (multi_query_dataset World api fs tenant start_date
                       end_date gran output spend_based s)
                = (if is_empty all then Return None
                   else Return (Some (mk_response all None None)))).
    { unfold multi_query_dataset, bind. rewrite combinations_loop_spec.
      cbn [app]. fold all. destruct (is_empty all); reflexivity. }
    split; [exact E|].
    rewrite E, <- concat_nil_Forall. fold all.
    destruct all as [|r all']; cbn [is_empty]; split; intros H;
      try reflexivity; discriminate.
  - intros sd ed c s Hs He.
    apply (contribution_appended api fs tenant start_date end_date gran
             output sd ed Hs He c s).
  - intros sd ed combos all_data s Hs He.
    apply (combinations_loop_appended api fs tenant start_date end_date gran
             output sd ed Hs He combos all_data s).
Qed.

Lemma multi_query_isolates_failures_witness :
  combination_step Stub.world Stub.serve Stub.write_ok "tenancy" "2024-01-01"
    "2024-02-01" "MONTHLY" None [ Stub.rec "kept" 1%float ]
    ([ "service" ], "by_service")
    (Stub.start [ Raise (ServiceError "first"); Raise (ServiceError "second") ])
  = (Return [ Stub.rec "kept" 1%float ],
     snd (combination_body Stub.world Stub.serve Stub.write_ok "tenancy"
            "2024-01-01" "2024-02-01" "MONTHLY" None [ "service" ]
            "by_service" [ Stub.rec "kept" 1%float ]
            (Stub.start
               [ Raise (ServiceError "first"); Raise (ServiceError "second") ]))).
Proof.
  apply (proj1 (proj2 (multi_query_isolates_failures Stub.world Stub.serve
                         Stub.write_ok "tenancy" "2024-01-01" "2024-02-01"
                         "MONTHLY" None))
           [ "service" ] "by_service" [ Stub.rec "kept" 1%float ]
           (Stub.start
              [ Raise (ServiceError "first"); Raise (ServiceError "second") ])
           (AttributeError "'NoneType' object has no attribute 'items'")).
  reflexivity.
Defined.

(** * Further properties *)

(** ** GroupByValidator, again *)

Lemma power_fields_in_spend (f : string) :
  str_in f GroupBy.power_based_supported = true ->
  str_in f GroupBy.spend_based_supported = true.
Proof.
  intros H. apply str_in_In in H. cbn in H.
  repeat (destruct H as [<-|H]; [reflexivity|]). destruct H.
Qed.

Lemma validate_fixed (v : list string) (m : string) :
  v <> [] -> (List.length v <= 4)%nat ->
  Forall (fun f => str_in f (GroupBy.capability_set m) = true) v ->
  GroupBy.validate_group_by_fields v m = v.
Proof.
  intros Hne Hlen Hall. rewrite validate_refines_spec.
  unfold GroupBy.validate_spec. rewrite (filter_all _ _ Hall).
  destruct v as [|x v]; [congruence|]. apply firstn_short. exact Hlen.
Qed.

Lemma validate_supported_bounded (group_by : list string) (m : string) :
  Forall (fun f => str_in f (GroupBy.capability_set m) = true)
         (GroupBy.validate_group_by_fields group_by m)
  /\ (1 <= List.length (GroupBy.validate_group_by_fields group_by m) <= 4)%nat.
Proof.
  rewrite validate_refines_spec. unfold GroupBy.validate_spec.
  destruct (List.filter _ group_by) as [|x kept] eqn:E.
  - split; [|cbn; lia]. repeat constructor. apply service_supported.
  - split.
    + apply Forall_firstn. rewrite <- E.
      apply Forall_forall. intros f Hf. apply filter_In in Hf. tauto.
    + rewrite List.length_firstn. cbn [List.length]. lia.
Qed.

(** X1.  Validating an already validated list changes nothing, and a list
    validated for POWER_BASED is also left alone by the SPEND_BASED
    validation. *)
Theorem validate_group_by_fields_idempotent :
  (forall group_by m,
      GroupBy.validate_group_by_fields
        (GroupBy.validate_group_by_fields group_by m) m
      = GroupBy.validate_group_by_fields group_by m)
  /\ (forall group_by,
         GroupBy.validate_group_by_fields
           (GroupBy.validate_group_by_fields group_by "POWER_BASED")
           "SPEND_BASED"
         = GroupBy.validate_group_by_fields group_by "POWER_BASED").
Proof.
  split.
  - intros group_by m.
    destruct (validate_supported_bounded group_by m) as [Hall Hlen].
    apply validate_fixed; [|lia|exact Hall].
    intros E. rewrite E in Hlen. cbn in Hlen. lia.
  - intros group_by.
    destruct (validate_supported_bounded group_by "POWER_BASED")
      as [Hall Hlen].
    apply validate_fixed; [|lia|].
    + intros E. rewrite E in Hlen. cbn in Hlen. lia.
    + eapply Forall_impl; [|exact Hall].
      intros f Hf. apply power_fields_in_spend. exact Hf.
Qed.

(** ** [get_carbon_emissions], again *)

Lemma datetime_new_raises (dt : datetime) (e : exn) :
  datetime_new dt = Raise e -> exists msg, e = ValueError msg.
Proof.
  unfold datetime_new. destruct (valid_fields dt); intros H;
    [discriminate | injection H as <-; eauto].
Qed.

Lemma strptime_ymd_raises (s : string) (e : exn) :
  strptime_ymd s = Raise e -> exists msg, e = ValueError msg.
Proof.
  unfold strptime_ymd.
  destruct (take_digits 4 0 s) as [[y r0]|]; [|intros H; injection H as <-; eauto].
  destruct (expect "-" r0) as [r1|]; [|intros H; injection H as <-; eauto].
  destruct (strptime_month r1) as [[m r2]|]; [|intros H; injection H as <-; eauto].
  destruct (expect "-" r2) as [r3|]; [|intros H; injection H as <-; eauto].
  destruct (strptime_day r3) as [[d [|c r4]]|];
    try (intros H; injection H as <-; eauto).
  apply datetime_new_raises.
Qed.

Lemma fromisoformat_raises (s : string) (e : exn) :
  fromisoformat s = Raise e -> exists msg, e = ValueError msg.
Proof.
  unfold fromisoformat. intros H.
  repeat match type of H with
         | (if ?b then _ else _) = _ => destruct b
         | match ?x with Some _ => _ | None => _ end = _ => destruct x as [?|]
         | match ?x with (_, _) => _ end = _ => destruct x
         end;
    first [ apply datetime_new_raises in H; exact H
          | injection H as <-; eauto ].
Qed.

(** The normaliser raises nothing but [ValueError]. *)
Lemma normalize_raises (d : string) (e : exn) :
  _parse_and_validate_datetime d = Raise e -> exists msg, e = ValueError msg.
Proof.
  unfold _parse_and_validate_datetime.
  destruct (str_contains "T" d).
  - destruct (fromisoformat _) as [dt|e'] eqn:P.
    + destruct (replace_first_midnight dt) as [dt'|e''] eqn:R; [discriminate|].
      intros H. injection H as <-. apply (datetime_new_raises _ _ R).
    + intros H. injection H as <-. apply (fromisoformat_raises _ _ P).
  - destruct (strptime_ymd d) as [dt|e'] eqn:P.
    + destruct (replace_first_midnight dt) as [dt'|e''] eqn:R; [discriminate|].
      intros H. injection H as <-. apply (datetime_new_raises _ _ R).
    + intros H. injection H as <-. apply (strptime_ymd_raises _ _ P).
Qed.

Lemma dict_get_set_same {V : Type} (k : string) (v : V) (d : list (string * V)) :
  dict_get k (dict_set k v d) = Some v.
Proof.
  induction d as [|[k' v'] d IH]; cbn [dict_set dict_get].
  - rewrite String.eqb_refl. reflexivity.
  - destruct (String.eqb k k') eqn:E; cbn [dict_get]; rewrite E;
      [reflexivity | exact IH].
Qed.

Lemma dict_get_set_other {V : Type} (k k0 : string) (v : V)
    (d : list (string * V)) :
  k0 <> k -> dict_get k0 (dict_set k v d) = dict_get k0 d.
Proof.
  intros Hne. induction d as [|[k' v'] d IH]; cbn [dict_set dict_get].
  - destruct (String.eqb_spec k0 k); [contradiction | reflexivity].
  - destruct (String.eqb_spec k k') as [->|NE]; cbn [dict_get].
    + destruct (String.eqb_spec k0 k'); [contradiction | reflexivity].
    + rewrite IH. reflexivity.
Qed.

(** X2.  When both dates parse, [get_carbon_emissions] sends exactly one
    request and returns or raises what the client does.  The request
    carries the normalised dates and [service] as grouping when none was
    given; its limit is absent or between 1 and 500: a limit above 500 is
    sent as 500, a limit of zero or less is not sent, any other is sent as
    it is. *)
Theorem get_carbon_emissions_sends_one_request
    (World : Type) (api : request -> World -> result response * World)
    (tenant start_date end_date sd ed etype method gran : string)
    (group_by : option (list string))
    (filters : option (list (string * list string)))
    (cd : option Z) (agg : bool) (lim : option Z)
    (cids : option (list string)) (s : state World) :
  _parse_and_validate_datetime start_date = Return sd ->
  _parse_and_validate_datetime end_date = Return ed ->
  exists rq,
    get_carbon_emissions World api tenant start_date end_date etype method
      gran group_by filters cd agg lim cids s
    = (fst (api rq (world World s)),
       mk_state World (snd (api rq (world World s)))
         (api_log World s ++ [ (rq, fst (api rq (world World s))) ]))
    /\ time_usage_started rq = sd /\ time_usage_ended rq = ed
    /\ Api.group_by rq = match group_by with
                         | None => [ "service" ]
                         | Some g => g
                         end
    /\ sent_limit_ok rq
    /\ (forall l, lim = Some l ->
          limit rq = if (500 <? l)%Z then Some 500%Z
                     else if (l <=? 0)%Z then None else Some l).
Proof.
  intros Hs He. unfold get_carbon_emissions, bind, lift. rewrite Hs, He.
  unfold try_except, call_api, raise.
  match goal with
  | |- context [api ?r (world World s)] => exists r
  end.
  split.
  { destruct (api _ (world World s)) as [[d|e] w]; reflexivity. }
  cbn [time_usage_started time_usage_ended Api.group_by limit].
  split; [reflexivity|]. split; [reflexivity|]. split; [reflexivity|].
  split.
  - unfold sent_limit_ok. cbn [limit].
    destruct lim as [l|]; [|exact I].
    destruct (Z.ltb_spec 500 l); [cbn; lia|].
    destruct (Z.leb_spec l 0); [exact I | cbn; lia].
  - intros l ->. reflexivity.
Qed.

Lemma get_carbon_emissions_sends_one_request_witness :
  exists rq,
    api_log Stub.world
      (snd (get_carbon_emissions Stub.world Stub.serve "tenancy" "2024-03-15"
              "2024-04-01" "LOCATION_BASED" "POWER_BASED" "MONTHLY" None None
              None false (Some 900%Z) None
              (Stub.start [ Return (Stub.page 1 "a" false) ])))
    = [ (rq, Return (Stub.page 1 "a" false)) ]
    /\ limit rq = Some 500%Z.
Proof.
  destruct (get_carbon_emissions_sends_one_request Stub.world Stub.serve
              "tenancy" "2024-03-15" "2024-04-01" "2024-03-01T00:00:00Z"
              "2024-04-01T00:00:00Z" "LOCATION_BASED" "POWER_BASED" "MONTHLY"
              None None None false (Some 900%Z) None
              (Stub.start [ Return (Stub.page 1 "a" false) ])
              eq_refl eq_refl)
    as (rq & Hrun & _ & _ & _ & _ & Hlim).
  exists rq. split; [rewrite Hrun; reflexivity | exact (Hlim 900%Z eq_refl)].
Defined.

Lemma bad_dates_raise_value_error
    {World : Type} (api : request -> World -> result response * World)
    (tenant start_date end_date etype method gran : string)
    (group_by : option (list string))
    (filters : option (list (string * list string)))
    (cd : option Z) (agg : bool) (lim : option Z)
    (cids : option (list string)) (s : state World) :
  (forall d, _parse_and_validate_datetime start_date <> Return d)
  \/ (forall d, _parse_and_validate_datetime end_date <> Return d) ->
  exists msg,
    get_carbon_emissions World api tenant start_date end_date etype method
      gran group_by filters cd agg lim cids s
    = (Raise (ValueError msg), s).
Proof.
  intros H. unfold get_carbon_emissions, bind, lift.
  destruct (_parse_and_validate_datetime start_date) as [d1|e1] eqn:P1.
  - destruct (_parse_and_validate_datetime end_date) as [d2|e2] eqn:P2.
    + destruct H as [H|H]; [elim (H d1) | elim (H d2)]; reflexivity.
    + destruct (normalize_raises _ _ P2) as [msg ->]. eauto.
  - destruct (normalize_raises _ _ P1) as [msg ->]. eauto.
Qed.

(** X3.  When one of the dates does not parse, [get_carbon_emissions]
    raises a [ValueError] and sends no request: the state of the client and
    the log are as before. *)
Theorem get_carbon_emissions_rejects_bad_dates
    (World : Type) (api : request -> World -> result response * World)
    (tenant start_date end_date etype method gran : string)
    (group_by : option (list string))
    (filters : option (list (string * list string)))
    (cd : option Z) (agg : bool) (lim : option Z)
    (cids : option (list string)) (s : state World) :
  (forall d, _parse_and_validate_datetime start_date <> Return d)
  \/ (forall d, _parse_and_validate_datetime end_date <> Return d) ->
  exists msg,
    get_carbon_emissions World api tenant start_date end_date etype method
      gran group_by filters cd agg lim cids s
    = (Raise (ValueError msg), s).
Proof. apply bad_dates_raise_value_error. Qed.

Lemma get_carbon_emissions_rejects_bad_dates_witness :
  exists msg,
    get_carbon_emissions Stub.world Stub.serve "tenancy" "2024-02-30"
      "2024-04-01" "LOCATION_BASED" "POWER_BASED" "MONTHLY" None None None
      false None None (Stub.start [ Return (Stub.page 1 "a" false) ])
    = (Raise (ValueError msg),
       Stub.start [ Return (Stub.page 1 "a" false) ]).
Proof.
  apply get_carbon_emissions_rejects_bad_dates.
  left. intros d H. vm_compute in H. discriminate H.
Defined.

(** X4.  With a non-empty list of compartment ids the request's filter
    maps [compartmentId] to that list and keeps every other entry of the
    filters given; without one (absent or empty) the filters are sent as
    given. *)
Theorem get_carbon_emissions_compartment_filter
    (World : Type) (api : request -> World -> result response * World)
    (tenant start_date end_date sd ed etype method gran : string)
    (group_by : option (list string))
    (filters : option (list (string * list string)))
    (cd : option Z) (agg : bool) (lim : option Z)
    (cids : option (list string)) (s : state World) :
  _parse_and_validate_datetime start_date = Return sd ->
  _parse_and_validate_datetime end_date = Return ed ->
  exists rq r,
    api_log World
      (snd (get_carbon_emissions World api tenant start_date end_date etype
              method gran group_by filters cd agg lim cids s))
    = api_log World s ++ [ (rq, r) ]
    /\ match cids with
       | Some (c :: cs) =>
           exists f,
             Api.filter rq = Some f
             /\ dict_get "compartmentId" f = Some (c :: cs)
             /\ (forall k, k <> "compartmentId" ->
                   dict_get k f
                   = dict_get k (match filters with
                                 | Some g => g
                                 | None => []
                                 end))
       | _ => Api.filter rq = filters
       end.
Proof.
  intros Hs He. unfold get_carbon_emissions, bind, lift. rewrite Hs, He.
  unfold try_except, call_api, raise.
  match goal with
  | |- context [api ?r (world World s)] =>
      exists r, (fst (api r (world World s)))
  end.
  split.
  { destruct (api _ (world World s)) as [[d|e] w]; reflexivity. }
  cbn [Api.filter].
  destruct cids as [[|c cs]|]; try reflexivity.
  eexists. split; [reflexivity|]. split.
  - apply dict_get_set_same.
  - intros k Hk. apply dict_get_set_other. exact Hk.
Qed.

Lemma get_carbon_emissions_compartment_filter_witness :
  exists rq r,
    api_log Stub.world
      (snd (get_carbon_emissions Stub.world Stub.serve "tenancy" "2024-03-01"
              "2024-04-01" "LOCATION_BASED" "POWER_BASED" "MONTHLY" None
              (Some [ ("region", [ "eu" ]); ("compartmentId", [ "old" ]) ])
              None false None (Some [ "ocid1"; "ocid2" ])
              (Stub.start [ Return (Stub.page 1 "a" false) ])))
    = [] ++ [ (rq, r) ]
    /\ exists f,
         Api.filter rq = Some f
         /\ dict_get "compartmentId" f = Some [ "ocid1"; "ocid2" ]
         /\ (forall k, k <> "compartmentId" ->
               dict_get k f
               = dict_get k [ ("region", [ "eu" ]); ("compartmentId", [ "old" ]) ]).
Proof.
  exact (get_carbon_emissions_compartment_filter Stub.world Stub.serve
           "tenancy" "2024-03-01" "2024-04-01" "2024-03-01T00:00:00Z"
           "2024-04-01T00:00:00Z" "LOCATION_BASED" "POWER_BASED" "MONTHLY"
           None (Some [ ("region", [ "eu" ]); ("compartmentId", [ "old" ]) ])
           None false None (Some [ "ocid1"; "ocid2" ])
           (Stub.start [ Return (Stub.page 1 "a" false) ])
           eq_refl eq_refl).
Defined.

(** ** PaginationDriver, again *)

Lemma pagination_loop_zero_limit
    {World : Type} (api : request -> World -> result response * World)
    (tenant start_date end_date etype method gran : string)
    (gb : list string) (depth : Z) (fuel : nat) :
  forall (l : locals) (s : state World),
    pagination_loop World api tenant fuel start_date end_date etype method
      gran gb depth (Some 0%Z) l s
    = pagination_loop World api tenant fuel start_date end_date etype method
        gran gb depth None l s.
Proof.
  induction fuel as [|fuel IH]; intros l s; [reflexivity|].
  cbn [pagination_loop int_truthy Z.eqb negb andb]. unfold bind, attempt.
  destruct (get_carbon_emissions World api tenant start_date end_date etype
              method gran (Some gb) None (Some depth) false (Some 500%Z) None s)
    as [[data|e] s1]; [|reflexivity].
  destruct (negb (is_empty (items data)));
    cbn [all_items page_token page_count total_records CombinedResult];
    destruct (negb (token_truthy (opc_next_page data))); try reflexivity;
    destruct (1000 <=? page_count l + 1)%Z; try reflexivity; apply IH.
Qed.

(** X5.  A [max_records] of 0 is no limit: the run is the one without
    [max_records], whatever the client serves. *)
Theorem zero_max_records_is_no_limit
    (World : Type) (api : request -> World -> result response * World)
    (tenant start_date end_date etype method gran : string)
    (group_by : option (list string)) (depth : Z) (fuel : nat)
    (s : state World) :
  get_full_dataset_paginated World api tenant fuel start_date end_date etype
    method gran group_by depth (Some 0%Z) s
  = get_full_dataset_paginated World api tenant fuel start_date end_date etype
      method gran group_by depth None s.
Proof.
  unfold get_full_dataset_paginated, bind.
  rewrite pagination_loop_zero_limit. reflexivity.
Qed.

(** X6.  When one of the dates does not parse, the driver raises the
    [ValueError] of the first page and sends no request. *)
Theorem pagination_rejects_bad_dates
    (World : Type) (api : request -> World -> result response * World)
    (tenant start_date end_date etype method gran : string)
    (group_by : option (list string)) (depth : Z) (max_records : option Z)
    (fuel : nat) (s : state World) :
  (1 <= fuel)%nat ->
  (forall d, _parse_and_validate_datetime start_date <> Return d)
  \/ (forall d, _parse_and_validate_datetime end_date <> Return d) ->
  exists msg,
    get_full_dataset_paginated World api tenant fuel start_date end_date etype
      method gran group_by depth max_records s
    = (Raise (ValueError msg), s).
Proof.
  intros Hfuel Hbad. destruct fuel as [|fuel]; [lia|].
  unfold get_full_dataset_paginated.
  cbn [pagination_loop]. unfold bind, attempt.
  destruct (bad_dates_raise_value_error api tenant
              start_date end_date etype method gran
              (Some (match group_by with
                     | None => default_full_group_by
                     | Some g => g
                     end))
              None (Some depth) false (Some 500%Z) None s Hbad) as [msg ->].
  exists msg. reflexivity.
Qed.

Lemma pagination_rejects_bad_dates_witness :
  exists msg,
    get_full_dataset_paginated Stub.world Stub.serve "tenancy" 1000
      "2024-13-01" "2024-04-01" "LOCATION_BASED" "POWER_BASED" "DAILY" None 7
      None (Stub.start [ Return (Stub.page 1 "a" false) ])
    = (Raise (ValueError msg), Stub.start [ Return (Stub.page 1 "a" false) ]).
Proof.
  apply pagination_rejects_bad_dates; [lia|].
  left. intros d H. vm_compute in H. discriminate H.
Defined.

(** X7.  Against a client whose first 1000 answers are all pages with a
    continuation token, the driver without [max_records] sends exactly 1000
    requests and returns the records of those 1000 pages: the page ceiling
    ends the run, not an error. *)
Theorem pagination_page_ceiling
    (World : Type) (api : request -> World -> result response * World)
    (tenant start_date end_date sd ed etype method gran : string)
    (group_by : option (list string)) (depth : Z) (fuel : nat)
    (s : state World) (trace : list exchange) (w : World) :
  _parse_and_validate_datetime start_date = Return sd ->
  _parse_and_validate_datetime end_date = Return ed ->
  (1000 <= fuel)%nat ->
  interactions World api
    (page_request tenant sd ed etype method gran
       (match group_by with
        | None => default_full_group_by
        | Some g => g
        end) depth)
    1000 (world World s) = (trace, w) ->
  forallb page_with_token trace = true ->
  List.length trace = 1000%nat
  /\ get_full_dataset_paginated World api tenant fuel start_date end_date
       etype method gran group_by depth None s
     = (Return (Some (combined_result (fetched trace))),
        mk_state World w (api_log World s ++ trace)).
Proof.
  intros Hs He Hfuel Hint Hall.
  exact (page_ceiling_run World api tenant start_date end_date sd ed etype
           method gran group_by depth fuel s trace w Hs He Hfuel Hint Hall).
Qed.

Lemma pagination_page_ceiling_witness :
  List.length
    (fst (interactions Stub.world Stub.serve
            (page_request "tenancy" "2024-01-01T00:00:00Z"
               "2024-02-01T00:00:00Z" "LOCATION_BASED" "POWER_BASED" "DAILY"
               default_full_group_by 7)
            1000 (repeat (Return (Stub.page 1 "a" true)) 1001)))
  = 1000%nat.
Proof.
  refine (proj1 (pagination_page_ceiling Stub.world Stub.serve "tenancy"
                   "2024-01-01" "2024-02-01" "2024-01-01T00:00:00Z"
                   "2024-02-01T00:00:00Z" "LOCATION_BASED" "POWER_BASED"
                   "DAILY" None 7 1000
                   (Stub.start (repeat (Return (Stub.page 1 "a" true)) 1001))
                   _ _ eq_refl eq_refl (le_n 1000) _ _)).
  - apply surjective_pairing.
  - vm_compute. reflexivity.
Defined.

(** ** FallbackStrategy and MultiQueryAggregator, again *)

Lemma any_positive_found (d : response) :
  any_positive (items d) = true -> primary_found (Return d) = true.
Proof.
  intros H. cbn [primary_found]. rewrite H.
  destruct (items d); [discriminate H | reflexivity].
Qed.

(** X8.  When the primary request returns a record with a positive
    emission, the alternate request is not sent: the iteration sends that
    one request, and once the combination's file (if any) is written it
    appends all the records of the primary response. *)
Theorem primary_data_skips_alternate
    (World : Type) (api : request -> World -> result response * World)
    (fs : string -> list EmissionRecord -> World -> result unit * World)
    (tenant start_date end_date gran sd ed : string) (output : option string)
    (gb : list string) (suffix : string) (all_data : list EmissionRecord)
    (s : state World) (d1 : response) (w1 : World) :
  _parse_and_validate_datetime start_date = Return sd ->
  _parse_and_validate_datetime end_date = Return ed ->
  api (power_request tenant sd ed gran gb) (world World s) = (Return d1, w1) ->
  any_positive (items d1) = true ->
  api_log World
    (snd (combination_step World api fs tenant start_date end_date gran
            output all_data (gb, suffix) s))
  = api_log World s ++ [ (power_request tenant sd ed gran gb, Return d1) ]
  /\ (forall s3,
        save_query_result World fs output suffix d1
          (mk_state World w1
             (api_log World s
              ++ [ (power_request tenant sd ed gran gb, Return d1) ]))
        = (Return tt, s3) ->
        combination_step World api fs tenant start_date end_date gran output
          all_data (gb, suffix) s
        = (Return (all_data ++ items d1), s3)).
Proof.
  intros Hs He H1 Hpos.
  unfold combination_step, try_except. cbn [fst snd].
  rewrite (combination_body_primary api fs tenant start_date end_date gran
             output sd ed Hs He gb suffix all_data s d1 w1 H1
             (any_positive_found d1 Hpos)).
  unfold bind. split.
  - pose proof (save_query_result_log fs output suffix d1
                  (mk_state World w1
                     (api_log World s
                      ++ [ (power_request tenant sd ed gran gb, Return d1) ]))) as L.
    destruct (save_query_result World fs output suffix d1 _) as [[u|e] s3];
      exact L.
  - intros s3 Hsave. rewrite Hsave. reflexivity.
Qed.

Lemma primary_data_skips_alternate_witness :
  combination_step Stub.world Stub.serve Stub.write_ok "tenancy" "2024-01-01"
    "2024-02-01" "MONTHLY" (Some "out.csv") [] ([ "service" ], "by_service")
    (Stub.start
       [ Return (mk_response [ Stub.rec "A" 2%float ] None None);
         Return (mk_response [ Stub.rec "B" 5%float ] None None) ])
  = (Return ([] ++ [ Stub.rec "A" 2%float ]),
     mk_state Stub.world
       [ Return (mk_response [ Stub.rec "B" 5%float ] None None) ]
       [ (power_request "tenancy" "2024-01-01T00:00:00Z" "2024-02-01T00:00:00Z"
            "MONTHLY" [ "service" ],
          Return (mk_response [ Stub.rec "A" 2%float ] None None)) ]).
Proof.
  apply (proj2 (primary_data_skips_alternate Stub.world Stub.serve
                  Stub.write_ok "tenancy" "2024-01-01" "2024-02-01" "MONTHLY"
                  "2024-01-01T00:00:00Z" "2024-02-01T00:00:00Z"
                  (Some "out.csv") [ "service" ] "by_service" []
                  (Stub.start
                     [ Return (mk_response [ Stub.rec "A" 2%float ] None None);
                       Return (mk_response [ Stub.rec "B" 5%float ] None None) ])
                  (mk_response [ Stub.rec "A" 2%float ] None None)
                  [ Return (mk_response [ Stub.rec "B" 5%float ] None None) ]
                  eq_refl eq_refl eq_refl eq_refl)).
  reflexivity.
Defined.

(** X9.  When the file of a combination cannot be written, the records
    just fetched for it are not added to the combined dataset, whether
    they came from the primary or from the alternate request; the
    iteration still ends normally. *)
Theorem failed_save_drops_records
    (World : Type) (api : request -> World -> result response * World)
    (fs : string -> list EmissionRecord -> World -> result unit * World)
    (tenant start_date end_date gran sd ed : string) (output : option string)
    (gb : list string) (suffix : string) (all_data : list EmissionRecord)
    (s : state World) :
  _parse_and_validate_datetime start_date = Return sd ->
  _parse_and_validate_datetime end_date = Return ed ->
  (forall d1 w1 e s3,
      api (power_request tenant sd ed gran gb) (world World s)
      = (Return d1, w1) ->
      any_positive (items d1) = true ->
      save_query_result World fs output suffix d1
        (mk_state World w1
           (api_log World s
            ++ [ (power_request tenant sd ed gran gb, Return d1) ]))
      = (Raise e, s3) ->
      combination_step World api fs tenant start_date end_date gran output
        all_data (gb, suffix) s
      = (Return all_data, s3))
  /\ (forall r1 w1 d2 w2 e s3,
         api (power_request tenant sd ed gran gb) (world World s) = (r1, w1) ->
         primary_found r1 = false ->
         api (spend_request tenant sd ed gran gb) w1 = (Return d2, w2) ->
         items d2 <> [] ->
         save_query_result World fs output suffix d2
           (mk_state World w2
              (api_log World s
               ++ [ (power_request tenant sd ed gran gb, r1);
                    (spend_request tenant sd ed gran gb, Return d2) ]))
         = (Raise e, s3) ->
         combination_step World api fs tenant start_date end_date gran output
           all_data (gb, suffix) s
         = (Return all_data, s3)).
Proof.
  intros Hs He. split.
  - intros d1 w1 e s3 H1 Hpos Hsave.
    unfold combination_step, try_except. cbn [fst snd].
    rewrite (combination_body_primary api fs tenant start_date end_date gran
               output sd ed Hs He gb suffix all_data s d1 w1 H1
               (any_positive_found d1 Hpos)).
    unfold bind. rewrite Hsave. reflexivity.
  - intros r1 w1 d2 w2 e s3 H1 Hnot H2 Hne Hsave.
    unfold combination_step, try_except. cbn [fst snd].
    rewrite (combination_body_fallback api fs tenant start_date end_date gran
               output sd ed Hs He gb suffix all_data s r1 (Return d2) w1 w2 H1
               Hnot H2).
    destruct (items d2) as [|i its] eqn:E; [congruence|].
    cbn [is_empty]. unfold bind. rewrite <- E, Hsave. reflexivity.
Qed.

Lemma failed_save_drops_records_witness :
  combination_step Stub.world Stub.serve write_failing "tenancy" "2024-01-01"
    "2024-02-01" "MONTHLY" (Some "out.csv") [ Stub.rec "kept" 1%float ]
    ([ "service" ], "by_service")
    (Stub.start [ Return (mk_response [ Stub.rec "A" 2%float ] None None) ])
  = (Return [ Stub.rec "kept" 1%float ],
     mk_state Stub.world []
       [ (power_request "tenancy" "2024-01-01T00:00:00Z" "2024-02-01T00:00:00Z"
            "MONTHLY" [ "service" ],
          Return (mk_response [ Stub.rec "A" 2%float ] None None)) ]).
Proof.
  apply (proj1 (failed_save_drops_records Stub.world Stub.serve write_failing
                  "tenancy" "2024-01-01" "2024-02-01" "MONTHLY"
                  "2024-01-01T00:00:00Z" "2024-02-01T00:00:00Z"
                  (Some "out.csv") [ "service" ] "by_service"
                  [ Stub.rec "kept" 1%float ]
                  (Stub.start
                     [ Return (mk_response [ Stub.rec "A" 2%float ] None None) ])
                  eq_refl eq_refl)
           (mk_response [ Stub.rec "A" 2%float ] None None) []
           (OSError "disk full")); reflexivity.
Defined.

Lemma after_combination_count
    {World : Type} (api : request -> World -> result response * World)
    (fs : string -> list EmissionRecord -> World -> result unit * World)
    (tenant start_date end_date gran sd ed : string) (output : option string)
    (c : list string * string) (s : state World) :
  _parse_and_validate_datetime start_date = Return sd ->
  _parse_and_validate_datetime end_date = Return ed ->
  exists t,
    api_log World
      (after_combination World api fs tenant start_date end_date gran output
         c s)
    = api_log World s ++ t
    /\ (1 <= List.length t <= 2)%nat.
Proof.
  intros Hs He. unfold after_combination.
  destruct (api (power_request tenant sd ed gran (fst c)) (world World s))
    as [r1 w1] eqn:H1.
  destruct (primary_found r1) eqn:Hfound.
  - destruct r1 as [d1|e1]; [|discriminate].
    rewrite (combination_body_primary api fs tenant start_date end_date gran
               output sd ed Hs He _ _ _ _ _ _ H1 Hfound).
    exists [ (power_request tenant sd ed gran (fst c), Return d1) ].
    split; [|cbn; lia]. unfold bind.
    pose proof (save_query_result_log fs output (snd c) d1
                  (mk_state World w1
                     (api_log World s
                      ++ [ (power_request tenant sd ed gran (fst c), Return d1) ]))) as L.
    destruct (save_query_result World fs output (snd c) d1 _) as [[u|e] s3];
      exact L.
  - destruct (api (spend_request tenant sd ed gran (fst c)) w1) as [r2 w2] eqn:H2.
    rewrite (combination_body_fallback api fs tenant start_date end_date gran
               output sd ed Hs He _ _ _ _ _ _ _ _ H1 Hfound H2).
    exists [ (power_request tenant sd ed gran (fst c), r1);
             (spend_request tenant sd ed gran (fst c), r2) ].
    split; [|cbn; lia].
    destruct r2 as [d2|e2]; [|reflexivity].
    destruct (is_empty (items d2)); [reflexivity|].
    unfold bind.
    pose proof (save_query_result_log fs output (snd c) d2
                  (mk_state World w2
                     (api_log World s
                      ++ [ (power_request tenant sd ed gran (fst c), r1);
                           (spend_request tenant sd ed gran (fst c), Return d2) ]))) as L.
    destruct (save_query_result World fs output (snd c) d2 _) as [[u|e] s3];
      exact L.
Qed.

(** X10.  With dates that parse, the loop over [n] combinations sends at
    least [n] and at most [2 * n] requests, so the multi-query branch
    sends between 4 and 8, whatever the client answers. *)
Theorem multi_query_request_count
    (World : Type) (api : request -> World -> result response * World)
    (fs : string -> list EmissionRecord -> World -> result unit * World)
    (tenant start_date end_date gran sd ed : string) (output : option string) :
  _parse_and_validate_datetime start_date = Return sd ->
  _parse_and_validate_datetime end_date = Return ed ->
  (forall combos all_data s,
      exists t,
        api_log World
          (snd (combinations_loop World api fs tenant start_date end_date gran
                  output combos all_data s))
        = api_log World s ++ t
        /\ (List.length combos <= List.length t <= 2 * List.length combos)%nat)
  /\ (forall spend_based s,
         exists t,
           api_log World
             (snd (multi_query_dataset World api fs tenant start_date end_date
                     gran output spend_based s))
           = api_log World s ++ t
           /\ (4 <= List.length t <= 8)%nat).
Proof.
  intros Hs He.
  assert (Loop : forall combos all_data s,
      exists t,
        api_log World
          (snd (combinations_loop World api fs tenant start_date end_date gran
                  output combos all_data s))
        = api_log World s ++ t
        /\ (List.length combos <= List.length t <= 2 * List.length combos)%nat).
  { intros combos all_data s. rewrite combinations_loop_spec. cbn [snd].
    revert s. induction combos as [|c combos IH]; intros s.
    - exists []. cbn. rewrite app_nil_r. split; [reflexivity | lia].
    - cbn [after_combinations].
      destruct (after_combination_count api fs tenant start_date end_date gran
                  sd ed output c s Hs He) as (t1 & L1 & B1).
      destruct (IH (after_combination World api fs tenant start_date end_date
                      gran output c s)) as (t2 & L2 & B2).
      exists (t1 ++ t2). split.
      + rewrite L2, L1, app_assoc. reflexivity.
      + rewrite length_app. cbn [List.length]. lia. }
  split; [exact Loop|].
  intros spend_based s.
  destruct (Loop (query_combinations spend_based) [] s) as (t & L & B).
  exists t. split.
  - unfold multi_query_dataset, bind.
    destruct (combinations_loop World api fs tenant start_date end_date gran
                output (query_combinations spend_based) [] s)
      as [[d|e] s'] eqn:E; cbn [snd] in L.
    + destruct (negb (is_empty d)); exact L.
    + exact L.
  - destruct spend_based; cbn in B; exact B.
Qed.

Lemma multi_query_request_count_witness :
  exists t,
    api_log Stub.world
      (snd (multi_query_dataset Stub.world Stub.serve Stub.write_ok "tenancy"
              "2024-01-01" "2024-02-01" "MONTHLY" None false
              (Stub.start [ Return (Stub.page 1 "a" false) ])))
    = [] ++ t
    /\ (4 <= List.length t <= 8)%nat.
Proof.
  exact (proj2 (multi_query_request_count Stub.world Stub.serve Stub.write_ok
                  "tenancy" "2024-01-01" "2024-02-01" "MONTHLY"
                  "2024-01-01T00:00:00Z" "2024-02-01T00:00:00Z" None
                  eq_refl eq_refl)
           false (Stub.start [ Return (Stub.page 1 "a" false) ])).
Defined.

(** *** The name of a combination's file *)

Lemma rsplit_dot_no_dot (s : string) :
  str_contains "." s = false -> rsplit_dot s = (s, None).
Proof.
  induction s as [|c s IH]; [reflexivity|].
  cbn [str_contains rsplit_dot]. intros H.
  apply orb_false_iff in H. destruct H as [Hc Hs].
  rewrite (IH Hs), Ascii.eqb_sym, Hc. reflexivity.
Qed.

Lemma rsplit_dot_last (base ext : string) :
  str_contains "." ext = false ->
  rsplit_dot (base ++ String "." ext) = (base, Some ext).
Proof.
  intros H. induction base as [|c base IH].
  - cbn [String.append rsplit_dot]. rewrite (rsplit_dot_no_dot ext H).
    reflexivity.
  - cbn [String.append rsplit_dot]. rewrite IH. reflexivity.
Qed.

(** X11.  The file of a combination is named after the output file: the
    suffix goes before the last extension, and an output name without a
    dot gets the suffix and the extension [csv]. *)
Theorem query_filename_shape :
  (forall base ext suffix,
      str_contains "." ext = false ->
      query_filename (base ++ "." ++ ext) suffix
      = (base ++ "_" ++ suffix ++ "." ++ ext)%string)
  /\ (forall output suffix,
         str_contains "." output = false ->
         query_filename output suffix
         = (output ++ "_" ++ suffix ++ ".csv")%string).
Proof.
  split.
  - intros base ext suffix H. unfold query_filename.
    change (base ++ "." ++ ext)%string with (base ++ String "." ext)%string.
    rewrite (rsplit_dot_last base ext H). reflexivity.
  - intros output suffix H. unfold query_filename.
    rewrite (rsplit_dot_no_dot output H). reflexivity.
Qed.

Lemma query_filename_shape_witness :
  query_filename "reports/2024.q1.csv" "power_based_service_compartment"
  = "reports/2024.q1_power_based_service_compartment.csv".
Proof.
  apply (proj1 query_filename_shape "reports/2024.q1" "csv"
           "power_based_service_compartment").
  reflexivity.
Defined.

(** ** ReportAggregator, again *)

Lemma accumulate_compartments (its : list EmissionRecord)
    (acc : Report.accumulators) :
  Report.compartment_emissions (fold_left (Report.accumulate true) its acc)
  = fold_left
      (fun d i => Report.dict_add (Report.compartment_key i) (emission_of i) d)
      its (Report.compartment_emissions acc).
Proof.
  revert acc. induction its as [|i its IH]; intros acc; simpl;
    [reflexivity | rewrite IH; reflexivity].
Qed.

(** What the two breakdowns of a summary list. *)
Lemma print_summary_entries (data : response) (g : bool) (r : Report.summary) :
  Report.print_summary data g = Some r ->
  items data <> []
  /\ Report.summary_records r = List.length (items data)
  /\ Report.summary_total r
     = fold_left (fun t i => PrimFloat.add t (emission_of i)) (items data)
                 PrimFloat.zero
  /\ entries (Report.summary_services r)
     = Report.sorted_desc (group_totals Report.service_key (items data))
  /\ entries (Report.summary_compartments r)
     = (if g
        then Report.sorted_desc
               (group_totals Report.compartment_key (items data))
        else [])
  /\ Forall (fun l =>
               Report.line_percentage l
               = Report.percentage (Report.summary_total r)
                   (Report.line_emissions l))
            (Report.summary_services r ++ Report.summary_compartments r).
Proof.
  unfold Report.print_summary. intros H.
  destruct (is_empty (items data)) eqn:Hempty; [discriminate|].
  injection H as <-.
  cbn [Report.summary_total Report.summary_services Report.summary_records
       Report.summary_compartments].
  rewrite accumulate_total, accumulate_services.
  cbn [Report.total_emissions Report.service_emissions].
  rewrite dict_fold_group_totals, entries_breakdown.
  split; [intros C; rewrite C in Hempty; discriminate|].
  split; [reflexivity|]. split; [reflexivity|].
  split; [reflexivity|]. split.
  - destruct g; [|reflexivity].
    rewrite accumulate_compartments.
    cbn [Report.compartment_emissions].
    rewrite dict_fold_group_totals, entries_breakdown. reflexivity.
  - apply Forall_app. split.
    + unfold Report.breakdown. apply Forall_forall. intros l Hl.
      apply in_map_iff in Hl. destruct Hl as (kv & <- & _). reflexivity.
    + destruct g; [|constructor].
      unfold Report.breakdown. apply Forall_forall. intros l Hl.
      apply in_map_iff in Hl. destruct Hl as (kv & <- & _). reflexivity.
Qed.

Lemma group_totals_names (key : EmissionRecord -> string)
    (its : list EmissionRecord) :
  map fst (group_totals key its) = first_occurrences (map key its).
Proof.
  unfold group_totals. rewrite map_map. cbn [fst]. apply map_id.
Qed.

Lemma entries_names (ls : list Report.line) :
  map fst (entries ls) = map Report.line_name ls.
Proof. unfold entries. rewrite map_map. reflexivity. Qed.

Lemma compartment_key_not_empty (i : EmissionRecord) :
  Report.compartment_key i <> EmptyString.
Proof.
  unfold Report.compartment_key, Report.str_truthy.
  destruct (compartment_name i) as [[|c n]|];
    destruct (compartment_id i) as [[|c' n']|]; discriminate.
Qed.

(** X12.  [print_summary] gives no summary exactly for a dataset without
    records.  Otherwise it counts the records and prints one line per
    service: the names of the lines are without repetition and are exactly
    the services of the records, [Unknown] standing for a record without
    service; without [group_by_compartments] there is no compartment
    line. *)
Theorem print_summary_one_line_per_service :
  (forall data g, Report.print_summary data g = None <-> items data = [])
  /\ (forall data g r,
         Report.print_summary data g = Some r ->
         Report.summary_records r = List.length (items data)
         /\ NoDup (map Report.line_name (Report.summary_services r))
         /\ (forall s,
               In s (map Report.line_name (Report.summary_services r))
               <-> exists i, In i (items data)
                             /\ match service i with
                                | Some n => n
                                | None => "Unknown"
                                end = s)
         /\ (g = false -> Report.summary_compartments r = [])).
Proof.
  split.
  - intros data g. unfold Report.print_summary.
    destruct (items data); cbn [is_empty]; split; intros H;
      try reflexivity; discriminate.
  - intros data g r H.
    pose proof (print_summary_entries data g r H)
      as (_ & Hrec & _ & Hserv & Hcomp & _).
    assert (Hperm : Permutation (map Report.line_name (Report.summary_services r))
                      (first_occurrences (map Report.service_key (items data)))).
    { rewrite <- entries_names, Hserv, <- group_totals_names.
      apply Permutation_map, sorted_desc_perm. }
    split; [exact Hrec|]. split.
    + apply (Permutation_NoDup (Permutation_sym Hperm)).
      apply first_occurrences_NoDup.
    + split.
      * intros s. split.
        -- intros Hin. apply (Permutation_in _ Hperm) in Hin.
           apply first_occurrences_In, in_map_iff in Hin.
           destruct Hin as (i & E & Hi). exists i. split; [exact Hi | exact E].
        -- intros (i & Hi & E).
           apply (Permutation_in _ (Permutation_sym Hperm)).
           apply first_occurrences_In, in_map_iff. exists i. split; assumption.
      * intros ->. unfold entries in Hcomp.
        destruct (Report.summary_compartments r); [reflexivity | discriminate].
Qed.

Lemma print_summary_one_line_per_service_witness :
  Report.summary_records
    {| Report.summary_total := 6; Report.summary_records := 3;
       Report.summary_compartments := [];
       Report.summary_services :=
         [ Report.mk_line "A" 5 (5 / 6 * 100)%float;
           Report.mk_line "Unknown" 1 (1 / 6 * 100)%float ] |}
  = 3%nat
  /\ NoDup [ "A"; "Unknown" ].
Proof.
  destruct (proj2 print_summary_one_line_per_service
              (mk_response
                 [ Stub.rec "A" 2%float;
                   mk_record None None None None None (Some 1%float);
                   Stub.rec "A" 3%float ] None None)
              false _ eq_refl) as (Hrec & Hnodup & _).
  split; [exact Hrec | exact Hnodup].
Defined.

(** X13.  With [group_by_compartments] the compartment lines are the
    compartments with the sums of their records' emissions in encounter
    order, a record being filed under its compartment name, else its
    compartment id, else [Root/Tenancy], so that no line has an empty
    name; each percentage is taken of the grand total; and, no sum being a
    NaN, the lines are in descending order of emissions, tied lines in the
    order of first encounter. *)
Theorem print_summary_compartment_breakdown (data : response) (r : Report.summary) :
  Report.print_summary data true = Some r ->
  Permutation (entries (Report.summary_compartments r))
              (group_totals Report.compartment_key (items data))
  /\ Forall (fun l => Report.line_name l <> EmptyString)
            (Report.summary_compartments r)
  /\ Forall (fun l =>
               Report.line_percentage l
               = Report.percentage (Report.summary_total r)
                   (Report.line_emissions l))
            (Report.summary_compartments r)
  /\ (Forall (fun e => not_nan (snd e))
             (entries (Report.summary_compartments r)) ->
      StronglySorted not_below (entries (Report.summary_compartments r))
      /\ forall v, not_nan v ->
           List.filter (tied v) (entries (Report.summary_compartments r))
           = List.filter (tied v)
               (group_totals Report.compartment_key (items data))).
Proof.
  intros H.
  pose proof (print_summary_entries data true r H)
    as (_ & _ & _ & _ & Hcomp & Hpct).
  assert (Hperm : Permutation (entries (Report.summary_compartments r))
                    (group_totals Report.compartment_key (items data)))
    by (rewrite Hcomp; apply sorted_desc_perm).
  split; [exact Hperm|]. split.
  - assert (Hnames : Forall (fun s => s <> EmptyString)
                       (map Report.line_name (Report.summary_compartments r))).
    { rewrite <- entries_names.
      apply Forall_forall. intros s Hs.
      apply (Permutation_in _ (Permutation_map fst Hperm)) in Hs.
      rewrite group_totals_names in Hs.
      apply first_occurrences_In, in_map_iff in Hs.
      destruct Hs as (i & <- & _). apply compartment_key_not_empty. }
    apply Forall_forall. intros l Hl. rewrite Forall_forall in Hnames.
    apply Hnames, in_map, Hl.
  - split.
    + apply Forall_app in Hpct. tauto.
    + intros Hn. rewrite Hcomp in *.
      assert (Hd : Forall (fun e => not_nan (snd e))
                          (group_totals Report.compartment_key (items data))).
      { rewrite <- (sorted_desc_perm
                      (group_totals Report.compartment_key (items data))).
        exact Hn. }
      split; [apply sorted_desc_sorted; exact Hd|].
      intros v Hv. apply sorted_desc_stable; assumption.
Qed.

Lemma print_summary_compartment_breakdown_witness :
  Permutation
    [ ("Root/Tenancy", 4%float); ("dev", 2%float) ]
    (group_totals Report.compartment_key
       [ mk_record (Some "A") (Some "dev") (Some "ocid1") None None (Some 2%float);
         mk_record (Some "B") (Some "") None None None (Some 4%float) ]).
Proof.
  exact (proj1 (print_summary_compartment_breakdown
                  (mk_response
                     [ mk_record (Some "A") (Some "dev") (Some "ocid1") None
                         None (Some 2%float);
                       mk_record (Some "B") (Some "") None None None
                         (Some 4%float) ] None None)
                  _ eq_refl)).
Defined.

(** ** DateNormalizer, again *)

(** X14.  A date written [YYYY-MM-DD] with a day that exists in its month
    is normalised to the first instant of that month of that year, the
    year as [%Y] prints it: in four digits from the year 1000 on, without
    leading zeros before.  With a day past the end of the month (30
    February) it is refused with a [ValueError], not moved into the
    month. *)
Theorem normalize_date_only (y m d : Z) :
  (1 <= y <= 9999)%Z -> (1 <= m <= 12)%Z -> (1 <= d <= 31)%Z ->
  ((d <= days_in_month y m)%Z ->
   _parse_and_validate_datetime (date_text y m d)
   = Return (year_text y ++ "-" ++ pad2 m ++ "-01T00:00:00Z")%string)
  /\ ((d <= days_in_month y m)%Z -> (1000 <= y)%Z ->
      _parse_and_validate_datetime (date_text y m d)
      = Return (pad4 y ++ "-" ++ pad2 m ++ "-01T00:00:00Z")%string)
  /\ ((days_in_month y m < d)%Z ->
      exists msg,
        _parse_and_validate_datetime (date_text y m d)
        = Raise (ValueError msg)).
Proof.
  intros Hy Hm Hd. split; [|split].
  - intros Hle. apply normalize_date_text; lia.
  - intros Hle H1000. rewrite normalize_date_text by lia.
    rewrite (first_instant_text_month_start y m H1000). reflexivity.
  - intros Hgt. unfold _parse_and_validate_datetime.
    rewrite str_contains_T_date_text, strptime_ymd_date_text by lia.
    unfold datetime_new.
    replace (valid_fields (mk_datetime y m d 0 0 0 0 None)) with false.
    + eauto.
    + symmetry. apply not_true_is_false. intros V.
      apply valid_fields_spec in V. cbn in V. lia.
Qed.

Lemma normalize_date_only_witness :
  _parse_and_validate_datetime "2024-02-29" = Return "2024-02-01T00:00:00Z"
  /\ _parse_and_validate_datetime "0999-05-17" = Return "999-05-01T00:00:00Z"
  /\ exists msg,
       _parse_and_validate_datetime "2023-02-29" = Raise (ValueError msg).
Proof.
  split; [|split].
  - apply (proj1 (proj2 (normalize_date_only 2024 2 29 ltac:(lia) ltac:(lia)
                           ltac:(lia)))); [reflexivity | lia].
  - apply (proj1 (normalize_date_only 999 5 17 ltac:(lia) ltac:(lia)
                    ltac:(lia))). cbn. lia.
  - apply (proj2 (proj2 (normalize_date_only 2023 2 29 ltac:(lia) ltac:(lia)
                           ltac:(lia)))). reflexivity.
Defined.

(** From the year 1000 on [strftime] prints the date in the form
    [YYYY-MM-DD]. *)
Lemma date_text_first (y m : Z) :
  (1000 <= y)%Z ->
  (year_text y ++ "-" ++ pad2 m ++ "-01")%string = date_text y m 1.
Proof. intros H. rewrite (year_text_pad4 y H). reflexivity. Qed.

Lemma date_range_general (today : datetime) (period : string) (k : Z) :
  valid_fields today = true -> (2 <= year today)%Z ->
  (period = "last_month" /\ k = 1%Z)
  \/ (period = "last_3_months" /\ k = 3%Z) ->
  exists ys ms,
    calculate_first_day_date_range today period
    = Return ((year_text ys ++ "-" ++ pad2 ms ++ "-01")%string,
              (year_text (year today) ++ "-" ++ pad2 (month today)
               ++ "-01")%string)
    /\ (1 <= ms <= 12)%Z
    /\ (12 * ys + ms = 12 * year today + month today - k)%Z.
Proof.
  intros Hv Hy Hp.
  pose proof (proj1 (valid_fields_spec today) Hv) as V.
  destruct V as (Vy & Vm & Vd & Vh & Vmi & Vs & Vus & Vtz).
  unfold calculate_first_day_date_range.
  rewrite (replace_day_first today Hv).
  destruct Hp as [[-> ->]|[-> ->]]; cbn [String.eqb Ascii.eqb Bool.eqb];
    cbn [year month day hour minute second microsecond tzinfo].
  - destruct (Z.eqb_spec (month today) 1) as [E|NE].
    + exists (year today - 1)%Z, 12%Z.
      unfold replace_year_month.
      rewrite datetime_new_valid.
      * split; [reflexivity | lia].
      * apply valid_fields_spec. simpl.
        pose proof (days_in_month_ge (year today - 1) 12).
        repeat split; try lia; exact Vtz.
    + exists (year today), (month today - 1)%Z.
      unfold replace_month.
      rewrite datetime_new_valid.
      * split; [reflexivity | lia].
      * apply valid_fields_spec. simpl.
        pose proof (days_in_month_ge (year today) (month today - 1)).
        repeat split; try lia; exact Vtz.
  - destruct (Z.leb_spec (month today - 3) 0) as [L|G].
    + exists (year today - 1)%Z, (month today - 3 + 12)%Z.
      rewrite datetime_new_valid.
      * split; [reflexivity | lia].
      * apply first_of_month_valid; [lia | lia | exact I].
    + exists (year today), (month today - 3)%Z.
      rewrite datetime_new_valid.
      * split; [reflexivity | lia].
      * apply first_of_month_valid; [lia | lia | exact I].
Qed.

(** The range of a clock of the year 1001 or later, in that form. *)
Lemma date_range_four_digits (today : datetime) (period : string) :
  valid_fields today = true -> (1001 <= year today)%Z ->
  period = "last_month" \/ period = "last_3_months" ->
  exists ys ms,
    calculate_first_day_date_range today period
    = Return (date_text ys ms 1, date_text (year today) (month today) 1)
    /\ (1000 <= ys <= 9999)%Z /\ (1 <= ms <= 12)%Z.
Proof.
  intros Hv Hy Hp.
  pose proof (proj1 (valid_fields_spec today) Hv) as V.
  destruct V as (Vy & Vm & _).
  assert (Hk : exists k, ((period = "last_month" /\ k = 1%Z)
                          \/ (period = "last_3_months" /\ k = 3%Z))).
  { destruct Hp as [->| ->]; [exists 1%Z | exists 3%Z]; auto. }
  destruct Hk as (k & Hk).
  destruct (date_range_general today period k Hv ltac:(lia) Hk)
    as (ys & ms & E & Hms & Hidx).
  assert (Hys : (1000 <= ys <= 9999)%Z) by (destruct Hk as [[_ ->]|[_ ->]]; lia).
  exists ys, ms. split; [|split; [exact Hys | exact Hms]].
  rewrite E, !date_text_first by lia. reflexivity.
Qed.

(** X15.  With the clock in the year 1001 or later, the two dates
    [calculate_first_day_date_range] returns are accepted by the normaliser
    as they are: each is normalised to itself followed by [T00:00:00Z], so
    a query for a relative period is never refused for its dates and never
    has them moved. *)
Theorem date_range_is_normalised (today : datetime) (period : string) :
  valid_fields today = true -> (1001 <= year today)%Z ->
  period = "last_month" \/ period = "last_3_months" ->
  exists start_date end_date,
    calculate_first_day_date_range today period
    = Return (start_date, end_date)
    /\ _parse_and_validate_datetime start_date
       = Return (start_date ++ "T00:00:00Z")%string
    /\ _parse_and_validate_datetime end_date
       = Return (end_date ++ "T00:00:00Z")%string.
Proof.
  intros Hv Hy Hp.
  pose proof (proj1 (valid_fields_spec today) Hv) as V.
  destruct V as (Vy & Vm & _).
  destruct (date_range_four_digits today period Hv Hy Hp)
    as (ys & ms & E & Hys & Hms).
  exists (date_text ys ms 1), (date_text (year today) (month today) 1).
  split; [exact E|].
  split.
  - rewrite normalize_date_text;
      [| lia | lia | pose proof (days_in_month_ge ys ms); lia].
    rewrite first_instant_text_month_start by lia.
    unfold month_start, date_text. rewrite <- !str_append_assoc. reflexivity.
  - rewrite normalize_date_text;
      [| lia | lia
       | pose proof (days_in_month_ge (year today) (month today)); lia].
    rewrite first_instant_text_month_start by lia.
    unfold month_start, date_text. rewrite <- !str_append_assoc. reflexivity.
Qed.

Lemma date_range_is_normalised_witness :
  exists start_date end_date,
    calculate_first_day_date_range (mk_datetime 2024 1 10 9 30 0 0 None)
      "last_3_months"
    = Return (start_date, end_date)
    /\ _parse_and_validate_datetime start_date
       = Return (start_date ++ "T00:00:00Z")%string
    /\ _parse_and_validate_datetime end_date
       = Return (end_date ++ "T00:00:00Z")%string.
Proof.
  apply date_range_is_normalised; [reflexivity | cbn; lia | right; reflexivity].
Defined.

(** ** [main]: the checks before the retrieval *)

Lemma digit_not_T (c : ascii) (d : Z) :
  digit c = Some d -> Ascii.eqb "T" c = false.
Proof.
  intros H. destruct (Ascii.eqb_spec "T" c) as [<-|]; [|reflexivity].
  vm_compute in H. discriminate H.
Qed.

Lemma reads_refl (s : string) : reads_without_T s s.
Proof. exists EmptyString. split; reflexivity. Qed.

Lemma reads_trans (s r t : string) :
  reads_without_T s r -> reads_without_T r t -> reads_without_T s t.
Proof.
  intros (p & -> & Hp) (q & -> & Hq). exists (p ++ q)%string. split.
  - apply str_append_assoc.
  - rewrite str_contains_app, Hp, Hq. reflexivity.
Qed.

Lemma reads_cons (c : ascii) (s r : string) :
  Ascii.eqb "T" c = false -> reads_without_T s r ->
  reads_without_T (String c s) r.
Proof.
  intros Hc (p & -> & Hp). exists (String c p). split; [reflexivity|].
  cbn [str_contains]. rewrite Hc, Hp. reflexivity.
Qed.

Lemma take_digits_reads (n : nat) :
  forall acc s v r,
    take_digits n acc s = Some (v, r) -> reads_without_T s r.
Proof.
  induction n as [|n IH]; intros acc s v r H; cbn [take_digits] in H.
  - injection H as _ <-. apply reads_refl.
  - destruct s as [|c s]; [discriminate|].
    destruct (digit c) as [d|] eqn:D; [|discriminate].
    apply reads_cons; [apply (digit_not_T c d D) | apply (IH _ _ _ _ H)].
Qed.

Lemma expect_dash_reads (s r : string) :
  expect "-" s = Some r -> reads_without_T s r.
Proof.
  destruct s as [|c s]; cbn [expect]; [discriminate|].
  destruct (Ascii.eqb_spec "-" c) as [<-|]; [|discriminate].
  intros H. injection H as <-. apply reads_cons; [reflexivity | apply reads_refl].
Qed.

Ltac reads_done :=
  match goal with
  | H : Some (_, _) = Some (_, _) |- _ => injection H as <- <-
  | H : Some _ = None |- _ => discriminate H
  | H : None = Some _ |- _ => discriminate H
  end.

Ltac reads_step :=
  first
    [ apply reads_refl
    | apply reads_cons;
      [ first [ eapply digit_not_T; eassumption | reflexivity ] | ] ].

Lemma strptime_month_reads (s r : string) (m : Z) :
  strptime_month s = Some (m, r) -> reads_without_T s r.
Proof.
  unfold strptime_month.
  destruct s as [|c1 [|c2 rest]]; [discriminate| |].
  - destruct (digit c1) as [[|[q|q|]|q]|] eqn:D1; cbn;
      intros H; try discriminate H;
      try (destruct (1 <=? _)%Z; [|discriminate H]);
      injection H as <- <-; repeat reads_step.
  - destruct (digit c1) as [[|[q|q|]|q]|] eqn:D1;
      destruct (digit c2) as [d2|] eqn:D2; cbn;
      intros H; try discriminate H;
      repeat match type of H with
             | (if ?b then _ else _) = _ => destruct b
             end;
      try discriminate H;
      injection H as <- <-; repeat reads_step.
Qed.

Lemma space_not_T (c : ascii) : Ascii.eqb c " " = true -> Ascii.eqb "T" c = false.
Proof. intros H. apply Ascii.eqb_eq in H. subst. reflexivity. Qed.

Lemma strptime_day_reads (s r : string) (d : Z) :
  strptime_day s = Some (d, r) -> reads_without_T s r.
Proof.
  unfold strptime_day.
  destruct s as [|c1 [|c2 rest]]; [discriminate| |].
  - destruct (digit c1) as [[|[[q|q|]|q|]|q]|] eqn:D1; cbn;
      intros H; try discriminate H;
      repeat match type of H with
             | (if ?b then _ else _) = _ => destruct b
             end;
      try discriminate H;
      injection H as <- <-; repeat reads_step.
  - destruct (digit c1) as [[|[[q|q|]|q|]|q]|] eqn:D1;
      destruct (digit c2) as [d2|] eqn:D2;
      destruct (Ascii.eqb c1 " ") eqn:Sp; cbn;
      intros H; try discriminate H;
      repeat match type of H with
             | (if ?b then _ else _) = _ => destruct b
             end;
      try discriminate H;
      injection H as <- <-;
      repeat first
        [ apply reads_refl
        | apply reads_cons;
          [ first [ eapply digit_not_T; eassumption
                  | apply space_not_T; assumption
                  | reflexivity ] | ] ].
Qed.

(** What [strptime] accepts for [%Y-%m-%d] has no letter T. *)
Lemma strptime_ymd_no_T (s : string) (dt : datetime) :
  strptime_ymd s = Return dt -> str_contains "T" s = false.
Proof.
  unfold strptime_ymd.
  destruct (take_digits 4 0 s) as [[y r0]|] eqn:E0; [|discriminate].
  destruct (expect "-" r0) as [r1|] eqn:E1; [|discriminate].
  destruct (strptime_month r1) as [[m r2]|] eqn:E2; [|discriminate].
  destruct (expect "-" r2) as [r3|] eqn:E3; [|discriminate].
  destruct (strptime_day r3) as [[d [|c r4]]|] eqn:E4; try discriminate.
  intros _.
  assert (R : reads_without_T s EmptyString).
  { eapply reads_trans; [apply (take_digits_reads _ _ _ _ _ E0)|].
    eapply reads_trans; [apply (expect_dash_reads _ _ E1)|].
    eapply reads_trans; [apply (strptime_month_reads _ _ _ E2)|].
    eapply reads_trans; [apply (expect_dash_reads _ _ E3)|].
    apply (strptime_day_reads _ _ _ E4). }
  destruct R as (p & -> & Hp).
  rewrite str_contains_app, Hp. reflexivity.
Qed.

Lemma strptime_ymd_valid (s : string) (dt : datetime) :
  strptime_ymd s = Return dt ->
  valid_fields dt = true /\ tzinfo dt = None.
Proof.
  unfold strptime_ymd.
  destruct (take_digits 4 0 s) as [[y r0]|]; [|discriminate].
  destruct (expect "-" r0) as [r1|]; [|discriminate].
  destruct (strptime_month r1) as [[m r2]|]; [|discriminate].
  destruct (expect "-" r2) as [r3|]; [|discriminate].
  destruct (strptime_day r3) as [[d [|c r4]]|]; try discriminate.
  intros H. apply datetime_new_inv in H. destruct H as [-> V].
  split; [exact V | reflexivity].
Qed.

(** A date [strptime] accepts is normalised to the start of its month. *)
Lemma normalize_strptime (s : string) (dt : datetime) :
  strptime_ymd s = Return dt ->
  _parse_and_validate_datetime s
  = Return (first_instant_text (year dt) (month dt)).
Proof.
  intros H. unfold _parse_and_validate_datetime.
  rewrite (strptime_ymd_no_T s dt H), H.
  destruct (strptime_ymd_valid s dt H) as [V Tz].
  apply valid_fields_spec in V. destruct V as (Vy & Vm & _).
  unfold replace_first_midnight. rewrite Tz.
  rewrite datetime_new_valid by (apply first_of_month_valid; [lia | lia | exact I]).
  rewrite strftime_api_first. reflexivity.
Qed.

Lemma first_of_month_text_spec (s : string) (dt : datetime) (t : string) :
  strptime_ymd s = Return dt ->
  (1000 <= year dt)%Z ->
  Cli.first_of_month_text s dt = Some t ->
  exists dt',
    strptime_ymd t = Return dt' /\ day dt' = 1%Z
    /\ year dt' = year dt /\ month dt' = month dt.
Proof.
  intros H Hy. unfold Cli.first_of_month_text.
  destruct (strptime_ymd_valid s dt H) as [V Tz].
  destruct (Z.eqb_spec (day dt) 1) as [E|NE]; cbn [negb].
  - intros T. injection T as <-. exists dt. auto.
  - rewrite (replace_day_first dt V). intros T. injection T as <-.
    apply valid_fields_spec in V. destruct V as (Vy & Vm & _).
    exists (mk_datetime (year dt) (month dt) 1 0 0 0 0 None).
    split; [|auto].
    change (strftime_date _)
      with (year_text (year dt) ++ "-" ++ pad2 (month dt) ++ "-01")%string.
    rewrite (date_text_first _ _ Hy).
    rewrite strptime_ymd_date_text by lia.
    apply datetime_new_valid, first_of_month_valid; [lia | lia | exact I].
Qed.

Lemma first_of_month_text_fixed (t : string) (dt : datetime) :
  day dt = 1%Z -> Cli.first_of_month_text t dt = Some t.
Proof.
  intros E. unfold Cli.first_of_month_text. rewrite E. reflexivity.
Qed.

(** X16.  When [main]'s check lets two dates through, each of them, when
    its year is 1000 or later, has become a date the normaliser accepts
    and normalises to the first instant of the month of the date that was
    given, so the queries that follow are not refused for their dates; and
    the check lets its own result through unchanged. *)
Theorem checked_dates_are_accepted
    (start_date_str end_str s' e' : string) :
  Cli.check_dates start_date_str (Some end_str) = Cli.DatesChecked s' e' ->
  exists start_dt end_dt,
    strptime_ymd start_date_str = Return start_dt
    /\ strptime_ymd end_str = Return end_dt
    /\ ((1000 <= year start_dt)%Z ->
        _parse_and_validate_datetime s'
        = Return (pad4 (year start_dt) ++ "-" ++ pad2 (month start_dt)
                  ++ "-01T00:00:00Z")%string)
    /\ ((1000 <= year end_dt)%Z ->
        _parse_and_validate_datetime e'
        = Return (pad4 (year end_dt) ++ "-" ++ pad2 (month end_dt)
                  ++ "-01T00:00:00Z")%string)
    /\ ((1000 <= year start_dt)%Z -> (1000 <= year end_dt)%Z ->
        Cli.check_dates s' (Some e') = Cli.DatesChecked s' e').
Proof.
  unfold Cli.check_dates at 1.
  destruct (strptime_ymd start_date_str) as [sdt|] eqn:Ps; [|discriminate].
  destruct (strptime_ymd end_str) as [edt|] eqn:Pe; [|discriminate].
  destruct (Cli.first_of_month_text start_date_str sdt) as [s1|] eqn:Fs;
    [|discriminate].
  destruct (Cli.first_of_month_text end_str edt) as [e1|] eqn:Fe;
    [|discriminate].
  intros H. injection H as <- <-.
  exists sdt, edt. split; [reflexivity|]. split; [reflexivity|].
  split; [|split].
  - intros Hy.
    destruct (first_of_month_text_spec _ _ _ Ps Hy Fs)
      as (sdt' & Ps' & Ds & Ys & Ms).
    rewrite (normalize_strptime _ _ Ps'), Ys, Ms.
    rewrite first_instant_text_month_start by exact Hy. reflexivity.
  - intros Hy.
    destruct (first_of_month_text_spec _ _ _ Pe Hy Fe)
      as (edt' & Pe' & De & Ye & Me).
    rewrite (normalize_strptime _ _ Pe'), Ye, Me.
    rewrite first_instant_text_month_start by exact Hy. reflexivity.
  - intros Hys Hye.
    destruct (first_of_month_text_spec _ _ _ Ps Hys Fs)
      as (sdt' & Ps' & Ds & _).
    destruct (first_of_month_text_spec _ _ _ Pe Hye Fe)
      as (edt' & Pe' & De & _).
    unfold Cli.check_dates. rewrite Ps', Pe'.
    rewrite (first_of_month_text_fixed _ _ Ds), (first_of_month_text_fixed _ _ De).
    reflexivity.
Qed.

Lemma checked_dates_are_accepted_witness :
  _parse_and_validate_datetime "2024-03-01" = Return "2024-03-01T00:00:00Z"
  /\ Cli.check_dates "2024-03-01" (Some "2024-4-1")
     = Cli.DatesChecked "2024-03-01" "2024-4-1".
Proof.
  destruct (checked_dates_are_accepted "2024-03-15" "2024-4-1" "2024-03-01"
              "2024-4-1" eq_refl)
    as (sdt & edt & Ps & Pe & Hs & _ & Hfix).
  injection Ps as <-. injection Pe as <-.
  split; [apply Hs; cbn; lia | apply Hfix; cbn; lia].
Defined.

Lemma choice_power_or_spend_only (f : string) :
  str_in f Cli.group_by_choices = true ->
  str_in f Cli.spend_based_only_fields = false ->
  str_in f GroupBy.power_based_supported = true.
Proof.
  intros H. apply str_in_In in H. cbn in H.
  repeat (destruct H as [<-|H]; [first [reflexivity | discriminate]|]).
  destruct H.
Qed.

Lemma choice_spend_supported (f : string) :
  str_in f Cli.group_by_choices = true ->
  str_in f GroupBy.spend_based_supported = true.
Proof.
  intros H. apply str_in_In in H. cbn in H.
  repeat (destruct H as [<-|H]; [reflexivity|]). destruct H.
Qed.

Lemma filter_nil_Forall {A : Type} (f : A -> bool) (l : list A) :
  List.filter f l = [] -> Forall (fun x => f x = false) l.
Proof.
  induction l as [|x l IH]; cbn [List.filter]; intros H; [constructor|].
  destruct (f x) eqn:E; [discriminate|]. constructor; auto.
Qed.

Lemma Forall_filter_negb {A : Type} (f : A -> bool) (l : list A) :
  Forall (fun x => f x = false) (List.filter (fun x => negb (f x)) l).
Proof.
  apply Forall_forall. intros x H. apply filter_In in H.
  destruct H as [_ H]. destruct (f x); [discriminate | reflexivity].
Qed.

Lemma filter_group_by_supported (m : string) (group_by : list string) :
  Forall (fun f => str_in f Cli.group_by_choices = true) group_by ->
  Forall (fun f => str_in f (GroupBy.capability_set m) = true)
         (Cli.filter_group_by m group_by).
Proof.
  intros Hall. unfold Cli.filter_group_by, GroupBy.capability_set.
  destruct (String.eqb m "POWER_BASED").
  - destruct (List.filter (fun field => str_in field Cli.spend_based_only_fields)
                          group_by) as [|x inv] eqn:E; cbn [is_empty negb].
    + apply filter_nil_Forall in E.
      rewrite Forall_forall in *. intros f Hf.
      apply choice_power_or_spend_only; [apply Hall | apply E]; exact Hf.
    + destruct (List.filter (fun field =>
                 negb (str_in field Cli.spend_based_only_fields)) group_by)
        as [|y kept] eqn:K; cbn [is_empty].
      * repeat constructor.
      * rewrite <- K. apply Forall_forall. intros f Hf.
        apply filter_In in Hf. destruct Hf as [Hin Hf].
        apply choice_power_or_spend_only.
        -- rewrite Forall_forall in Hall. apply Hall, Hin.
        -- destruct (str_in f Cli.spend_based_only_fields);
             [discriminate | reflexivity].
  - rewrite Forall_forall in *. intros f Hf.
    apply choice_spend_supported, Hall, Hf.
Qed.

Lemma filter_group_by_nonempty (m : string) (group_by : list string) :
  group_by <> [] -> Cli.filter_group_by m group_by <> [].
Proof.
  intros Hne. unfold Cli.filter_group_by.
  destruct (String.eqb m "POWER_BASED"); [|exact Hne].
  destruct (negb (is_empty _)); [|exact Hne].
  destruct (List.filter _ group_by); cbn [is_empty]; discriminate.
Qed.

Lemma compartment_name_supported (m : string) :
  str_in "compartmentName" (GroupBy.capability_set m) = true.
Proof.
  unfold GroupBy.capability_set. destruct (String.eqb m "POWER_BASED"); reflexivity.
Qed.

(** X17.  After [main]'s checks of the grouping (the requested fields being
    among the choices of [--group-by], as the argument parser ensures):
    every remaining field is one the calculation method supports, a
    non-empty request stays non-empty, [--by-compartments] puts
    [compartmentName] among the fields, a compartment field among them
    comes with a compartment depth, and the depth is never above 7. *)
Theorem resolved_grouping_is_supported
    (calculation_method : string) (by_compartments : bool)
    (group_by : list string) (compartment_depth : option Z) :
  Forall (fun f => str_in f Cli.group_by_choices = true) group_by ->
  let resolved :=
    Cli.resolve_grouping calculation_method by_compartments group_by
                         compartment_depth in
  Forall (fun f => str_in f (GroupBy.capability_set calculation_method) = true)
         (fst resolved)
  /\ (group_by <> [] \/ by_compartments = true -> fst resolved <> [])
  /\ (by_compartments = true -> In "compartmentName" (fst resolved))
  /\ (In "compartmentName" (fst resolved) \/ In "compartmentId" (fst resolved) ->
      snd resolved <> None)
  /\ (forall d, snd resolved = Some d -> (d <= 7)%Z).
Proof.
  intros Hall resolved. subst resolved. unfold Cli.resolve_grouping.
  cbn [fst snd].
  pose proof (filter_group_by_supported calculation_method group_by Hall) as Hsup.
  pose proof (filter_group_by_nonempty calculation_method group_by) as Hne.
  set (g := Cli.filter_group_by calculation_method group_by) in *.
  split; [|split; [|split; [|split]]].
  - unfold Cli.compartment_group_by.
    destruct by_compartments; cbn [andb]; [|exact Hsup].
    destruct (is_empty g).
    + repeat constructor;
        [apply compartment_name_supported | apply service_supported].
    + destruct (negb (str_in "compartmentName" g)); [|exact Hsup].
      constructor; [apply compartment_name_supported | exact Hsup].
  - intros H. unfold Cli.compartment_group_by.
    destruct by_compartments; cbn [andb].
    + destruct (is_empty g); [discriminate|].
      destruct (negb (str_in "compartmentName" g)) eqn:E; [discriminate|].
      intros Hg. rewrite Hg in E. discriminate E.
    + destruct H as [H|H]; [apply Hne, H | discriminate H].
  - intros ->. unfold Cli.compartment_group_by. cbn [andb].
    destruct (is_empty g); [left; reflexivity|].
    destruct (str_in "compartmentName" g) eqn:E; cbn [negb].
    + apply str_in_In, E.
    + left; reflexivity.
  - intros H. unfold Cli.resolve_compartment_depth.
    set (g' := Cli.compartment_group_by by_compartments g) in *.
    assert (T : str_in "compartmentName" g' || str_in "compartmentId" g' = true).
    { apply orb_true_iff. destruct H as [H|H]; [left|right]; apply str_in_In, H. }
    rewrite T. cbn [andb].
    destruct compartment_depth as [d|].
    + destruct (int_truthy (Some d) && (7 <? d)%Z); discriminate.
    + cbn. discriminate.
  - intros d. unfold Cli.resolve_compartment_depth.
    set (g' := Cli.compartment_group_by by_compartments g).
    destruct ((str_in "compartmentName" g' || str_in "compartmentId" g')
              && match compartment_depth with None => true | Some _ => false end).
    + cbn. intros E. injection E as <-. lia.
    + destruct compartment_depth as [d0|]; [|discriminate].
      unfold int_truthy.
      destruct (Z.ltb_spec 7 d0) as [Hd|Hd];
        destruct (Z.eqb_spec d0 0) as [Hz|Hz];
        cbn [andb negb]; intros E; injection E as <-; lia.
Qed.

Lemma resolved_grouping_is_supported_witness :
  Forall (fun f => str_in f Cli.group_by_choices = true)
         [ "skuName"; "region" ]
  /\ Cli.resolve_grouping "POWER_BASED" true [ "skuName"; "region" ] (Some 9%Z)
     = ([ "compartmentName"; "region" ], Some 7%Z)
  /\ Forall (fun f => str_in f (GroupBy.capability_set "POWER_BASED") = true)
            [ "compartmentName"; "region" ].
Proof.
  assert (H : Forall (fun f => str_in f Cli.group_by_choices = true)
                     [ "skuName"; "region" ]) by (repeat constructor).
  split; [exact H|]. split; [reflexivity|].
  exact (proj1 (resolved_grouping_is_supported
                  "POWER_BASED" true [ "skuName"; "region" ] (Some 9%Z) H)).
Defined.

(** ** [save_to_csv]: the header *)

Lemma nodup_fixed (l : list string) :
  nodup String.string_dec l = l -> NoDup l.
Proof. intros <-. apply NoDup_nodup. Qed.

(** X18.  The header [save_to_csv] writes never names a column twice and
    keeps the sixteen fixed columns in their order; an optional column is
    in the header exactly when the first record has a value for it, and
    then at its own place whatever the other three do: [tenant_id] first,
    [tenant_name] second, [compartment_id] third, [compartment_path]
    fourth. *)
Theorem csv_header_columns
    (tenant_id tenant_name compartment_id compartment_path : option string) :
  NoDup (Csv.fieldnames tenant_id tenant_name compartment_id compartment_path)
  /\ List.filter (fun f => str_in f Csv.base_fieldnames)
       (Csv.fieldnames tenant_id tenant_name compartment_id compartment_path)
     = Csv.base_fieldnames
  /\ List.length
       (Csv.fieldnames tenant_id tenant_name compartment_id compartment_path)
     = (16 + Nat.b2n (token_truthy tenant_id)
        + Nat.b2n (token_truthy tenant_name)
        + Nat.b2n (token_truthy compartment_id)
        + Nat.b2n (token_truthy compartment_path))%nat
  /\ List.map
       (fun f => str_in f (Csv.fieldnames tenant_id tenant_name
                             compartment_id compartment_path))
       [ "tenant_id"; "tenant_name"; "compartment_id"; "compartment_path" ]
     = [ token_truthy tenant_id; token_truthy tenant_name;
         token_truthy compartment_id; token_truthy compartment_path ]
  /\ (token_truthy tenant_id = true ->
      nth_error (Csv.fieldnames tenant_id tenant_name compartment_id
                   compartment_path) 0 = Some "tenant_id")
  /\ (token_truthy tenant_name = true ->
      nth_error (Csv.fieldnames tenant_id tenant_name compartment_id
                   compartment_path) 1 = Some "tenant_name")
  /\ (token_truthy compartment_id = true ->
      nth_error (Csv.fieldnames tenant_id tenant_name compartment_id
                   compartment_path) 2 = Some "compartment_id")
  /\ (token_truthy compartment_path = true ->
      nth_error (Csv.fieldnames tenant_id tenant_name compartment_id
                   compartment_path) 3 = Some "compartment_path").
Proof.
  unfold Csv.fieldnames.
  destruct (token_truthy tenant_id), (token_truthy tenant_name),
    (token_truthy compartment_id), (token_truthy compartment_path);
    (split; [apply nodup_fixed; vm_compute; reflexivity|]);
    repeat split;
    intros H; first [reflexivity | discriminate H].
Qed.

(** ** [main]: the modes *)

Lemma default_output_truthy (prefix now : string) (output : option string) :
  token_truthy (Modes.default_output prefix now output) = true.
Proof.
  unfold Modes.default_output.
  destruct (token_truthy output) eqn:E; cbn [negb]; [exact E|].
  destruct prefix; [destruct now|]; reflexivity.
Qed.

Lemma default_output_given (prefix now : string) (output : option string) :
  token_truthy output = true -> Modes.default_output prefix now output = output.
Proof. unfold Modes.default_output. intros ->. reflexivity. Qed.

Lemma power_list_supported (m : string) (l : list string) :
  Forall (fun f => str_in f GroupBy.power_based_supported = true) l ->
  Forall (fun f => str_in f (GroupBy.capability_set m) = true) l.
Proof.
  unfold GroupBy.capability_set.
  destruct (String.eqb m "POWER_BASED"); [auto|].
  apply Forall_impl. intros f. apply power_fields_in_spend.
Qed.

(** X19.  The modes [--full-dataset], [--full-dataset-spend-based] and
    [--no-grouping] keep what the checks before them established: the
    grouping fields are still ones the calculation method (as the modes
    leave it) supports, and the depth is at most 7.  With a mode on there
    are one to four grouping fields, the depth is 7 and an output file is
    named, so the validator of the retriever would change nothing; a file
    name the user gave is never replaced. *)
Theorem modes_keep_grouping_supported (now : string) (a : Modes.args) :
  Forall (fun f =>
            str_in f (GroupBy.capability_set (Modes.calculation_method a)) = true)
         (Modes.group_by a) ->
  (forall d, Modes.compartment_depth a = Some d -> (d <= 7)%Z) ->
  let a' := Modes.resolve_modes now a in
  Forall (fun f =>
            str_in f (GroupBy.capability_set (Modes.calculation_method a')) = true)
         (Modes.group_by a')
  /\ (forall d, Modes.compartment_depth a' = Some d -> (d <= 7)%Z)
  /\ (Modes.bulk_mode a = true ->
      (1 <= List.length (Modes.group_by a') <= 4)%nat
      /\ Modes.compartment_depth a' = Some 7%Z
      /\ token_truthy (Modes.output a') = true
      /\ GroupBy.validate_group_by_fields
           (Modes.group_by a') (Modes.calculation_method a')
         = Modes.group_by a')
  /\ (token_truthy (Modes.output a) = true -> Modes.output a' = Modes.output a).
Proof.
  intros Hsup Hdepth a'.
  assert (P3 : forall m,
             Forall (fun f => str_in f (GroupBy.capability_set m) = true)
                    [ "service"; "compartmentName"; "region" ]).
  { intros m. apply power_list_supported. repeat constructor. }
  assert (P4 : Forall (fun f =>
                         str_in f (GroupBy.capability_set "SPEND_BASED") = true)
                      [ "service"; "compartmentName"; "resourceId"; "skuName" ]).
  { repeat constructor. }
  assert (Hseven : forall d : Z, Some 7%Z = Some d -> (d <= 7)%Z).
  { intros d E. injection E as <-. lia. }
  destruct a as [m et g gb depth out fd fs ng].
  subst a'. unfold Modes.resolve_modes, Modes.no_grouping_mode,
    Modes.full_dataset_spend_based_mode, Modes.full_dataset_mode,
    Modes.bulk_mode.
  cbn [Modes.calculation_method Modes.group_by Modes.compartment_depth
       Modes.output Modes.full_dataset Modes.full_dataset_spend_based
       Modes.no_grouping] in *.
  split; [|split; [|split]].
  - destruct fd, fs, ng;
      cbn [Modes.calculation_method Modes.group_by];
      first [exact Hsup | apply P3 | exact P4].
  - destruct fd, fs, ng; cbn [Modes.compartment_depth];
      first [exact Hdepth | exact Hseven].
  - destruct fd, fs, ng;
      cbn [Modes.calculation_method Modes.group_by Modes.compartment_depth
           Modes.output Modes.full_dataset Modes.full_dataset_spend_based
           Modes.no_grouping orb];
      try discriminate; intros _;
      (split; [cbn [List.length]; lia|]);
      (split; [reflexivity|]);
      (split;
       [ apply default_output_truthy
       | apply validate_fixed;
         [ discriminate | cbn [List.length]; lia
         | first [apply P3 | exact P4] ] ]).
  - intros Hout.
    destruct fd, fs, ng;
      cbn [Modes.output Modes.full_dataset Modes.full_dataset_spend_based
           Modes.no_grouping];
      repeat (rewrite (default_output_given _ _ out Hout));
      reflexivity.
Qed.

Lemma modes_keep_grouping_supported_witness :
  Modes.group_by
    (Modes.resolve_modes "20240301_101500"
       (Modes.mk_args "POWER_BASED" "LOCATION_BASED" "MONTHLY" [ "region" ]
          (Some 3%Z) None true true false))
  = [ "service"; "compartmentName"; "resourceId"; "skuName" ]
  /\ Forall (fun f =>
               str_in f (GroupBy.capability_set "SPEND_BASED") = true)
            [ "service"; "compartmentName"; "resourceId"; "skuName" ].
Proof.
  split; [reflexivity|].
  refine (proj1 (modes_keep_grouping_supported "20240301_101500"
            (Modes.mk_args "POWER_BASED" "LOCATION_BASED" "MONTHLY" [ "region" ]
               (Some 3%Z) None true true false) _ _)).
  - repeat constructor.
  - intros d E. injection E as <-. lia.
Defined.

(** ** The list of compartments *)

(** X20.  [print_compartment_list] prints the message that nothing was
    found exactly when [get_compartment_list] returned the empty list, which
    is when a call of the identity service raised; a failure of the second
    call discards what the first one listed.  Otherwise the table has the
    line of the root compartment first, then one line for each listed
    compartment in the order of the service, and its total is their number:
    the table is never empty. *)
Theorem compartment_table_all_or_nothing
    (World : Type)
    (IdentityClient : World -> result unit * World)
    (list_compartments :
       string -> World -> result (list Identity.Sdk.Compartment) * World)
    (get_tenancy : string -> World -> result Identity.Sdk.Tenancy * World)
    (self_tenant_id : string) (w : World) :
  let compartments :=
    fst (Identity.get_compartment_list World IdentityClient list_compartments
           get_tenancy self_tenant_id w) in
  let printed :=
    fst (Identity.print_compartment_list World IdentityClient
           list_compartments get_tenancy self_tenant_id w) in
  (compartments = [] /\ printed = None
   /\ exists w1,
       fst (IdentityClient w) <> Return tt
       \/ (IdentityClient w = (Return tt, w1)
           /\ exists e w2,
               list_compartments self_tenant_id w1 = (Raise e, w2))
       \/ (IdentityClient w = (Return tt, w1)
           /\ exists data w2 e w3,
               list_compartments self_tenant_id w1 = (Return data, w2)
               /\ get_tenancy self_tenant_id w2 = (Raise e, w3)))
  \/ (exists w1 data w2 tenancy w3,
         IdentityClient w = (Return tt, w1)
         /\ list_compartments self_tenant_id w1 = (Return data, w2)
         /\ get_tenancy self_tenant_id w2 = (Return tenancy, w3)
         /\ compartments
            = Identity.root_entry tenancy :: map Identity.entry_of data
         /\ printed
            = Some (Identity.mk_table
                      (Identity.format_row (Identity.root_entry tenancy)
                       :: map (fun c => Identity.format_row
                                          (Identity.entry_of c)) data)
                      (S (List.length data)))).
Proof.
  intros compartments printed. subst compartments printed.
  unfold Identity.print_compartment_list, Identity.get_compartment_list.
  destruct (IdentityClient w) as [[[]|e0] w1] eqn:E0.
  - destruct (list_compartments self_tenant_id w1) as [[data|e1] w2] eqn:E1.
    + destruct (get_tenancy self_tenant_id w2) as [[tenancy|e2] w3] eqn:E2.
      * right. exists w1, data, w2, tenancy, w3.
        rewrite E1.
        split; [reflexivity|]. split; [reflexivity|]. split; [exact E2|].
        split; [reflexivity|].
        cbn. rewrite List.map_map, List.length_map. reflexivity.
      * left. repeat (split; [reflexivity|]). exists w1. right. right.
        split; [reflexivity|]. exists data, w2, e2, w3. rewrite E1.
        split; [reflexivity | exact E2].
    + left. repeat (split; [reflexivity|]). exists w1. right. left.
      split; [reflexivity|]. exists e1, w2. exact E1.
  - left. repeat (split; [reflexivity|]). exists w1. left.
    cbn. discriminate.
Qed.

Lemma spaces_length (n : nat) : String.length (Identity.spaces n) = n.
Proof. induction n as [|n IH]; cbn; [reflexivity | rewrite IH; reflexivity]. Qed.

Lemma spaces_get (n i : nat) :
  (i < n)%nat -> String.get i (Identity.spaces n) = Some " "%char.
Proof.
  revert i. induction n as [|n IH]; intros [|i] H; cbn; try lia;
    [reflexivity | apply IH; lia].
Qed.

Lemma substring_0_length (m : nat) (s : string) :
  String.length (String.substring 0 m s) = Nat.min m (String.length s).
Proof.
  revert m. induction s as [|c s IH]; intros [|m]; cbn; try reflexivity.
  rewrite IH. reflexivity.
Qed.

Lemma substring_prefix (a b : string) :
  String.substring 0 (String.length a) (a ++ b) = a.
Proof.
  induction a as [|c a IH]; cbn; [destruct b; reflexivity|].
  rewrite IH. reflexivity.
Qed.

Lemma substring_app_skip (a b : string) (m : nat) :
  String.substring (String.length a) m (a ++ b) = String.substring 0 m b.
Proof. induction a as [|c a IH]; cbn; [reflexivity | exact IH]. Qed.

Lemma ljust_length (width : nat) (s : string) :
  String.length (Identity.ljust width s) = Nat.max width (String.length s).
Proof.
  unfold Identity.ljust. rewrite str_length_app, spaces_length. lia.
Qed.

(** The column of the name: thirty characters, the last one a space. *)
Lemma name_column (name : string) :
  String.length (Identity.ljust 30 (String.substring 0 29 name)) = 30%nat
  /\ String.get 29 (Identity.ljust 30 (String.substring 0 29 name))
     = Some " "%char.
Proof.
  pose proof (substring_0_length 29 name) as L.
  split.
  - rewrite ljust_length. lia.
  - unfold Identity.ljust.
    set (n := String.substring 0 29 name) in *.
    replace 29%nat with ((29 - String.length n) + String.length n)%nat
      at 1 by lia.
    rewrite <- append_correct2. apply spaces_get. lia.
Qed.

(** X21.  In every line of the table of compartments the name takes the
    first thirty characters, cut to 29 and followed by a space, so that the
    identifier always starts at the same place, two spaces at least after
    the name, and is printed whole; the line is 92 characters long unless
    the identifier is longer than 50 characters or the state longer than
    10, which push the rest to the right. *)
Theorem compartment_row_alignment (compartment : Identity.entry) :
  String.substring 0 (Nat.min 29 (String.length (Identity.name compartment)))
    (Identity.format_row compartment)
  = String.substring 0 29 (Identity.name compartment)
  /\ String.get 29 (Identity.format_row compartment) = Some " "%char
  /\ String.get 30 (Identity.format_row compartment) = Some " "%char
  /\ String.substring 31 (String.length (Identity.id compartment))
       (Identity.format_row compartment)
     = Identity.id compartment
  /\ String.length (Identity.format_row compartment)
     = (32 + Nat.max 50 (String.length (Identity.id compartment))
        + Nat.max 10 (String.length (Identity.lifecycle_state compartment)))%nat.
Proof.
  destruct compartment as [cid cname cdesc cstate ctime].
  unfold Identity.format_row.
  cbn [Identity.id Identity.name Identity.lifecycle_state].
  destruct (name_column cname) as [LA GA].
  set (A := Identity.ljust 30 (String.substring 0 29 cname)) in *.
  split; [|split; [|split; [|split]]].
  - subst A. unfold Identity.ljust.
    rewrite <- (substring_0_length 29 cname).
    rewrite <- str_append_assoc. apply substring_prefix.
  - rewrite <- append_correct1 by lia. exact GA.
  - change 30%nat with (0 + 30)%nat. rewrite <- LA.
    rewrite <- append_correct2. reflexivity.
  - rewrite str_append_assoc.
    replace 31%nat with (String.length (A ++ " ")%string)
      by (rewrite str_length_app, LA; reflexivity).
    rewrite substring_app_skip. unfold Identity.ljust.
    rewrite <- str_append_assoc. apply substring_prefix.
  - rewrite !str_length_app, LA, !ljust_length. cbn [String.length]. lia.
Qed.

Lemma check_dates_first_days (ys ms ye me : Z) :
  (1 <= ys <= 9999)%Z -> (1 <= ms <= 12)%Z ->
  (1 <= ye <= 9999)%Z -> (1 <= me <= 12)%Z ->
  Cli.check_dates (date_text ys ms 1) (Some (date_text ye me 1))
  = Cli.DatesChecked (date_text ys ms 1) (date_text ye me 1).
Proof.
  intros Hys Hms Hye Hme. unfold Cli.check_dates.
  rewrite !strptime_ymd_date_text by lia.
  rewrite !datetime_new_valid
    by (apply first_of_month_valid; [lia | lia | exact I]).
  reflexivity.
Qed.

(** X22.  With [--last-month] or [--last-3-months] and the clock in the
    year 1001 or later, the check of the dates in [main] lets the computed
    range through as it is: it neither stops the program nor moves a
    date. *)
Theorem relative_period_passes_date_check (today : datetime) (period : string) :
  valid_fields today = true -> (1001 <= year today)%Z ->
  period = "last_month" \/ period = "last_3_months" ->
  exists start_date_str end_date_str,
    calculate_first_day_date_range today period
    = Return (start_date_str, end_date_str)
    /\ Cli.check_dates start_date_str (Some end_date_str)
       = Cli.DatesChecked start_date_str end_date_str.
Proof.
  intros Hv Hy Hp.
  pose proof (proj1 (valid_fields_spec today) Hv) as V.
  destruct V as (Vy & Vm & _).
  destruct (date_range_four_digits today period Hv Hy Hp)
    as (ys & ms & E & Hys & Hms).
  exists (date_text ys ms 1), (date_text (year today) (month today) 1).
  split; [exact E|].
  apply check_dates_first_days; lia.
Qed.

Lemma relative_period_passes_date_check_witness :
  exists start_date_str end_date_str,
    calculate_first_day_date_range
      (mk_datetime 2024 2 29 13 45 10 0 None) "last_3_months"
    = Return (start_date_str, end_date_str)
    /\ Cli.check_dates start_date_str (Some end_date_str)
       = Cli.DatesChecked start_date_str end_date_str.
Proof.
  apply (relative_period_passes_date_check
           (mk_datetime 2024 2 29 13 45 10 0 None) "last_3_months");
    [reflexivity | simpl; lia | right; reflexivity].
Defined.

(** ** The normaliser on every text it accepts *)

(** X24.  Whatever date string the normaliser accepts, what it returns is
    the first instant of the month of the datetime it read from that
    string (by [strptime] for a date alone, by [fromisoformat] for a text
    with a time part), the year as [%Y] prints it.  When that year is 1000
    or later the text has the form [YYYY-MM-01T00:00:00Z], and normalising
    it again returns it unchanged. *)
Theorem normalize_idempotent_from_year_1000 (d out : string) :
  _parse_and_validate_datetime d = Return out ->
  exists dt,
    parsed_datetime d = Return dt
    /\ (1 <= year dt <= 9999)%Z /\ (1 <= month dt <= 12)%Z
    /\ out = (year_text (year dt) ++ "-" ++ pad2 (month dt)
              ++ "-01T00:00:00Z")%string
    /\ ((1000 <= year dt)%Z ->
        out = (pad4 (year dt) ++ "-" ++ pad2 (month dt)
               ++ "-01T00:00:00Z")%string
        /\ _parse_and_validate_datetime out = Return out).
Proof.
  intros H.
  destruct (normalize_result d out H) as (dt & P & Hy & Hm & ->).
  exists dt. split; [exact P|]. split; [exact Hy|]. split; [exact Hm|].
  split; [reflexivity|].
  intros H1000. rewrite (first_instant_text_month_start _ _ H1000).
  split; [reflexivity|].
  apply normalize_month_start; lia.
Qed.

Lemma normalize_idempotent_from_year_1000_witness :
  parsed_datetime "2024-03-15T10:20:30.5Z"
  = Return (mk_datetime 2024 3 15 10 20 30 500000 (Some 0%Z))
  /\ _parse_and_validate_datetime "2024-03-01T00:00:00Z"
     = Return "2024-03-01T00:00:00Z".
Proof.
  destruct (normalize_idempotent_from_year_1000 "2024-03-15T10:20:30.5Z"
              "2024-03-01T00:00:00Z" eq_refl)
    as (dt & P & _ & _ & _ & Hfix).
  split; [reflexivity|].
  assert (E : dt = mk_datetime 2024 3 15 10 20 30 500000 (Some 0%Z)).
  { vm_compute in P. injection P as <-. reflexivity. }
  subst dt. apply Hfix. cbn. lia.
Defined.
